(** * GameBeta: movement, charge-casting, projectiles, mana and camera zoom

    A shallow embedding of the game logic of the repository:
    - [PlayerController] and [MagicController] (src/main.ts),
    - [SimpleMagicController] (src/systems/SimpleMagicController.ts),
    - [PlayerStats] (src/systems/CharacterAnimator.ts, second document),
    - [PlayerMovement] in its two variants and [InputManager],
    - [ThirdPersonCamera],
    - [Doubles]: the projectile loops and the interpolation of the camera
      once more, in doubles.

    JavaScript numbers are modelled by exact rationals ([Q]) where the code
    compares, clamps and selects, and where a statement is about one step.
    Where the rounding of the arithmetic decides what the code does they are
    IEEE doubles ([float], with the processor's operations): the movement
    vector of [InputManager], the flight of a projectile over several
    frames and the smoothing of the camera in [Doubles].  The frame update of
    the camera in [CameraMotion] rounds every sum, difference and product
    with a rounding function that is left open.  The clock
    ([performance.now()]) is an explicit argument, and calls into the
    rendering/physics engine are either recorded in a log or taken as
    section variables. *)

From Stdlib Require Import Floats.
From Stdlib Require Import QArith Qround Qminmax ZArith List Bool Lia String.
From Stdlib Require Lqa.
Import ListNotations.

Set Warnings "-inexact-float".

Local Open Scope Q_scope.

(** ** Numbers *)

(** [a < b] and [a >= b] on JavaScript numbers, as booleans. *)
Definition Qltb (a b : Q) : bool := negb (Qle_bool b a).
Definition Qgeb (a b : Q) : bool := Qle_bool b a.
Definition Qgtb (a b : Q) : bool := negb (Qle_bool a b).

(** [Math.ceil], [Math.min], [Math.max]. *)
Definition Math_ceil (a : Q) : Q := inject_Z (Qceiling a).
Definition Math_min (a b : Q) : Q := Qmin a b.
Definition Math_max (a b : Q) : Q := Qmax a b.

(** A square root for examples: the integer square root of the integer
    part, which is [Math.sqrt] on the squares of integers. *)
Definition sqrtOfSquare (a : Q) : Q := inject_Z (Z.sqrt (Qfloor a)).

(** *** IEEE doubles

    [a < b], [a <= b], [a > b] and [a >= b] on doubles; the arithmetic is
    [+], [-], [*], [/] and [sqrt] of [float]. *)
Definition Fltb (a b : float) : bool := (a <? b)%float.
Definition Fleb (a b : float) : bool := (a <=? b)%float.
Definition Fgtb (a b : float) : bool := (b <? a)%float.
Definition Fgeb (a b : float) : bool := (b <=? a)%float.

(** The rational number a finite double stands for (0 for the others). *)
Definition exactValue (a : float) : Q :=
  match Prim2SF a with
  | S754_finite s m e =>
      (if s then -1 else 1) * inject_Z (Z.pos m) * 2 ^ e
  | _ => 0
  end.

(** *** Calls that throw

    What a call leaves behind: the state, and the error when it threw. *)
Inductive Outcome (A : Type) : Type :=
  | Returned (state : A)
  | Threw (error : string) (state : A).

Arguments Returned {A} state.
Arguments Threw {A} error state.

Definition stateOf {A : Type} (o : Outcome A) : A :=
  match o with
  | Returned state => state
  | Threw _ state => state
  end.

Definition errorOf {A : Type} (o : Outcome A) : option string :=
  match o with
  | Returned _ => None
  | Threw error _ => Some error
  end.

(** ** Shared data *)

(** [MovementState] (the enum of PlayerMovement.ts, six values). *)
Inductive MovementState : Set :=
  | IDLE | WALKING | RUNNING | JUMPING | FALLING | LANDING.

(** [a !== b] on states is [negb (MovementState_eqb a b)]. *)
Definition MovementState_eqb (a b : MovementState) : bool :=
  match a, b with
  | IDLE, IDLE | WALKING, WALKING | RUNNING, RUNNING
  | JUMPING, JUMPING | FALLING, FALLING | LANDING, LANDING => true
  | _, _ => false
  end.

Record Vector3 : Set := mkVector3 { vx : Q; vy : Q; vz : Q }.

Record Color3 : Set := mkColor3 { cr : Q; cg : Q; cb : Q }.

(** [SpellData] (src/main.ts and SimpleMagicController.ts). *)
Record SpellData : Set := mkSpell {
  name : string;
  manaCost : Q;
  projectileSpeed : Q;
  projectileSize : Q;
  damage : Q;
  color : Color3;
  castTime : Q
}.

(** The [spells] table of a magic controller. *)
Record Spells : Set := mkSpells {
  waterBallQuick : SpellData;
  waterBallCharged : SpellData
}.

(** [Projectile]: the mesh is kept as its position and its [scaling.x]. *)
Record Projectile : Set := mkProjectile {
  meshPosition : Vector3;
  meshScalingX : Q;
  direction : Vector3;
  speed : Q;
  projDamage : Q;
  lifetime : Q;
  maxLifetime : Q
}.

Definition Vector3_scale (v : Vector3) (k : Q) : Vector3 :=
  mkVector3 (vx v * k) (vy v * k) (vz v * k).

Definition Vector3_add (a b : Vector3) : Vector3 :=
  mkVector3 (vx a + vx b) (vy a + vy b) (vz a + vz b).

(** ** The projectile loop of both magic controllers

    [for (let i = a.length - 1; i >= 0; i--)]: the projectile at index [i]
    is updated in place, and removed with [splice(i, 1)] when the body says
    so ([None]). *)

Definition splice1 {A : Type} (i : nat) (l : list A) : list A :=
  firstn i l ++ skipn (S i) l.

Definition setAt {A : Type} (i : nat) (a : A) (l : list A) : list A :=
  firstn i l ++ a :: skipn (S i) l.

(** The iterations for the indices [i - 1], ..., [0]. *)
Fixpoint loopFrom {A : Type} (body : A -> option A) (i : nat) (l : list A)
    : list A :=
  match i with
  | O => l
  | S j =>
      match nth_error l j with
      | None => loopFrom body j l
      | Some a =>
          match body a with
          | None => loopFrom body j (splice1 j l)
          | Some a' => loopFrom body j (setAt j a' l)
          end
      end
  end.

Definition forEachFromEnd {A : Type} (body : A -> option A) (l : list A)
    : list A :=
  loopFrom body (List.length l) l.

(** What the loop amounts to: every element updated, the removed ones
    dropped, the order kept. *)
Fixpoint keepUpdated {A : Type} (body : A -> option A) (l : list A)
    : list A :=
  match l with
  | [] => []
  | a :: rest =>
      match body a with
      | None => keepUpdated body rest
      | Some a' => a' :: keepUpdated body rest
      end
  end.

(** The first two statements of the loop body of both controllers: the mesh
    moves along the direction, and the lifetime grows by [deltaTime].  This
    is one frame, in exact arithmetic; the sums over several frames are in
    [Doubles]. *)
Definition moveProjectile (deltaTime : Q) (projectile : Projectile)
    : Projectile :=
  let movement :=
    Vector3_scale (direction projectile) (speed projectile * deltaTime) in
  {| meshPosition := Vector3_add (meshPosition projectile) movement;
     meshScalingX := meshScalingX projectile;
     direction := direction projectile;
     speed := speed projectile;
     projDamage := projDamage projectile;
     lifetime := lifetime projectile + deltaTime;
     maxLifetime := maxLifetime projectile |}.

(** ** PlayerController (src/main.ts): the mana pool of the first player *)

Module PlayerController.

Record t : Set := mk {
  maxMana : Q;
  currentMana : Q;
  manaRegenRate : Q;
  currentState : MovementState
}.

Definition initial : t :=
  {| maxMana := 100; currentMana := 100; manaRegenRate := 10;
     currentState := IDLE |}.

Definition set_currentMana (m : Q) (pc : t) : t :=
  {| maxMana := maxMana pc; currentMana := m;
     manaRegenRate := manaRegenRate pc; currentState := currentState pc |}.

(** The rate [regenerateMana] uses: slower while running. *)
Definition regenRate (pc : t) : Q :=
  match currentState pc with
  | RUNNING => manaRegenRate pc * (7 # 10)
  | _ => manaRegenRate pc
  end.

(** [regenerateMana(deltaTime)] *)
Definition regenerateMana (deltaTime : Q) (pc : t) : t :=
  if Qltb (currentMana pc) (maxMana pc) then
    set_currentMana
      (Math_min (maxMana pc) (currentMana pc + regenRate pc * deltaTime)) pc
  else pc.

(** Several frames of regeneration, one [deltaTime] each. *)
Definition regenSteps (deltaTimes : list Q) (pc : t) : t :=
  fold_left (fun acc deltaTime => regenerateMana deltaTime acc) deltaTimes pc.

(** [spendMana(amount)]: the result and the controller afterwards. *)
Definition spendMana (amount : Q) (pc : t) : bool * t :=
  if Qgeb (currentMana pc) amount then
    (true, set_currentMana (currentMana pc - amount) pc)
  else (false, pc).

End PlayerController.

(** ** PlayerStats (src/systems/CharacterAnimator.ts, second document) *)

Module PlayerStats.

Record RegenConfig : Set := mkRegen {
  manaRegenRate : Q;
  restingMultiplier : Q;
  movingMultiplier : Q;
  runningMultiplier : Q
}.

(** What the observers of the stats are told ([onManaChange], [onStatChanged]). *)
Inductive StatsEvent : Set :=
  | ManaChange (current max delta : Q)
  | SpellsCastChanged (newValue : nat).

Record t : Set := mk {
  mana : Q;
  maxMana : Q;
  spellsCast : nat;
  regenConfig : RegenConfig;
  events : list StatsEvent          (* notifications sent, latest first *)
}.

Definition defaultRegenConfig : RegenConfig :=
  {| manaRegenRate := 10; restingMultiplier := 15 # 10;
     movingMultiplier := 1; runningMultiplier := 7 # 10 |}.

Definition initial : t :=
  {| mana := 100; maxMana := 100; spellsCast := 0;
     regenConfig := defaultRegenConfig; events := [] |}.

(** The rate [updateManaRegen] applies in a movement state. *)
Definition regenRate (cfg : RegenConfig) (movementState : MovementState) : Q :=
  match movementState with
  | IDLE => manaRegenRate cfg * restingMultiplier cfg
  | WALKING => manaRegenRate cfg * movingMultiplier cfg
  | RUNNING => manaRegenRate cfg * runningMultiplier cfg
  | JUMPING | FALLING => manaRegenRate cfg * (5 # 10)
  | LANDING => manaRegenRate cfg
  end.

(** [updateManaRegen(deltaTime, movementState)] *)
Definition updateManaRegen (deltaTime : Q) (movementState : MovementState)
    (s : t) : t :=
  if Qgeb (mana s) (maxMana s) then s
  else
    let oldMana := mana s in
    let newMana :=
      Math_min (maxMana s)
               (mana s + regenRate (regenConfig s) movementState * deltaTime) in
    {| mana := newMana; maxMana := maxMana s; spellsCast := spellsCast s;
       regenConfig := regenConfig s;
       events := if Qeq_bool newMana oldMana then events s
                 else ManaChange newMana (maxMana s) (newMana - oldMana)
                        :: events s |}.

(** Several frames of regeneration, each with its [deltaTime] and the
    movement state of the frame. *)
Definition regenSteps (frames : list (Q * MovementState)) (s : t) : t :=
  fold_left (fun acc frame => updateManaRegen (fst frame) (snd frame) acc)
    frames s.

(** [spendMana(amount)] *)
Definition spendMana (amount : Q) (s : t) : bool * t :=
  if Qltb (mana s) amount then (false, s)
  else
    (true,
     {| mana := mana s - amount; maxMana := maxMana s;
        spellsCast := spellsCast s; regenConfig := regenConfig s;
        events := ManaChange (mana s - amount) (maxMana s) (- amount)
                    :: events s |}).

(** [recordSpellCast()] *)
Definition recordSpellCast (s : t) : t :=
  {| mana := mana s; maxMana := maxMana s; spellsCast := S (spellsCast s);
     regenConfig := regenConfig s;
     events := SpellsCastChanged (S (spellsCast s)) :: events s |}.

(** [Player.spendMana(amount)] (the composed player): spend, and count the
    spell when the mana was there. *)
Definition Player_spendMana (amount : Q) (s : t) : bool * t :=
  let (success, s') := spendMana amount s in
  if success then (true, recordSpellCast s') else (false, s').

End PlayerStats.

(** ** MagicController (src/main.ts) *)

Module MagicController.

(** Calls made to the [GameUI] collaborator. *)
Inductive UICall : Set :=
  | showCastingBar
  | hideCastingBar
  | updateCastingProgress (progress : Q).

Record t : Set := mk {
  playerController : PlayerController.t;
  gameUI : list UICall;               (* calls made so far, latest first *)
  targetMeshes : list (option Vector3); (* position of each target, if it has one *)
  isCasting : bool;
  castStartTime : Q;                  (* milliseconds *)
  currentSpell : option SpellData;    (* [null] is [None] *)
  activeProjectiles : list Projectile;
  spellsCast : nat;
  spells : Spells
}.

Definition defaultSpells : Spells :=
  {| waterBallQuick :=
       {| name := "Water Ball (Rápida)"; manaCost := 5; projectileSpeed := 25;
          projectileSize := 3 # 10; damage := 15;
          color := mkColor3 (2 # 10) (6 # 10) 1; castTime := 0 |};
     waterBallCharged :=
       {| name := "Water Ball (Carregada)"; manaCost := 20;
          projectileSpeed := 15; projectileSize := 6 # 10; damage := 50;
          color := mkColor3 (1 # 10) (4 # 10) (9 # 10); castTime := 2 |} |}.

Definition create (pc : PlayerController.t)
    (targets : list (option Vector3)) : t :=
  {| playerController := pc; gameUI := []; targetMeshes := targets;
     isCasting := false; castStartTime := 0; currentSpell := None;
     activeProjectiles := []; spellsCast := 0; spells := defaultSpells |}.

(** The quick-click window of [finishCasting], in seconds. *)
Definition quickThreshold : Q := 2 # 10.

(** [startCasting()], called at time [now] (milliseconds). *)
Definition startCasting (now : Q) (m : t) : t :=
  if isCasting m then m
  else
    {| playerController := playerController m;
       gameUI := showCastingBar :: gameUI m;
       targetMeshes := targetMeshes m;
       isCasting := true;
       castStartTime := now;
       currentSpell := Some (waterBallCharged (spells m));
       activeProjectiles := activeProjectiles m;
       spellsCast := spellsCast m;
       spells := spells m |}.

(** The partial-cast spell of [finishCasting]: the charged tier with
    [manaCost], [projectileSize] and [damage] overwritten. *)
Definition partialSpell (sp : Spells) (powerRatio : Q) : SpellData :=
  let quick := waterBallQuick sp in
  let charged := waterBallCharged sp in
  {| name := name charged;
     manaCost :=
       Math_ceil (manaCost quick
                  + (manaCost charged - manaCost quick) * powerRatio);
     projectileSpeed := projectileSpeed charged;
     projectileSize :=
       projectileSize quick
       + (projectileSize charged - projectileSize quick) * powerRatio;
     damage :=
       Math_ceil (damage quick + (damage charged - damage quick) * powerRatio);
     color := color charged;
     castTime := castTime charged |}.

(** The spell [finishCasting] decides on after holding for [heldTime]
    seconds (the local [castTime] of the source); [None] is the TypeError of
    reading [castTime] of a null [currentSpell]. *)
Definition spellToCast (sp : Spells) (current : option SpellData)
    (heldTime : Q) : option SpellData :=
  if Qltb heldTime quickThreshold then Some (waterBallQuick sp)
  else
    match current with
    | None => None
    | Some cur =>
        if Qgeb heldTime (castTime cur) then Some (waterBallCharged sp)
        else Some (partialSpell sp (heldTime / castTime cur))
    end.

(** [createProjectile(spell)]: [staffTip] and [staffDirection] are what the
    player controller reports for the staff (the direction normalized);
    the sparkles at the staff are not modelled. *)
Definition createProjectile (staffTip staffDirection : Vector3)
    (spell : SpellData) (m : t) : t :=
  let spawnOffset := Vector3_scale staffDirection (3 # 10) in
  let projectile :=
    {| meshPosition := Vector3_add staffTip spawnOffset;
       meshScalingX := 1;
       direction := staffDirection;
       speed := projectileSpeed spell;
       projDamage := damage spell;
       lifetime := 0;
       maxLifetime := 8 |} in
  {| playerController := playerController m;
     gameUI := gameUI m;
     targetMeshes := targetMeshes m;
     isCasting := isCasting m;
     castStartTime := castStartTime m;
     currentSpell := currentSpell m;
     activeProjectiles := activeProjectiles m ++ [projectile];
     spellsCast := spellsCast m;
     spells := spells m |}.

Definition set_playerController (pc : PlayerController.t) (m : t) : t :=
  {| playerController := pc; gameUI := gameUI m;
     targetMeshes := targetMeshes m; isCasting := isCasting m;
     castStartTime := castStartTime m; currentSpell := currentSpell m;
     activeProjectiles := activeProjectiles m; spellsCast := spellsCast m;
     spells := spells m |}.

Definition incr_spellsCast (m : t) : t :=
  {| playerController := playerController m; gameUI := gameUI m;
     targetMeshes := targetMeshes m; isCasting := isCasting m;
     castStartTime := castStartTime m; currentSpell := currentSpell m;
     activeProjectiles := activeProjectiles m;
     spellsCast := S (spellsCast m); spells := spells m |}.

(** [castSpell(spell)] *)
Definition castSpell (staffTip staffDirection : Vector3) (spell : SpellData)
    (m : t) : t :=
  let (ok, pc) := PlayerController.spendMana (manaCost spell)
                    (playerController m) in
  if negb ok then set_playerController pc m
  else
    incr_spellsCast
      (createProjectile staffTip staffDirection spell
         (set_playerController pc m)).

(** [finishCasting()], called at time [now] (milliseconds). *)
Definition finishCasting (now : Q) (staffTip staffDirection : Vector3)
    (m : t) : option t :=
  if negb (isCasting m) then Some m
  else
    let heldTime := (now - castStartTime m) / 1000 in
    match spellToCast (spells m) (currentSpell m) heldTime with
    | None => None
    | Some spellTocast =>
        let m' := castSpell staffTip staffDirection spellTocast m in
        Some {| playerController := playerController m';
                gameUI := hideCastingBar :: gameUI m';
                targetMeshes := targetMeshes m';
                isCasting := false;
                castStartTime := castStartTime m';
                currentSpell := None;
                activeProjectiles := activeProjectiles m';
                spellsCast := spellsCast m';
                spells := spells m' |}
    end.

(** *** Projectiles *)

Section Projectiles.

(** [Vector3.Distance] of the engine. *)
Variable Distance : Vector3 -> Vector3 -> Q.

(** [checkProjectileCollisions(projectile)]; the visual effects of a hit
    are not modelled. *)
Definition checkProjectileCollisions (targets : list (option Vector3))
    (projectile : Projectile) : bool :=
  let projectilePos := meshPosition projectile in
  let collisionRadius := meshScalingX projectile * (5 # 10) + 1 in
  existsb
    (fun target =>
       match target with
       | None => false
       | Some targetPos =>
           Qle_bool (Distance projectilePos targetPos) collisionRadius
       end) targets
  || Qle_bool (vy projectilePos) 0.

(** The body of the loop of [update] for one projectile: the projectile
    after the tick, or [None] when the tick removes it. *)
Definition updateProjectile (targets : list (option Vector3))
    (deltaTime : Q) (projectile : Projectile) : option Projectile :=
  let moved := moveProjectile deltaTime projectile in
  if checkProjectileCollisions targets moved then None
  else if Qgtb (lifetime moved) (maxLifetime moved) then None
  else Some moved.

(** [update(deltaTime)], called at time [now]. *)
Definition update (now deltaTime : Q) (m : t) : t :=
  let ui :=
    match isCasting m, currentSpell m with
    | true, Some cur =>
        let heldTime := (now - castStartTime m) / 1000 in
        updateCastingProgress (Math_min (heldTime / castTime cur) 1)
          :: gameUI m
    | _, _ => gameUI m
    end in
  {| playerController := playerController m;
     gameUI := ui;
     targetMeshes := targetMeshes m;
     isCasting := isCasting m;
     castStartTime := castStartTime m;
     currentSpell := currentSpell m;
     activeProjectiles :=
       forEachFromEnd (updateProjectile (targetMeshes m) deltaTime)
         (activeProjectiles m);
     spellsCast := spellsCast m;
     spells := spells m |}.

End Projectiles.

End MagicController.

(** ** SimpleMagicController (src/systems/SimpleMagicController.ts) *)

Module SimpleMagicController.

(** Calls made to the [Player] besides [spendMana]. *)
Inductive PlayerCall : Set :=
  | player_startCasting
  | player_updateCasting (progress : Q)
  | player_finishCasting.

Record t : Set := mk {
  playerStats : PlayerStats.t;        (* the stats of [this.player] *)
  playerCalls : list PlayerCall;      (* latest first *)
  targetMeshes : list (option Vector3);
  isCasting : bool;
  castStartTime : Q;                  (* milliseconds *)
  activeProjectiles : list Projectile;
  spells : Spells
}.

Definition defaultSpells : Spells :=
  {| waterBallQuick :=
       {| name := "Water Ball Rápida"; manaCost := 10; projectileSpeed := 15;
          projectileSize := 3 # 10; damage := 25;
          color := mkColor3 (3 # 10) (7 # 10) 1; castTime := 2 # 10 |};
     waterBallCharged :=
       {| name := "Water Ball Carregada"; manaCost := 25;
          projectileSpeed := 12; projectileSize := 6 # 10; damage := 60;
          color := mkColor3 (2 # 10) (5 # 10) (9 # 10);
          castTime := 15 # 10 |} |}.

Definition create (stats : PlayerStats.t)
    (targets : list (option Vector3)) : t :=
  {| playerStats := stats; playerCalls := []; targetMeshes := targets;
     isCasting := false; castStartTime := 0; activeProjectiles := [];
     spells := defaultSpells |}.

(** [startCasting()], called at time [now] (milliseconds). *)
Definition startCasting (now : Q) (m : t) : t :=
  if isCasting m then m
  else
    {| playerStats := playerStats m;
       playerCalls := player_startCasting :: playerCalls m;
       targetMeshes := targetMeshes m;
       isCasting := true;
       castStartTime := now;
       activeProjectiles := activeProjectiles m;
       spells := spells m |}.

(** The spell [finishCasting] decides on after [heldTime] seconds. *)
Definition spellToCast (sp : Spells) (heldTime : Q) : SpellData :=
  if Qltb heldTime (3 # 10) then waterBallQuick sp else waterBallCharged sp.

(** [createProjectile(spell)]: [playerPos] and [cameraDir] are the player's
    position and the camera's (normalized) forward direction. *)
Definition createProjectile (playerPos cameraDir : Vector3)
    (spell : SpellData) (m : t) : t :=
  let ahead := Vector3_add playerPos (Vector3_scale cameraDir (15 # 10)) in
  let spawnPos := mkVector3 (vx ahead) (vy ahead + (15 # 10)) (vz ahead) in
  let projectileData :=
    {| meshPosition := spawnPos;
       meshScalingX := 1;
       direction := cameraDir;
       speed := projectileSpeed spell;
       projDamage := damage spell;
       lifetime := 0;
       maxLifetime := 5 |} in
  {| playerStats := playerStats m; playerCalls := playerCalls m;
     targetMeshes := targetMeshes m; isCasting := isCasting m;
     castStartTime := castStartTime m;
     activeProjectiles := activeProjectiles m ++ [projectileData];
     spells := spells m |}.

Definition set_playerStats (s : PlayerStats.t) (m : t) : t :=
  {| playerStats := s; playerCalls := playerCalls m;
     targetMeshes := targetMeshes m; isCasting := isCasting m;
     castStartTime := castStartTime m;
     activeProjectiles := activeProjectiles m; spells := spells m |}.

(** [castSpell(spell)] *)
Definition castSpell (playerPos cameraDir : Vector3) (spell : SpellData)
    (m : t) : t :=
  let (ok, s) := PlayerStats.Player_spendMana (manaCost spell)
                   (playerStats m) in
  if negb ok then set_playerStats s m
  else createProjectile playerPos cameraDir spell (set_playerStats s m).

(** [finishCasting()], called at time [now] (milliseconds). *)
Definition finishCasting (now : Q) (playerPos cameraDir : Vector3) (m : t)
    : t :=
  if negb (isCasting m) then m
  else
    let heldTime := (now - castStartTime m) / 1000 in
    let spell := spellToCast (spells m) heldTime in
    let m' := castSpell playerPos cameraDir spell m in
    {| playerStats := playerStats m';
       playerCalls := player_finishCasting :: playerCalls m';
       targetMeshes := targetMeshes m';
       isCasting := false;
       castStartTime := castStartTime m';
       activeProjectiles := activeProjectiles m';
       spells := spells m' |}.

Section Projectiles.

(** [Vector3.Distance] of the engine. *)
Variable Distance : Vector3 -> Vector3 -> Q.

(** [checkProjectileCollisions(projectile)]; the visual effects of a hit
    are not modelled. *)
Definition checkProjectileCollisions (targets : list (option Vector3))
    (projectile : Projectile) : bool :=
  let projectilePos := meshPosition projectile in
  existsb
    (fun target =>
       match target with
       | None => false
       | Some targetPos => Qltb (Distance projectilePos targetPos) 1
       end) targets
  || Qltb (vy projectilePos) (5 # 10).

(** The body of the loop of [updateProjectiles] for one projectile: the
    projectile after the tick, or [None] when the tick removes it. *)
Definition updateProjectile (targets : list (option Vector3))
    (deltaTime : Q) (projectile : Projectile) : option Projectile :=
  let moved := moveProjectile deltaTime projectile in
  if checkProjectileCollisions targets moved then None
  else if Qgeb (lifetime moved) (maxLifetime moved) then None
  else Some moved.

(** [updateProjectiles(deltaTime)] *)
Definition updateProjectiles (deltaTime : Q) (m : t) : t :=
  {| playerStats := playerStats m; playerCalls := playerCalls m;
     targetMeshes := targetMeshes m; isCasting := isCasting m;
     castStartTime := castStartTime m;
     activeProjectiles :=
       forEachFromEnd (updateProjectile (targetMeshes m) deltaTime)
         (activeProjectiles m);
     spells := spells m |}.

(** [updateCasting(deltaTime)], called at time [now]. *)
Definition updateCasting (now : Q) (m : t) : t :=
  if negb (isCasting m) then m
  else
    let heldTime := (now - castStartTime m) / 1000 in
    let maxCastTime := castTime (waterBallCharged (spells m)) in
    let progress := Math_min (heldTime / maxCastTime) 1 in
    {| playerStats := playerStats m;
       playerCalls := player_updateCasting progress :: playerCalls m;
       targetMeshes := targetMeshes m; isCasting := isCasting m;
       castStartTime := castStartTime m;
       activeProjectiles := activeProjectiles m; spells := spells m |}.

(** [update(deltaTime)] *)
Definition update (now deltaTime : Q) (m : t) : t :=
  updateCasting now (updateProjectiles deltaTime m).

End Projectiles.

End SimpleMagicController.

(** ** InputManager (src/unnamed/part_005, second document) *)

Module InputManager.

Record InputState : Set := mkInput {
  forward : bool;
  backward : bool;
  left : bool;
  right : bool;
  sprint : bool;
  jump : bool;
  mouseMovement : Q * Q;
  scroll : Q;
  primaryClick : bool;
  primaryHold : bool;
  pause : bool
}.

Definition initial : InputState :=
  {| forward := false; backward := false; left := false; right := false;
     sprint := false; jump := false; mouseMovement := (0, 0); scroll := 0;
     primaryClick := false;
     primaryHold := false; pause := false |}.

(** [isMoving()] *)
Definition isMoving (i : InputState) : bool :=
  forward i || backward i || left i || right i.

(** [getMovementVector()], in doubles: the keys give a vector with
    components in {-1, 0, 1}, which is divided by its length unless that
    is zero. *)
Definition getMovementVector (i : InputState) : float * float :=
  let x := 0%float in
  let z := 0%float in
  let x := if left i then (x - 1)%float else x in
  let x := if right i then (x + 1)%float else x in
  let z := if forward i then (z + 1)%float else z in
  let z := if backward i then (z - 1)%float else z in
  let length := sqrt (x * x + z * z)%float in
  if Fgtb length 0 then ((x / length)%float, (z / length)%float) else (x, z).

(** The Euclidean length of a movement vector as the code would compute it,
    and the square of its length as a rational number. *)
Definition vectorLength (v : float * float) : float :=
  sqrt (fst v * fst v + snd v * snd v)%float.

Definition squaredLength (v : float * float) : Q :=
  exactValue (fst v) * exactValue (fst v)
  + exactValue (snd v) * exactValue (snd v).

(** No key moves along the axis, or the two keys of the axis are both held. *)
Definition axisCancelled (negative positive : bool) : bool :=
  Bool.eqb negative positive.

End InputManager.

(** ** PlayerMovement, first variant (src/unnamed/part_005, first document;
       the one [Player] composes) *)

Module PlayerMovement.

Record MovementConfig : Set := mkConfig {
  walkSpeed : Q;
  runSpeed : Q;
  jumpForce : Q;
  airControl : Q;
  groundCheckDistance : Q;
  dampingFactor : Q;
  rotationSpeed : Q;
  mass : Q;
  jumpThreshold : Q;
  runThreshold : Q;
  walkThreshold : Q
}.

Definition defaultConfig : MovementConfig :=
  {| walkSpeed := 4; runSpeed := 8; jumpForce := 8; airControl := 3 # 10;
     groundCheckDistance := 2 # 10; dampingFactor := 9 # 10;
     rotationSpeed := 15; mass := 1; jumpThreshold := 5 # 10;
     runThreshold := 6; walkThreshold := 5 # 10 |}.

(** The physics body, as far as the movement code reads it. *)
Record Body : Set := mkBody {
  linearVelocity : Vector3;
  absolutePosition : Vector3
}.

(** What observers are told: [onStateChanged], [events.onJump]. *)
Inductive Notification : Set :=
  | StateChanged (oldState newState : MovementState)
  | Jumped.

Record t : Set := mk {
  inputManager : InputManager.InputState;
  currentState : MovementState;
  isGrounded : bool;
  config : MovementConfig;
  physicsAggregate : Body;
  notifications : list Notification   (* latest first *)
}.

Definition create (input : InputManager.InputState) (body : Body) : t :=
  {| inputManager := input; currentState := IDLE; isGrounded := true;
     config := defaultConfig; physicsAggregate := body;
     notifications := [] |}.

(** The state resolution in the words of the specification (4.1), highest
    priority first: not grounded and vertical velocity above the jump
    threshold is Jumping; not grounded otherwise is Falling; grounded with
    horizontal speed above the run threshold and sprint held is Running;
    grounded with horizontal speed above the walk threshold is Walking;
    otherwise Idle. *)
Definition specifiedResolution (grounded : bool)
    (verticalVelocity horizontalSpeed : Q) (sprintHeld : bool)
    (jumpT runT walkT : Q) : MovementState :=
  if negb grounded && Qgtb verticalVelocity jumpT then JUMPING
  else if negb grounded then FALLING
  else if Qgtb horizontalSpeed runT && sprintHeld then RUNNING
  else if Qgtb horizontalSpeed walkT then WALKING
  else IDLE.

Section Engine.

(** [body.applyImpulse(impulse, point)] of the physics engine. *)
Variable applyImpulse : Vector3 -> Vector3 -> Body -> Body.
(** [Math.sqrt] *)
Variable Math_sqrt : Q -> Q.

(** [getHorizontalSpeed()] *)
Definition getHorizontalSpeed (m : t) : Q :=
  let velocity := linearVelocity (physicsAggregate m) in
  Math_sqrt (vx velocity * vx velocity + vz velocity * vz velocity).

(** The state [update] determines from the physics. *)
Definition determineState (m : t) : MovementState :=
  if negb (isGrounded m) then
    let verticalVelocity := vy (linearVelocity (physicsAggregate m)) in
    if Qgtb verticalVelocity (jumpThreshold (config m)) then JUMPING
    else FALLING
  else
    let horizontalSpeed := getHorizontalSpeed m in
    if Qgtb horizontalSpeed (runThreshold (config m)) then RUNNING
    else if Qgtb horizontalSpeed (walkThreshold (config m)) then WALKING
    else IDLE.

(** What [this.applyGravity], [this.handleMovement] and
    [this.updateGrounding] give when [update] looks them up: a method, or
    [undefined] ([None]). *)
Record Methods : Type := mkMethods {
  applyGravity : option (Q -> t -> t);
  handleMovement : option (Q -> t -> t);
  updateGrounding : option (t -> t)
}.

(** The class declares none of the three (its private methods are
    [checkGrounded], [processMovement] and [updateState], which [update] does
    not call), and nothing else in the repository defines them. *)
Definition declaredMethods : Methods :=
  {| applyGravity := None; handleMovement := None; updateGrounding := None |}.

(** The error of calling [this.name(...)] when the lookup gives
    [undefined]. *)
Definition notAFunction (name : string) : string :=
  ("TypeError: this." ++ name ++ " is not a function")%string.

(** The body of [update(deltaTime)], whatever the three lookups give. *)
Definition updateWith (methods : Methods) (deltaTime : Q) (m : t)
    : Outcome t :=
  let previousState := currentState m in
  match applyGravity methods with
  | None => Threw (notAFunction "applyGravity") m
  | Some applyGravity =>
      let m := applyGravity deltaTime m in
      match handleMovement methods with
      | None => Threw (notAFunction "handleMovement") m
      | Some handleMovement =>
          let m := handleMovement deltaTime m in
          match updateGrounding methods with
          | None => Threw (notAFunction "updateGrounding") m
          | Some updateGrounding =>
              let m1 := updateGrounding m in
              let newState := determineState m1 in
              Returned
                {| inputManager := inputManager m1;
                   currentState := newState;
                   isGrounded := isGrounded m1;
                   config := config m1;
                   physicsAggregate := physicsAggregate m1;
                   notifications :=
                     if MovementState_eqb newState previousState
                     then notifications m1
                     else StateChanged previousState newState
                          :: notifications m1 |}
          end
      end
  end.

(** [update(deltaTime)] of the class as the source has it. *)
Definition update (deltaTime : Q) (m : t) : Outcome t :=
  updateWith declaredMethods deltaTime m.

(** [jump()] *)
Definition jump (m : t) : t :=
  if negb (isGrounded m) then m
  else
    let jumpImpulse := mkVector3 0 (jumpForce (config m)) 0 in
    {| inputManager := inputManager m;
       currentState := currentState m;
       isGrounded := isGrounded m;
       config := config m;
       physicsAggregate :=
         applyImpulse jumpImpulse
           (absolutePosition (physicsAggregate m)) (physicsAggregate m);
       notifications := Jumped :: notifications m |}.

End Engine.

End PlayerMovement.

(** ** PlayerMovement, second variant (src/unnamed/part_005, third document) *)

Module PlayerMovement2.

Record MovementConfig : Set := mkConfig {
  walkSpeed : Q;
  runSpeed : Q;
  jumpForce : Q;
  airControl : Q;
  groundCheckDistance : Q;
  dampingFactor : Q;
  rotationSpeed : Q;
  mass : Q
}.

Definition defaultConfig : MovementConfig :=
  {| walkSpeed := 4; runSpeed := 8; jumpForce := 8; airControl := 3 # 10;
     groundCheckDistance := 2 # 10; dampingFactor := 9 # 10;
     rotationSpeed := 15; mass := 1 |}.

(** What [events] callbacks are told. *)
Inductive Notification : Set :=
  | StateChange (newState oldState : MovementState)
  | Jumped.

Record t : Set := mk {
  inputManager : InputManager.InputState;
  currentState : MovementState;
  isGrounded : bool;
  config : MovementConfig;
  physicsAggregate : PlayerMovement.Body;
  notifications : list Notification   (* latest first *)
}.

Section Engine.

Variable applyImpulse :
  Vector3 -> Vector3 -> PlayerMovement.Body -> PlayerMovement.Body.
Variable Math_sqrt : Q -> Q.

(** [updateState()] *)
Definition updateState (m : t) : t :=
  let currentVelocity := PlayerMovement.linearVelocity (physicsAggregate m) in
  let horizontalSpeed :=
    Math_sqrt (vx currentVelocity * vx currentVelocity
               + vz currentVelocity * vz currentVelocity) in
  let oldState := currentState m in
  let newState :=
    if negb (isGrounded m) then
      if Qgtb (vy currentVelocity) (5 # 10) then JUMPING else FALLING
    else if Qgtb horizontalSpeed (5 # 10) then
      if InputManager.sprint (inputManager m)
         && Qgtb horizontalSpeed (walkSpeed (config m) * (8 # 10))
      then RUNNING else WALKING
    else IDLE in
  {| inputManager := inputManager m;
     currentState := newState;
     isGrounded := isGrounded m;
     config := config m;
     physicsAggregate := physicsAggregate m;
     notifications :=
       if MovementState_eqb oldState newState
       then notifications m
       else StateChange newState oldState :: notifications m |}.

(** [jump()] *)
Definition jump (m : t) : t :=
  if negb (isGrounded m) then m
  else
    let jumpImpulse := mkVector3 0 (jumpForce (config m)) 0 in
    {| inputManager := inputManager m;
       currentState := currentState m;
       isGrounded := false;
       config := config m;
       physicsAggregate :=
         applyImpulse jumpImpulse
           (PlayerMovement.absolutePosition (physicsAggregate m))
           (physicsAggregate m);
       notifications := Jumped :: notifications m |}.

End Engine.

End PlayerMovement2.

(** ** ThirdPersonCamera (src/unnamed/part_003) *)

Module ThirdPersonCamera.

Record CameraConfig : Set := mkConfig {
  minDistance : Q;
  maxDistance : Q;
  minHeight : Q;
  maxHeight : Q;
  sensitivity : Q;
  smoothing : Q;
  zoomSpeed : Q;
  defaultDistance : Q;
  defaultHeight : Q
}.

(** [Partial<CameraConfig>]: the keys that are present. *)
Record PartialCameraConfig : Set := mkPartial {
  p_minDistance : option Q;
  p_maxDistance : option Q;
  p_minHeight : option Q;
  p_maxHeight : option Q;
  p_sensitivity : option Q;
  p_smoothing : option Q;
  p_zoomSpeed : option Q;
  p_defaultDistance : option Q;
  p_defaultHeight : option Q
}.

Definition override (old : Q) (new : option Q) : Q :=
  match new with Some v => v | None => old end.

(** [{ ...config, ...newConfig }] *)
Definition merge (c : CameraConfig) (n : PartialCameraConfig) : CameraConfig :=
  {| minDistance := override (minDistance c) (p_minDistance n);
     maxDistance := override (maxDistance c) (p_maxDistance n);
     minHeight := override (minHeight c) (p_minHeight n);
     maxHeight := override (maxHeight c) (p_maxHeight n);
     sensitivity := override (sensitivity c) (p_sensitivity n);
     smoothing := override (smoothing c) (p_smoothing n);
     zoomSpeed := override (zoomSpeed c) (p_zoomSpeed n);
     defaultDistance := override (defaultDistance c) (p_defaultDistance n);
     defaultHeight := override (defaultHeight c) (p_defaultHeight n) |}.

Definition defaultConfig : CameraConfig :=
  {| minDistance := 3; maxDistance := 15; minHeight := 1; maxHeight := 8;
     sensitivity := 5 # 1000; smoothing := 8; zoomSpeed := 2;
     defaultDistance := 8; defaultHeight := 4 |}.

Record t : Set := mk {
  cameraDistance : Q;
  cameraHeight : Q;
  targetCameraDistance : Q;
  targetCameraHeight : Q;
  mouseX : Q;
  mouseY : Q;
  targetMouseX : Q;
  targetMouseY : Q;
  config : CameraConfig
}.

(** The constructor, with its optional [config]. *)
Definition create (custom : option PartialCameraConfig) : t :=
  let cfg := match custom with
             | Some n => merge defaultConfig n
             | None => defaultConfig
             end in
  {| cameraDistance := defaultDistance cfg;
     cameraHeight := defaultHeight cfg;
     targetCameraDistance := defaultDistance cfg;
     targetCameraHeight := defaultHeight cfg;
     mouseX := 0; mouseY := 0; targetMouseX := 0; targetMouseY := 0;
     config := cfg |}.

Definition set_targetCameraDistance (d : Q) (c : t) : t :=
  {| cameraDistance := cameraDistance c; cameraHeight := cameraHeight c;
     targetCameraDistance := d; targetCameraHeight := targetCameraHeight c;
     mouseX := mouseX c; mouseY := mouseY c;
     targetMouseX := targetMouseX c; targetMouseY := targetMouseY c;
     config := config c |}.

(** The [onScrollChange] callback of [setupInputHandlers]. *)
Definition onScrollChange (delta : Q) (c : t) : t :=
  let zoomDelta : Q := if Qgtb delta 0 then 1 else -1 in
  set_targetCameraDistance
    (Math_max (minDistance (config c))
       (Math_min (maxDistance (config c))
          (targetCameraDistance c + zoomDelta * zoomSpeed (config c)))) c.

(** [setZoom(distance)] *)
Definition setZoom (distance : Q) (c : t) : t :=
  set_targetCameraDistance
    (Math_max (minDistance (config c))
       (Math_min (maxDistance (config c)) distance)) c.

(** [updateConfig(newConfig)] *)
Definition updateConfig (newConfig : PartialCameraConfig) (c : t) : t :=
  let cfg := merge (config c) newConfig in
  {| cameraDistance := cameraDistance c; cameraHeight := cameraHeight c;
     targetCameraDistance :=
       Math_max (minDistance cfg)
         (Math_min (maxDistance cfg) (targetCameraDistance c));
     targetCameraHeight :=
       Math_max (minHeight cfg)
         (Math_min (maxHeight cfg) (targetCameraHeight c));
     mouseX := mouseX c; mouseY := mouseY c;
     targetMouseX := targetMouseX c; targetMouseY := targetMouseY c;
     config := cfg |}.

(** The zoom operations of the camera. *)
Inductive ZoomOp : Set :=
  | Scroll (delta : Q)
  | SetZoom (distance : Q)
  | UpdateConfig (newConfig : PartialCameraConfig).

Definition applyOp (op : ZoomOp) (c : t) : t :=
  match op with
  | Scroll delta => onScrollChange delta c
  | SetZoom distance => setZoom distance c
  | UpdateConfig newConfig => updateConfig newConfig c
  end.

Definition applyOps (ops : list ZoomOp) (c : t) : t :=
  fold_left (fun acc op => applyOp op acc) ops c.

(** The limits are an interval. *)
Definition limitsOrdered (cfg : CameraConfig) : Prop :=
  minDistance cfg <= maxDistance cfg.

(** The target distance is within the limits in force. *)
Definition targetInBounds (c : t) : Prop :=
  minDistance (config c) <= targetCameraDistance c
  /\ targetCameraDistance c <= maxDistance (config c).

(** Every configuration a run of operations passes through has ordered
    limits. *)
Fixpoint limitsStayOrdered (ops : list ZoomOp) (c : t) : Prop :=
  match ops with
  | [] => True
  | op :: rest =>
      limitsOrdered (config (applyOp op c))
      /\ limitsStayOrdered rest (applyOp op c)
  end.

End ThirdPersonCamera.

(** ** The flight of a projectile and the smoothing of the camera, in
       doubles

    The loop body of both magic controllers once more, on IEEE doubles: over
    several frames the lifetime and the position are running sums, and the
    tick at which the lifetime test fires depends on how they round.  So
    does where the linear interpolation of the camera ends. *)

Module Doubles.

Local Open Scope float_scope.

Record Vector3 : Set := mkVector3 { vx : float; vy : float; vz : float }.

(** [Projectile]: the mesh is kept as its position and its [scaling.x]. *)
Record Projectile : Set := mkProjectile {
  meshPosition : Vector3;
  meshScalingX : float;
  direction : Vector3;
  speed : float;
  projDamage : float;
  lifetime : float;
  maxLifetime : float
}.

(** [v.scale(k)] and [a.addInPlace(b)] *)
Definition Vector3_scale (v : Vector3) (k : float) : Vector3 :=
  mkVector3 (vx v * k) (vy v * k) (vz v * k).

Definition Vector3_add (a b : Vector3) : Vector3 :=
  mkVector3 (vx a + vx b) (vy a + vy b) (vz a + vz b).

(** The first two statements of the loop body of both controllers. *)
Definition moveProjectile (deltaTime : float) (projectile : Projectile)
    : Projectile :=
  let movement :=
    Vector3_scale (direction projectile) (speed projectile * deltaTime) in
  {| meshPosition := Vector3_add (meshPosition projectile) movement;
     meshScalingX := meshScalingX projectile;
     direction := direction projectile;
     speed := speed projectile;
     projDamage := projDamage projectile;
     lifetime := lifetime projectile + deltaTime;
     maxLifetime := maxLifetime projectile |}.

(** The lifetime accumulated after the first [k] ticks of [deltaTimes],
    starting from [elapsed]: the running sum [lifetime += deltaTime]. *)
Fixpoint elapsedAfter (elapsed : float) (deltaTimes : list float) (k : nat)
    {struct k} : float :=
  match k with
  | O => elapsed
  | S j =>
      match deltaTimes with
      | [] => elapsed
      | deltaTime :: rest => elapsedAfter (elapsed + deltaTime) rest j
      end
  end.

(** The tick of [deltaTimes] (counted from 1) at which the loop body [step]
    removes the projectile; [None] when it is still active after them all. *)
Fixpoint removalTick (step : float -> Projectile -> option Projectile)
    (deltaTimes : list float) (projectile : Projectile) : option nat :=
  match deltaTimes with
  | [] => None
  | deltaTime :: rest =>
      match step deltaTime projectile with
      | None => Some 1%nat
      | Some projectile' => option_map S (removalTick step rest projectile')
      end
  end.

(** The projectile registers no collision at any of the ticks: the check
    [collides] is false on each position it moves to. *)
Fixpoint neverCollides (collides : Projectile -> bool)
    (deltaTimes : list float) (projectile : Projectile) : Prop :=
  match deltaTimes with
  | [] => True
  | deltaTime :: rest =>
      collides (moveProjectile deltaTime projectile) = false
      /\ neverCollides collides rest (moveProjectile deltaTime projectile)
  end.

Module MagicController.

Section Projectiles.

(** [Vector3.Distance] of the engine. *)
Variable Distance : Vector3 -> Vector3 -> float.

(** [checkProjectileCollisions(projectile)] (src/main.ts) *)
Definition checkProjectileCollisions (targets : list (option Vector3))
    (projectile : Projectile) : bool :=
  let projectilePos := meshPosition projectile in
  let collisionRadius := meshScalingX projectile * 0.5 + 1.0 in
  existsb
    (fun target =>
       match target with
       | None => false
       | Some targetPos =>
           Fleb (Distance projectilePos targetPos) collisionRadius
       end) targets
  || Fleb (vy projectilePos) 0.

(** The body of the loop of [update] for one projectile. *)
Definition updateProjectile (targets : list (option Vector3))
    (deltaTime : float) (projectile : Projectile) : option Projectile :=
  let moved := moveProjectile deltaTime projectile in
  if checkProjectileCollisions targets moved then None
  else if Fgtb (lifetime moved) (maxLifetime moved) then None
  else Some moved.

(** The loop of [update(deltaTime)] on the projectiles in flight. *)
Definition updateProjectiles (targets : list (option Vector3))
    (deltaTime : float) (activeProjectiles : list Projectile)
    : list Projectile :=
  forEachFromEnd (updateProjectile targets deltaTime) activeProjectiles.

End Projectiles.

End MagicController.

Module SimpleMagicController.

Section Projectiles.

Variable Distance : Vector3 -> Vector3 -> float.

(** [checkProjectileCollisions(projectile)]
    (src/systems/SimpleMagicController.ts) *)
Definition checkProjectileCollisions (targets : list (option Vector3))
    (projectile : Projectile) : bool :=
  let projectilePos := meshPosition projectile in
  existsb
    (fun target =>
       match target with
       | None => false
       | Some targetPos => Fltb (Distance projectilePos targetPos) 1.0
       end) targets
  || Fltb (vy projectilePos) 0.5.

(** The body of the loop of [updateProjectiles] for one projectile. *)
Definition updateProjectile (targets : list (option Vector3))
    (deltaTime : float) (projectile : Projectile) : option Projectile :=
  let moved := moveProjectile deltaTime projectile in
  if checkProjectileCollisions targets moved then None
  else if Fgeb (lifetime moved) (maxLifetime moved) then None
  else Some moved.

(** The loop of [updateProjectiles(deltaTime)]. *)
Definition updateProjectiles (targets : list (option Vector3))
    (deltaTime : float) (activeProjectiles : list Projectile)
    : list Projectile :=
  forEachFromEnd (updateProjectile targets deltaTime) activeProjectiles.

End Projectiles.

End SimpleMagicController.

(** The projectile after the frames of [deltaTimes] when nothing removes
    it. *)
Definition flyTicks (deltaTimes : list float) (projectile : Projectile)
    : Projectile :=
  fold_left (fun acc deltaTime => moveProjectile deltaTime acc) deltaTimes
    projectile.

(** The projectile after the frames of [deltaTimes] under the loop body
    [step]; [None] when one of them removes it. *)
Fixpoint afterTicks (step : float -> Projectile -> option Projectile)
    (deltaTimes : list float) (projectile : Projectile)
    : option Projectile :=
  match deltaTimes with
  | [] => Some projectile
  | deltaTime :: rest =>
      match step deltaTime projectile with
      | None => None
      | Some projectile' => afterTicks step rest projectile'
      end
  end.

(** For examples: a projectile as [createProjectile] spawns it (lifetime 0),
    flying level at height 2.5, and a scene whose targets are out of
    reach. *)
Definition spawned (maxLifetime : float) : Projectile :=
  mkProjectile (mkVector3 0 2.5 0) 1 (mkVector3 1 0 0) 15 25 0 maxLifetime.

Definition outOfReach (_ _ : Vector3) : float := 100.

(** [Math.min(a, b)]: NaN when one of them is, and [-0] below [+0]. *)
Definition Math_min (a b : float) : float :=
  if is_nan a || is_nan b then nan
  else if a <? b then a
  else if b <? a then b
  else if get_sign a then a else b.

(** [lerp(start, end, factor)] of [ThirdPersonCamera]
    (src/unnamed/part_003). *)
Definition lerp (start finish factor : float) : float :=
  start + (finish - start) * Math_min factor 1.

End Doubles.


(** * The rest of the classes

    The modules below embed what the modules above leave out of the same
    classes, and the classes around them:
    - [CameraMotion]: the frame update, the smoothing and the other setters
      of [ThirdPersonCamera] (src/unnamed/part_003), every computed number
      rounded,
    - [InputEvents]: the listeners of [InputManager] (src/unnamed/part_005),
    - [MagicSession]: the handlers and the game loop of [MagicController]
      (src/main.ts),
    - [PlayerControllerMotion]: the physics and the movement of
      [PlayerController] (src/main.ts),
    - [PauseMenu] (src/unnamed/part_002),
    - [PlayerFrame]: the input manager, the camera and the movement in
      [Player.update] (src/unnamed/part_004),
    - [PlayerStatsAll]: health, stamina, experience and levels of
      [PlayerStats] (src/systems/CharacterAnimator.ts),
    - [GameUI]: the casting bar (src/unnamed/part_001), with its
      [setTimeout] callbacks queued by due time. *)

(** ** ThirdPersonCamera, the frame update and the other setters
       (src/unnamed/part_003)

    The position handed to the engine's camera ([updateCameraPosition]) is
    not part of the state kept here. *)

Module CameraMotion.

Import ThirdPersonCamera.

Section Rounding.

(** The rounding of a computed sum, difference or product to the double
    that is stored.  It is left open: what is proved of the functions below
    holds however the results are rounded. *)
Variable round : Q -> Q.

(** [lerp(start, end, factor)] *)
Definition lerp (start finish factor : Q) : Q :=
  round (start + round (round (finish - start) * Math_min factor 1)).

(** [processMouseInput()], with what [inputManager.getMouseDelta()]
    returns. *)
Definition processMouseInput (mouseDelta : Q * Q) (c : t) : t :=
  if negb (Qeq_bool (fst mouseDelta) 0) || negb (Qeq_bool (snd mouseDelta) 0)
  then
    {| cameraDistance := cameraDistance c; cameraHeight := cameraHeight c;
       targetCameraDistance := targetCameraDistance c;
       targetCameraHeight := targetCameraHeight c;
       mouseX := mouseX c; mouseY := mouseY c;
       targetMouseX :=
         round (targetMouseX c
                + round (fst mouseDelta * sensitivity (config c)));
       targetMouseY :=
         Math_max (- (12 # 10))
           (Math_min (12 # 10)
              (round (targetMouseY c
                      + round (snd mouseDelta * sensitivity (config c)))));
       config := config c |}
  else c.

(** [smoothTransitions(deltaTime)] *)
Definition smoothTransitions (deltaTime : Q) (c : t) : t :=
  let smoothingFactor := round (smoothing (config c) * deltaTime) in
  {| cameraDistance :=
       lerp (cameraDistance c) (targetCameraDistance c)
         (round (5 * deltaTime));
     cameraHeight :=
       lerp (cameraHeight c) (targetCameraHeight c) (round (5 * deltaTime));
     targetCameraDistance := targetCameraDistance c;
     targetCameraHeight := targetCameraHeight c;
     mouseX := lerp (mouseX c) (targetMouseX c) smoothingFactor;
     mouseY := lerp (mouseY c) (targetMouseY c) smoothingFactor;
     targetMouseX := targetMouseX c; targetMouseY := targetMouseY c;
     config := config c |}.

(** [update(deltaTime)]; [hasTarget] says whether [setTarget] was called. *)
Definition update (hasTarget : bool) (mouseDelta : Q * Q) (deltaTime : Q)
    (c : t) : t :=
  if negb hasTarget then c
  else smoothTransitions deltaTime (processMouseInput mouseDelta c).

Definition set_targetCameraHeight (h : Q) (c : t) : t :=
  {| cameraDistance := cameraDistance c; cameraHeight := cameraHeight c;
     targetCameraDistance := targetCameraDistance c; targetCameraHeight := h;
     mouseX := mouseX c; mouseY := mouseY c;
     targetMouseX := targetMouseX c; targetMouseY := targetMouseY c;
     config := config c |}.

(** [setHeight(height)], [applyBob(intensity)], [resetBob()] *)
Definition setHeight (height : Q) (c : t) : t :=
  set_targetCameraHeight
    (Math_max (minHeight (config c)) (Math_min (maxHeight (config c)) height))
    c.

Definition applyBob (intensity : Q) (c : t) : t :=
  set_targetCameraHeight (round (defaultHeight (config c) + intensity)) c.

Definition resetBob (c : t) : t :=
  set_targetCameraHeight (defaultHeight (config c)) c.

(** [reset()] *)
Definition reset (c : t) : t :=
  {| cameraDistance := cameraDistance c; cameraHeight := cameraHeight c;
     targetCameraDistance := defaultDistance (config c);
     targetCameraHeight := defaultHeight (config c);
     mouseX := 0; mouseY := 0; targetMouseX := 0; targetMouseY := 0;
     config := config c |}.

(** What happens to a camera that follows a target, the configuration
    staying as it is. *)
Inductive Op : Set :=
  | Frame (mouseDelta : Q * Q) (deltaTime : Q)
  | Scroll (delta : Q)
  | SetZoom (distance : Q)
  | SetHeight (height : Q)
  | ApplyBob (intensity : Q)
  | ResetBob
  | Reset.

Definition applyOp (op : Op) (c : t) : t :=
  match op with
  | Frame mouseDelta deltaTime => update true mouseDelta deltaTime c
  | Scroll delta => onScrollChange delta c
  | SetZoom distance => setZoom distance c
  | SetHeight height => setHeight height c
  | ApplyBob intensity => applyBob intensity c
  | ResetBob => resetBob c
  | Reset => reset c
  end.

Definition run (ops : list Op) (c : t) : t :=
  fold_left (fun acc op => applyOp op acc) ops c.

End Rounding.

(** The targets the camera moves to are within their limits: the target
    distance and the default distance within the zoom limits, the target
    pitch within 1.2 radians of level. *)
Definition targetsWithinLimits (c : t) : Prop :=
  (minDistance (config c) <= targetCameraDistance c
   /\ targetCameraDistance c <= maxDistance (config c))
  /\ (minDistance (config c) <= defaultDistance (config c)
      /\ defaultDistance (config c) <= maxDistance (config c))
  /\ (- (12 # 10) <= targetMouseY c /\ targetMouseY c <= 12 # 10).

End CameraMotion.

(** ** InputManager, the listeners (src/unnamed/part_005, second document)

    The callbacks registered with [setEventCallback] are recorded as they
    are called; a key is the [code] of the keyboard event. *)

Module InputEvents.

Import InputManager.

Inductive Callback : Set :=
  | onPrimaryClickStart
  | onPrimaryClickEnd
  | onJumpPress
  | onPausePress
  | onScrollChange (delta : Q).

Record t : Set := mk {
  isActive : bool;
  inputState : InputState;
  called : list Callback            (* latest first *)
}.

(** The manager as constructed. *)
Definition create : t :=
  {| isActive := true; inputState := initial; called := [] |}.

(** [toLowerCase()] on the codes of keyboard events, which are ASCII. *)
Definition lowerAscii (c : Ascii.ascii) : Ascii.ascii :=
  let n := Ascii.nat_of_ascii c in
  if (65 <=? n)%nat && (n <=? 90)%nat then Ascii.ascii_of_nat (n + 32) else c.

Fixpoint toLowerCase (s : string) : string :=
  match s with
  | EmptyString => EmptyString
  | String c rest => String (lowerAscii c) (toLowerCase rest)
  end.

(** The [case] labels of the two keyboard listeners. *)
Inductive Key : Set :=
  | KeyForward | KeyBackward | KeyLeft | KeyRight | KeySprint | KeyJump
  | KeyPause.

Definition keyOf (code : string) : option Key :=
  let key := toLowerCase code in
  if (key =? "keyw")%string || (key =? "arrowup")%string then Some KeyForward
  else if (key =? "keys")%string || (key =? "arrowdown")%string
       then Some KeyBackward
  else if (key =? "keya")%string || (key =? "arrowleft")%string
       then Some KeyLeft
  else if (key =? "keyd")%string || (key =? "arrowright")%string
       then Some KeyRight
  else if (key =? "shiftleft")%string || (key =? "shiftright")%string
       then Some KeySprint
  else if (key =? "space")%string then Some KeyJump
  else if (key =? "escape")%string then Some KeyPause
  else None.

(** Assignment to the flag of a key. *)
Definition setFlag (k : Key) (v : bool) (i : InputState) : InputState :=
  {| forward := match k with KeyForward => v | _ => forward i end;
     backward := match k with KeyBackward => v | _ => backward i end;
     left := match k with KeyLeft => v | _ => left i end;
     right := match k with KeyRight => v | _ => right i end;
     sprint := match k with KeySprint => v | _ => sprint i end;
     jump := match k with KeyJump => v | _ => jump i end;
     mouseMovement := mouseMovement i;
     scroll := scroll i;
     primaryClick := primaryClick i;
     primaryHold := primaryHold i;
     pause := match k with KeyPause => v | _ => pause i end |}.

Definition flag (k : Key) (i : InputState) : bool :=
  match k with
  | KeyForward => forward i
  | KeyBackward => backward i
  | KeyLeft => left i
  | KeyRight => right i
  | KeySprint => sprint i
  | KeyJump => jump i
  | KeyPause => pause i
  end.

(** [keydownListener] *)
Definition keydown (code : string) (m : t) : t :=
  if negb (isActive m) then m
  else
    match keyOf code with
    | Some KeyJump =>
        if negb (jump (inputState m))
        then mk (isActive m) (setFlag KeyJump true (inputState m))
               (onJumpPress :: called m)
        else m
    | Some KeyPause =>
        if negb (pause (inputState m))
        then mk (isActive m) (setFlag KeyPause true (inputState m))
               (onPausePress :: called m)
        else m
    | Some k => mk (isActive m) (setFlag k true (inputState m)) (called m)
    | None => m
    end.

(** [keyupListener] *)
Definition keyup (code : string) (m : t) : t :=
  if negb (isActive m) then m
  else
    match keyOf code with
    | Some k => mk (isActive m) (setFlag k false (inputState m)) (called m)
    | None => m
    end.

Definition set_mouse (movement : Q * Q) (s : Q) (click hold : bool)
    (i : InputState) : InputState :=
  {| forward := forward i; backward := backward i; left := left i;
     right := right i; sprint := sprint i; jump := jump i;
     mouseMovement := movement; scroll := s; primaryClick := click;
     primaryHold := hold; pause := pause i |}.

(** [mouseMoveListener]; [pointerLocked] says whether the pointer is locked
    to the canvas. *)
Definition mousemove (pointerLocked : bool) (movementX movementY : Q)
    (m : t) : t :=
  if negb (isActive m) then m
  else if pointerLocked
       then mk (isActive m)
              (set_mouse (movementX, movementY) (scroll (inputState m))
                 (primaryClick (inputState m)) (primaryHold (inputState m))
                 (inputState m))
              (called m)
       else m.

(** [mouseDownListener] and [mouseUpListener] *)
Definition mousedown (button : Z) (m : t) : t :=
  if negb (isActive m) then m
  else if (button =? 0)%Z
       then mk (isActive m)
              (set_mouse (mouseMovement (inputState m))
                 (scroll (inputState m)) true true (inputState m))
              (onPrimaryClickStart :: called m)
       else m.

Definition mouseup (button : Z) (m : t) : t :=
  if negb (isActive m) then m
  else if (button =? 0)%Z
       then mk (isActive m)
              (set_mouse (mouseMovement (inputState m))
                 (scroll (inputState m)) false false (inputState m))
              (onPrimaryClickEnd :: called m)
       else m.

(** [wheelListener] *)
Definition wheel (deltaY : Q) (m : t) : t :=
  if negb (isActive m) then m
  else mk (isActive m)
         (set_mouse (mouseMovement (inputState m)) deltaY
            (primaryClick (inputState m)) (primaryHold (inputState m))
            (inputState m))
         (onScrollChange deltaY :: called m).

(** [resetFrameInputs()] *)
Definition resetFrameInputs (m : t) : t :=
  mk (isActive m)
    (set_mouse (0, 0) 0 false (primaryHold (inputState m)) (inputState m))
    (called m).

(** [setActive(active)]: deactivating sets every boolean of the input state
    to false. *)
Definition setActive (active : bool) (m : t) : t :=
  if active then mk true (inputState m) (called m)
  else
    mk false
      {| forward := false; backward := false; left := false; right := false;
         sprint := false; jump := false;
         mouseMovement := mouseMovement (inputState m);
         scroll := scroll (inputState m);
         primaryClick := false; primaryHold := false; pause := false |}
      (called m).

(** What the browser delivers. *)
Inductive DomEvent : Set :=
  | Keydown (code : string)
  | Keyup (code : string)
  | Mousemove (pointerLocked : bool) (movementX movementY : Q)
  | Mousedown (button : Z)
  | Mouseup (button : Z)
  | Wheel (deltaY : Q).

Definition deliver (e : DomEvent) (m : t) : t :=
  match e with
  | Keydown code => keydown code m
  | Keyup code => keyup code m
  | Mousemove pointerLocked movementX movementY =>
      mousemove pointerLocked movementX movementY m
  | Mousedown button => mousedown button m
  | Mouseup button => mouseup button m
  | Wheel deltaY => wheel deltaY m
  end.

Definition deliverAll (events : list DomEvent) (m : t) : t :=
  fold_left (fun acc e => deliver e acc) events m.

(** The number of times [onJumpPress] was called. *)
Definition jumpPresses (m : t) : nat :=
  List.length
    (filter (fun c => match c with onJumpPress => true | _ => false end)
       (called m)).

Definition isJumpCode (code : string) : bool :=
  match keyOf code with Some KeyJump => true | _ => false end.

(** The events that release, and that press, the space bar. *)
Definition releasesJump (e : DomEvent) : bool :=
  match e with
  | Keyup code => isJumpCode code
  | _ => false
  end.

Definition pressesJump (e : DomEvent) : bool :=
  match e with
  | Keydown code => isJumpCode code
  | _ => false
  end.

End InputEvents.

(** ** A session with the MagicController (src/main.ts)

    The pointer handlers call [startCasting] and [finishCasting] for the
    left button, the game loop calls [update], the restart calls
    [clearAllProjectiles]. *)

Module MagicSession.

(** [clearAllProjectiles()] *)
Definition clearAllProjectiles (m : MagicController.t) : MagicController.t :=
  {| MagicController.playerController := MagicController.playerController m;
     MagicController.gameUI := MagicController.gameUI m;
     MagicController.targetMeshes := MagicController.targetMeshes m;
     MagicController.isCasting := MagicController.isCasting m;
     MagicController.castStartTime := MagicController.castStartTime m;
     MagicController.currentSpell := MagicController.currentSpell m;
     MagicController.activeProjectiles := [];
     MagicController.spellsCast := 0;
     MagicController.spells := MagicController.spells m |}.

Inductive Event : Set :=
  | PointerDown (now : Q)
  | PointerUp (now : Q) (staffTip staffDirection : Vector3)
  | Frame (now deltaTime : Q)
  | Restart.

Section Engine.

Variable Distance : Vector3 -> Vector3 -> Q.

(** One event; [None] is an exception thrown by the handler. *)
Definition step (e : Event) (m : MagicController.t)
    : option MagicController.t :=
  match e with
  | PointerDown now => Some (MagicController.startCasting now m)
  | PointerUp now staffTip staffDirection =>
      MagicController.finishCasting now staffTip staffDirection m
  | Frame now deltaTime =>
      Some (MagicController.update Distance now deltaTime m)
  | Restart => Some (clearAllProjectiles m)
  end.

Fixpoint runEvents (events : list Event) (m : MagicController.t)
    : option MagicController.t :=
  match events with
  | [] => Some m
  | e :: rest =>
      match step e m with
      | None => None
      | Some m' => runEvents rest m'
      end
  end.

End Engine.

(** There is a current spell exactly while casting, and every projectile in
    flight has been counted as a spell cast. *)
Definition consistent (m : MagicController.t) : Prop :=
  (if MagicController.isCasting m
   then MagicController.currentSpell m <> None
   else MagicController.currentSpell m = None)
  /\ (List.length (MagicController.activeProjectiles m)
      <= MagicController.spellsCast m)%nat.

End MagicSession.

(** ** PlayerController, movement and physics (src/main.ts)

    The mana pool and the movement state stay in [PlayerController.t]; this
    record adds what [processPhysics] and [processMovement] work on.  The
    rotation of the model, the camera and the visual effects are not
    modelled. *)

Module PlayerControllerMotion.

Record MovementConfig : Set := mkConfig {
  walkSpeed : Q;
  runSpeed : Q;
  jumpForce : Q;
  gravity : Q;
  acceleration : Q;
  deceleration : Q;
  airControl : Q;
  maxFallSpeed : Q
}.

Definition defaultConfig : MovementConfig :=
  {| walkSpeed := 4; runSpeed := 8; jumpForce := 12; gravity := -25;
     acceleration := 15; deceleration := 20; airControl := 3 # 10;
     maxFallSpeed := -30 |}.

Record MapBounds : Set := mkBounds {
  minX : Q;
  maxX : Q;
  minZ : Q;
  maxZ : Q
}.

Definition defaultBounds : MapBounds :=
  {| minX := -20; maxX := 20; minZ := -20; maxZ := 20 |}.

Record t : Set := mk {
  core : PlayerController.t;        (* mana and [currentState] *)
  velocity : Vector3;
  position : Vector3;               (* [humanoidParts.root.position] *)
  isGrounded : bool;
  groundLevel : Q;
  movementConfig : MovementConfig;
  mapBounds : MapBounds;
  keys : list (string * bool)       (* the [keys] object, latest entry first *)
}.

(** The controller after [createPlayer]. *)
Definition initial : t :=
  {| core := PlayerController.initial;
     velocity := mkVector3 0 0 0;
     position := mkVector3 0 1 0;
     isGrounded := true;
     groundLevel := 1;
     movementConfig := defaultConfig;
     mapBounds := defaultBounds;
     keys := [] |}.

Definition currentState (m : t) : MovementState :=
  PlayerController.currentState (core m).

Definition set_currentState (s : MovementState) (m : t) : t :=
  mk (PlayerController.mk (PlayerController.maxMana (core m))
        (PlayerController.currentMana (core m))
        (PlayerController.manaRegenRate (core m)) s)
    (velocity m) (position m) (isGrounded m) (groundLevel m)
    (movementConfig m) (mapBounds m) (keys m).

(** [this.keys[name]]: a key never assigned is [undefined]. *)
Fixpoint lookup (name : string) (l : list (string * bool)) : bool :=
  match l with
  | [] => false
  | (k, v) :: rest => if (k =? name)%string then v else lookup name rest
  end.

Definition key (name : string) (m : t) : bool := lookup name (keys m).

(** The [keydown] and [keyup] listeners. *)
Definition keydown (code : string) (m : t) : t :=
  mk (core m) (velocity m) (position m) (isGrounded m) (groundLevel m)
    (movementConfig m) (mapBounds m)
    ((InputEvents.toLowerCase code, true) :: keys m).

Definition keyup (code : string) (m : t) : t :=
  mk (core m) (velocity m) (position m) (isGrounded m) (groundLevel m)
    (movementConfig m) (mapBounds m)
    ((InputEvents.toLowerCase code, false) :: keys m).

(** [lerp(start, end, factor)] *)
Definition lerp (start finish factor : Q) : Q :=
  start + (finish - start) * Math_min factor 1.

(** [jump()] *)
Definition jump (m : t) : t :=
  set_currentState JUMPING
    (mk (core m)
       (mkVector3 (vx (velocity m)) (jumpForce (movementConfig m))
          (vz (velocity m)))
       (position m) false (groundLevel m) (movementConfig m) (mapBounds m)
       (keys m)).

(** [applyMapBounds()] *)
Definition applyMapBounds (m : t) : t :=
  let b := mapBounds m in
  let pos := position m in
  let v := velocity m in
  let '(px, velx) :=
    if Qltb (vx pos) (minX b) then (minX b, 0)
    else if Qgtb (vx pos) (maxX b) then (maxX b, 0)
    else (vx pos, vx v) in
  let '(pz, velz) :=
    if Qltb (vz pos) (minZ b) then (minZ b, 0)
    else if Qgtb (vz pos) (maxZ b) then (maxZ b, 0)
    else (vz pos, vz v) in
  mk (core m) (mkVector3 velx (vy v) velz) (mkVector3 px (vy pos) pz)
    (isGrounded m) (groundLevel m) (movementConfig m) (mapBounds m) (keys m).

Section Engine.

(** [Math.sqrt], and [length], [normalize] and [Cross] of the engine's
    vectors. *)
Variable Math_sqrt : Q -> Q.
Variable Vector3_length : Vector3 -> Q.
Variable Vector3_normalize : Vector3 -> Vector3.
Variable Vector3_Cross : Vector3 -> Vector3 -> Vector3.

(** [updateMovementState(_hasInput, isRunning)] *)
Definition updateMovementState (isRunning : bool) (m : t) : t :=
  let horizontalSpeed :=
    Math_sqrt (vx (velocity m) * vx (velocity m)
               + vz (velocity m) * vz (velocity m)) in
  set_currentState
    (if negb (isGrounded m) then
       if Qgtb (vy (velocity m)) 0 then JUMPING else FALLING
     else if Qgtb horizontalSpeed (5 # 10) then
       if isRunning
          && Qgtb horizontalSpeed (walkSpeed (movementConfig m) * (8 # 10))
       then RUNNING else WALKING
     else IDLE) m.

(** [processPhysics(deltaTime)] *)
Definition processPhysics (deltaTime : Q) (m : t) : t :=
  let cfg := movementConfig m in
  let v := velocity m in
  let vy1 :=
    if negb (isGrounded m)
    then Math_max (vy v + gravity cfg * deltaTime) (maxFallSpeed cfg)
    else vy v in
  let v1 := mkVector3 (vx v) vy1 (vz v) in
  let pos1 := Vector3_add (position m) (Vector3_scale v1 deltaTime) in
  let m1 :=
    if Qle_bool (vy pos1) (groundLevel m) then
      let pos2 := mkVector3 (vx pos1) (groundLevel m) (vz pos1) in
      if Qltb vy1 0 then
        let landed :=
          mk (core m) (mkVector3 (vx v) 0 (vz v)) pos2 true (groundLevel m)
            cfg (mapBounds m) (keys m) in
        match currentState m with
        | FALLING => updateMovementState false landed
        | _ => landed
        end
      else
        mk (core m) v1 pos2 true (groundLevel m) cfg (mapBounds m) (keys m)
    else
      mk (core m) v1 pos1 false (groundLevel m) cfg (mapBounds m) (keys m) in
  applyMapBounds m1.

(** [processMovement(deltaTime)]; [cameraDirection] is the direction of the
    camera's forward ray. *)
Definition processMovement (cameraDirection : Vector3) (deltaTime : Q)
    (m : t) : t :=
  let z0 : Q := 0 in
  let z1 := if key "keyw" m || key "arrowup" m then z0 + 1 else z0 in
  let z2 := if key "keys" m || key "arrowdown" m then z1 - 1 else z1 in
  let x0 : Q := 0 in
  let x1 := if key "keya" m || key "arrowleft" m then x0 - 1 else x0 in
  let x2 := if key "keyd" m || key "arrowright" m then x1 + 1 else x1 in
  let isRunning := key "shiftleft" m || key "shiftright" m in
  let m1 := if key "space" m && isGrounded m then jump m else m in
  let inputVector := mkVector3 x2 0 z2 in
  let cfg := movementConfig m1 in
  let v := velocity m1 in
  let hasInput := Qgtb (Vector3_length inputVector) 0 in
  let '(velx, velz) :=
    if hasInput then
      let normalized := Vector3_normalize inputVector in
      let cameraForward := Vector3_normalize cameraDirection in
      let cameraRight :=
        Vector3_normalize (Vector3_Cross cameraForward (mkVector3 0 1 0)) in
      let combined :=
        Vector3_add (Vector3_scale cameraForward (vz normalized))
          (Vector3_scale cameraRight (vx normalized)) in
      let flat := mkVector3 (vx combined) 0 (vz combined) in
      let rotatedInput :=
        if Qgtb (Vector3_length flat) 0 then Vector3_normalize flat
        else flat in
      let targetSpeed := if isRunning then runSpeed cfg else walkSpeed cfg in
      let targetVelocity := Vector3_scale rotatedInput targetSpeed in
      let a :=
        if isGrounded m1 then acceleration cfg
        else acceleration cfg * airControl cfg in
      (lerp (vx v) (vx targetVelocity) (a * deltaTime),
       lerp (vz v) (vz targetVelocity) (a * deltaTime))
    else
      let d :=
        if isGrounded m1 then deceleration cfg
        else deceleration cfg * airControl cfg in
      (lerp (vx v) 0 (d * deltaTime), lerp (vz v) 0 (d * deltaTime)) in
  updateMovementState isRunning
    (mk (core m1) (mkVector3 velx (vy v) velz) (position m1) (isGrounded m1)
       (groundLevel m1) cfg (mapBounds m1) (keys m1)).

(** [update(deltaTime)]: physics, movement, mana. *)
Definition update (cameraDirection : Vector3) (deltaTime : Q) (m : t) : t :=
  let m2 := processMovement cameraDirection deltaTime
              (processPhysics deltaTime m) in
  mk (PlayerController.regenerateMana deltaTime (core m2)) (velocity m2)
    (position m2) (isGrounded m2) (groundLevel m2) (movementConfig m2)
    (mapBounds m2) (keys m2).

(** What happens to the controller: key events and frames. *)
Inductive Event : Set :=
  | Keydown (code : string)
  | Keyup (code : string)
  | Frame (cameraDirection : Vector3) (deltaTime : Q).

Definition step (e : Event) (m : t) : t :=
  match e with
  | Keydown code => keydown code m
  | Keyup code => keyup code m
  | Frame cameraDirection deltaTime => update cameraDirection deltaTime m
  end.

Definition run (events : list Event) (m : t) : t :=
  fold_left (fun acc e => step e acc) events m.

End Engine.

(** The height and the vertical velocity after one frame in the air, as
    [processPhysics] computes them before it looks at the ground. *)
Definition fallStep (g maxFall deltaTime : Q) (s : Q * Q) : Q * Q :=
  let v := Math_max (snd s + g * deltaTime) maxFall in
  (fst s + v * deltaTime, v).

(** The map is a rectangle. *)
Definition boundsOrdered (b : MapBounds) : Prop :=
  minX b <= maxX b /\ minZ b <= maxZ b.

(** The player is inside the map, not below the ground, and on the ground
    when [isGrounded] says so. *)
Definition onTheMap (m : t) : Prop :=
  (minX (mapBounds m) <= vx (position m)
   /\ vx (position m) <= maxX (mapBounds m))
  /\ (minZ (mapBounds m) <= vz (position m)
      /\ vz (position m) <= maxZ (mapBounds m))
  /\ groundLevel m <= vy (position m)
  /\ (isGrounded m = true -> vy (position m) = groundLevel m).

End PlayerControllerMotion.

(** ** PauseMenu (src/unnamed/part_002)

    The calls to the engine, to the document and to the two callbacks are
    recorded, latest first. *)

Module PauseMenu.

Inductive Call : Set :=
  | stopRenderLoop
  | runRenderLoop
  | exitPointerLock
  | onResumeCallback
  | onRestartCallback.

Inductive Display : Set := display_block | display_none.

Record t : Set := mk {
  isPaused : bool;
  pauseOverlayDisplay : Display;
  hasResumeCallback : bool;
  hasRestartCallback : bool;
  calls : list Call
}.

(** The menu as constructed, with the callbacks the game sets or not. *)
Definition create (resumeCallback restartCallback : bool) : t :=
  {| isPaused := false; pauseOverlayDisplay := display_none;
     hasResumeCallback := resumeCallback;
     hasRestartCallback := restartCallback; calls := [] |}.

(** [pause()]; [pointerLocked] is whether [document.pointerLockElement] is
    set. *)
Definition pause (pointerLocked : bool) (m : t) : t :=
  if isPaused m then m
  else
    mk true display_block (hasResumeCallback m) (hasRestartCallback m)
      (if pointerLocked then exitPointerLock :: stopRenderLoop :: calls m
       else stopRenderLoop :: calls m).

(** [resume()] *)
Definition resume (m : t) : t :=
  if negb (isPaused m) then m
  else
    mk false display_none (hasResumeCallback m) (hasRestartCallback m)
      (if hasResumeCallback m
       then onResumeCallback :: runRenderLoop :: calls m
       else runRenderLoop :: calls m).

(** [togglePause()] *)
Definition togglePause (pointerLocked : bool) (m : t) : t :=
  if isPaused m then resume m else pause pointerLocked m.

(** The listener of the restart button. *)
Definition restartClick (m : t) : t :=
  resume
    (if hasRestartCallback m
     then mk (isPaused m) (pauseOverlayDisplay m) (hasResumeCallback m)
            (hasRestartCallback m) (onRestartCallback :: calls m)
     else m).

(** What the user and the game do with the menu. *)
Inductive Event : Set :=
  | EscapeKey (pointerLocked : bool)
  | ResumeButton
  | RestartButton
  | OverlayClick
  | Pause (pointerLocked : bool)
  | Resume.

Definition step (e : Event) (m : t) : t :=
  match e with
  | EscapeKey pointerLocked => togglePause pointerLocked m
  | ResumeButton => resume m
  | RestartButton => restartClick m
  | OverlayClick => resume m
  | Pause pointerLocked => pause pointerLocked m
  | Resume => resume m
  end.

Definition run (events : list Event) (m : t) : t :=
  fold_left (fun acc e => step e acc) events m.

(** The calls made to the engine, latest first: [true] for
    [stopRenderLoop], [false] for [runRenderLoop]. *)
Fixpoint engineCalls (l : list Call) : list bool :=
  match l with
  | [] => []
  | stopRenderLoop :: rest => true :: engineCalls rest
  | runRenderLoop :: rest => false :: engineCalls rest
  | _ :: rest => engineCalls rest
  end.

(** A log of engine calls, latest first, that starts with a stop and
    alternates, ending on a stop exactly when [stopped]. *)
Fixpoint alternates (stopped : bool) (l : list bool) : bool :=
  match l with
  | [] => negb stopped
  | c :: rest => Bool.eqb c stopped && alternates (negb stopped) rest
  end.

Definition restartClicks (events : list Event) : nat :=
  List.length
    (filter (fun e => match e with RestartButton => true | _ => false end)
       events).

Definition restartCalls (l : list Call) : nat :=
  List.length
    (filter (fun c => match c with onRestartCallback => true | _ => false end)
       l).

(** The overlay is shown exactly while paused, and the engine calls so far
    alternate. *)
Definition coherent (m : t) : Prop :=
  pauseOverlayDisplay m = (if isPaused m then display_block else display_none)
  /\ alternates (isPaused m) (engineCalls (calls m)) = true.

End PauseMenu.

(** ** Player (src/unnamed/part_004): the input manager, the camera and the
       movement in one frame

    [connectSystems] gives the camera its target and constructs the
    [PlayerMovement] of the first document (two arguments, [onStateChanged]);
    the wheel callback of the camera is the one [setupInputHandlers]
    registers. *)

Module PlayerFrame.

Record t : Set := mk {
  inputManager : InputEvents.t;
  camera : ThirdPersonCamera.t;
  movement : PlayerMovement.t
}.

(** A DOM event reaches the input manager, and a wheel turn on an active
    manager reaches the camera through [onScrollChange]. *)
Definition deliver (e : InputEvents.DomEvent) (p : t) : t :=
  mk (InputEvents.deliver e (inputManager p))
    (match e with
     | InputEvents.Wheel deltaY =>
         if InputEvents.isActive (inputManager p)
         then ThirdPersonCamera.onScrollChange deltaY (camera p)
         else camera p
     | _ => camera p
     end)
    (movement p).

Definition deliverAll (events : list InputEvents.DomEvent) (p : t) : t :=
  fold_left (fun acc e => deliver e acc) events p.

Section Engine.

Variable round : Q -> Q.
Variable Math_sqrt : Q -> Q.

(** [update(deltaTime)] of an initialized player: the camera reads the
    mouse and is updated, then the movement is, and what follows runs when
    [movement.update] returns: the animator, the statistics and the UI
    (which are not part of this state), and last the input manager clears
    the frame inputs. *)
Definition update (deltaTime : Q) (p : t) : Outcome t :=
  let camera1 :=
    CameraMotion.update round true
      (InputManager.mouseMovement
         (InputEvents.inputState (inputManager p)))
      deltaTime (camera p) in
  match PlayerMovement.update Math_sqrt deltaTime (movement p) with
  | Threw error movement1 =>
      Threw error (mk (inputManager p) camera1 movement1)
  | Returned movement1 =>
      Returned
        (mk (InputEvents.resetFrameInputs (inputManager p)) camera1
           movement1)
  end.

End Engine.

(** [setPaused(paused)] *)
Definition setPaused (paused : bool) (p : t) : t :=
  mk (InputEvents.setActive (negb paused) (inputManager p)) (camera p)
    (movement p).

(** Mouse moves with the pointer locked. *)
Definition mouseMoves (moves : list (Q * Q)) : list InputEvents.DomEvent :=
  map (fun d => InputEvents.Mousemove true (fst d) (snd d)) moves.

End PlayerFrame.

(** ** PlayerStats, the rest of the class
       (src/systems/CharacterAnimator.ts, second document)

    The mana pool, the spell counter and their notifications stay in
    [PlayerStats.t]; this record adds health, stamina, experience and the
    notifications of the other callbacks.  The clock is the argument [now]
    (milliseconds). *)

Module PlayerStatsAll.

(** The fields of [RegenConfig] that [PlayerStats.RegenConfig] leaves out. *)
Record RegenRest : Set := mkRest {
  staminaRegenRate : Q;
  healthRegenRate : Q;
  healthRegenDelay : Q;
  combatStaminaDelay : Q
}.

(** What the callbacks other than [onManaChange] are told. *)
Inductive Notice : Set :=
  | HealthChange (current max delta : Q)
  | StaminaChange (current max delta : Q)
  | LevelUp (newLevel oldLevel : nat)
  | Death
  | Revive
  | LowMana
  | Exhausted
  | DamageDealtChanged (newValue oldValue : Q).

Record t : Set := mk {
  pool : PlayerStats.t;
  health : Q;
  maxHealth : Q;
  stamina : Q;
  maxStamina : Q;
  experience : Q;
  level : nat;
  damageDealt : Q;
  damageTaken : Q;
  isAlive : bool;
  lastDamageTime : Q;
  lastStaminaUse : Q;
  regenRest : RegenRest;
  notices : list Notice             (* latest first *)
}.

Definition defaultRegenRest : RegenRest :=
  {| staminaRegenRate := 15; healthRegenRate := 5;
     healthRegenDelay := 5000; combatStaminaDelay := 2000 |}.

Definition initial : t :=
  {| pool := PlayerStats.initial;
     health := 100; maxHealth := 100; stamina := 100; maxStamina := 100;
     experience := 0; level := 1; damageDealt := 0; damageTaken := 0;
     isAlive := true; lastDamageTime := 0; lastStaminaUse := 0;
     regenRest := defaultRegenRest; notices := [] |}.

Definition with_pool (p : PlayerStats.t) (s : t) : t :=
  mk p (health s) (maxHealth s) (stamina s) (maxStamina s) (experience s)
    (level s) (damageDealt s) (damageTaken s) (isAlive s) (lastDamageTime s)
    (lastStaminaUse s) (regenRest s) (notices s).

Definition with_health (h : Q) (s : t) : t :=
  mk (pool s) h (maxHealth s) (stamina s) (maxStamina s) (experience s)
    (level s) (damageDealt s) (damageTaken s) (isAlive s) (lastDamageTime s)
    (lastStaminaUse s) (regenRest s) (notices s).

Definition with_stamina (v : Q) (s : t) : t :=
  mk (pool s) (health s) (maxHealth s) v (maxStamina s) (experience s)
    (level s) (damageDealt s) (damageTaken s) (isAlive s) (lastDamageTime s)
    (lastStaminaUse s) (regenRest s) (notices s).

Definition notify (n : Notice) (s : t) : t :=
  mk (pool s) (health s) (maxHealth s) (stamina s) (maxStamina s)
    (experience s) (level s) (damageDealt s) (damageTaken s) (isAlive s)
    (lastDamageTime s) (lastStaminaUse s) (regenRest s) (n :: notices s).

Definition set_mana (m : Q) (p : PlayerStats.t) : PlayerStats.t :=
  PlayerStats.mk m (PlayerStats.maxMana p) (PlayerStats.spellsCast p)
    (PlayerStats.regenConfig p) (PlayerStats.events p).

Definition notifyMana (delta : Q) (p : PlayerStats.t) : PlayerStats.t :=
  PlayerStats.mk (PlayerStats.mana p) (PlayerStats.maxMana p)
    (PlayerStats.spellsCast p) (PlayerStats.regenConfig p)
    (PlayerStats.ManaChange (PlayerStats.mana p) (PlayerStats.maxMana p) delta
       :: PlayerStats.events p).

(** [isLowMana()], [isExhausted()], [hasEnoughMana(amount)],
    [getExpToNextLevel()]; the quotients are those of [Q], where a zero
    maximum gives 0. *)
Definition isLowMana (s : t) : bool :=
  Qltb (PlayerStats.mana (pool s) / PlayerStats.maxMana (pool s)) (25 # 100).

Definition isExhausted (s : t) : bool :=
  Qltb (stamina s / maxStamina s) (15 # 100).

Definition hasEnoughMana (amount : Q) (s : t) : bool :=
  Qgeb (PlayerStats.mana (pool s)) amount.

Definition getExpToNextLevel (s : t) : Q :=
  inject_Z (Z.of_nat (level s)) * 100.

(** [updateStaminaRegen(deltaTime, movementState, currentTime)] *)
Definition updateStaminaRegen (deltaTime : Q) (movementState : MovementState)
    (currentTime : Q) (s : t) : t :=
  if Qgeb (stamina s) (maxStamina s) then s
  else if Qltb (currentTime - lastStaminaUse s)
            (combatStaminaDelay (regenRest s)) then s
  else
    let base := staminaRegenRate (regenRest s) in
    let regenRate :=
      match movementState with
      | IDLE =>
          base
          * PlayerStats.restingMultiplier (PlayerStats.regenConfig (pool s))
      | WALKING =>
          base
          * PlayerStats.movingMultiplier (PlayerStats.regenConfig (pool s))
      | RUNNING => base * (3 # 10)
      | _ => base
      end in
    let oldStamina := stamina s in
    let newStamina :=
      Math_min (maxStamina s) (stamina s + regenRate * deltaTime) in
    let s' := with_stamina newStamina s in
    if Qeq_bool newStamina oldStamina then s'
    else notify (StaminaChange newStamina (maxStamina s)
                   (newStamina - oldStamina)) s'.

(** [updateHealthRegen(deltaTime, movementState, currentTime)] *)
Definition updateHealthRegen (deltaTime : Q) (movementState : MovementState)
    (currentTime : Q) (s : t) : t :=
  if Qgeb (health s) (maxHealth s) then s
  else if Qltb (currentTime - lastDamageTime s)
            (healthRegenDelay (regenRest s)) then s
  else
    let base := healthRegenRate (regenRest s) in
    let regenRate :=
      match movementState with
      | IDLE =>
          base
          * PlayerStats.restingMultiplier (PlayerStats.regenConfig (pool s))
      | _ => base
      end in
    let oldHealth := health s in
    let newHealth :=
      Math_min (maxHealth s) (health s + regenRate * deltaTime) in
    let s' := with_health newHealth s in
    if Qeq_bool newHealth oldHealth then s'
    else notify (HealthChange newHealth (maxHealth s)
                   (newHealth - oldHealth)) s'.

(** [updateState()] *)
Definition updateState (s : t) : t :=
  let wasLowMana := isLowMana s in
  let wasExhausted := isExhausted s in
  let s1 := if negb wasLowMana && isLowMana s then notify LowMana s else s in
  if negb wasExhausted && isExhausted s1 then notify Exhausted s1 else s1.

(** [update(deltaTime, movementState)], called at time [now]. *)
Definition update (now deltaTime : Q) (movementState : MovementState)
    (s : t) : t :=
  let s1 :=
    with_pool (PlayerStats.updateManaRegen deltaTime movementState (pool s))
      s in
  let s2 := updateStaminaRegen deltaTime movementState now s1 in
  let s3 := updateHealthRegen deltaTime movementState now s2 in
  updateState s3.

(** [spendMana(amount)] *)
Definition spendMana (amount : Q) (s : t) : bool * t :=
  let (ok, p) := PlayerStats.spendMana amount (pool s) in
  (ok, with_pool p s).

(** [spendStamina(amount)], called at time [now]. *)
Definition spendStamina (now amount : Q) (s : t) : bool * t :=
  if Qltb (stamina s) amount then (false, s)
  else
    let v := stamina s - amount in
    (true,
     mk (pool s) (health s) (maxHealth s) v (maxStamina s) (experience s)
       (level s) (damageDealt s) (damageTaken s) (isAlive s)
       (lastDamageTime s) now (regenRest s)
       (StaminaChange v (maxStamina s) (- amount) :: notices s)).

(** [takeDamage(amount)], called at time [now]: the result says whether the
    health is at zero afterwards. *)
Definition takeDamage (now amount : Q) (s : t) : bool * t :=
  if negb (isAlive s) then (false, s)
  else
    let h := Math_max 0 (health s - amount) in
    let dead := Qle_bool h 0 in
    (dead,
     mk (pool s) h (maxHealth s) (stamina s) (maxStamina s) (experience s)
       (level s) (damageDealt s) (damageTaken s + amount)
       (if dead then false else isAlive s) now (lastStaminaUse s)
       (regenRest s)
       (if dead
        then Death :: HealthChange h (maxHealth s) (- amount) :: notices s
        else HealthChange h (maxHealth s) (- amount) :: notices s)).

(** [heal(amount)] *)
Definition heal (amount : Q) (s : t) : t :=
  let oldHealth := health s in
  let newHealth := Math_min (maxHealth s) (health s + amount) in
  let s' := with_health newHealth s in
  if Qeq_bool newHealth oldHealth then s'
  else notify (HealthChange newHealth (maxHealth s) amount) s'.

(** [restoreMana(amount)] *)
Definition restoreMana (amount : Q) (s : t) : t :=
  let p := pool s in
  let oldMana := PlayerStats.mana p in
  let newMana := Math_min (PlayerStats.maxMana p) (oldMana + amount) in
  let p' := set_mana newMana p in
  with_pool (if Qeq_bool newMana oldMana then p' else notifyMana amount p') s.

(** [revive(healthPercentage)] *)
Definition revive (healthPercentage : Q) (s : t) : t :=
  if isAlive s then s
  else
    let h := maxHealth s * healthPercentage in
    let m := PlayerStats.maxMana (pool s) * (25 # 100) in
    mk (notifyMana m (set_mana m (pool s))) h (maxHealth s) (stamina s)
      (maxStamina s) (experience s) (level s) (damageDealt s)
      (damageTaken s) true (lastDamageTime s) (lastStaminaUse s)
      (regenRest s)
      (HealthChange h (maxHealth s) h :: Revive :: notices s).

(** [levelUp()] *)
Definition levelUp (s : t) : t :=
  let oldLevel := level s in
  let p := pool s in
  let maxMana' := PlayerStats.maxMana p + 5 in
  mk (PlayerStats.mk maxMana' maxMana' (PlayerStats.spellsCast p)
        (PlayerStats.regenConfig p) (PlayerStats.events p))
    (maxHealth s + 10) (maxHealth s + 10) (maxStamina s + 5)
    (maxStamina s + 5) (experience s) (S oldLevel) (damageDealt s)
    (damageTaken s) (isAlive s) (lastDamageTime s) (lastStaminaUse s)
    (regenRest s) (LevelUp (S oldLevel) oldLevel :: notices s).

(** [addExperience(amount)] *)
Definition addExperience (amount : Q) (s : t) : t :=
  let s' :=
    mk (pool s) (health s) (maxHealth s) (stamina s) (maxStamina s)
      (experience s + amount) (level s) (damageDealt s) (damageTaken s)
      (isAlive s) (lastDamageTime s) (lastStaminaUse s) (regenRest s)
      (notices s) in
  let expNeeded := getExpToNextLevel s' in
  if Qgeb (experience s') expNeeded then levelUp s' else s'.

(** [recordSpellCast()] and [recordDamageDealt(amount)] *)
Definition recordSpellCast (s : t) : t :=
  with_pool (PlayerStats.recordSpellCast (pool s)) s.

Definition recordDamageDealt (amount : Q) (s : t) : t :=
  mk (pool s) (health s) (maxHealth s) (stamina s) (maxStamina s)
    (experience s) (level s) (damageDealt s + amount) (damageTaken s)
    (isAlive s) (lastDamageTime s) (lastStaminaUse s) (regenRest s)
    (DamageDealtChanged (damageDealt s + amount)
       (damageDealt s + amount - amount) :: notices s).

(** [setMaxStats(maxHealth?, maxMana?, maxStamina?)]: [None] is
    [undefined]. *)
Definition setMaxStats (newMaxHealth newMaxMana newMaxStamina : option Q)
    (s : t) : t :=
  let s1 :=
    match newMaxHealth with
    | None => s
    | Some mh =>
        mk (pool s) (Math_min (health s) mh) mh (stamina s) (maxStamina s)
          (experience s) (level s) (damageDealt s) (damageTaken s)
          (isAlive s) (lastDamageTime s) (lastStaminaUse s) (regenRest s)
          (notices s)
    end in
  let s2 :=
    match newMaxMana with
    | None => s1
    | Some mm =>
        let p := pool s1 in
        with_pool
          (PlayerStats.mk (Math_min (PlayerStats.mana p) mm) mm
             (PlayerStats.spellsCast p) (PlayerStats.regenConfig p)
             (PlayerStats.events p)) s1
    end in
  match newMaxStamina with
  | None => s2
  | Some ms =>
      mk (pool s2) (health s2) (maxHealth s2) (Math_min (stamina s2) ms) ms
        (experience s2) (level s2) (damageDealt s2) (damageTaken s2)
        (isAlive s2) (lastDamageTime s2) (lastStaminaUse s2) (regenRest s2)
        (notices s2)
  end.

(** [reset()] *)
Definition reset (s : t) : t :=
  mk (set_mana (PlayerStats.maxMana (pool s)) (pool s)) (maxHealth s)
    (maxHealth s) (maxStamina s) (maxStamina s) (experience s) (level s)
    (damageDealt s) 0 true 0 0 (regenRest s) (notices s).

(** [fullReset()] *)
Definition fullReset (s : t) : t :=
  let r := reset s in
  let p := pool r in
  mk (PlayerStats.mk 100 100 0 (PlayerStats.regenConfig p)
        (PlayerStats.events p))
    100 100 100 100 0 1 0 (damageTaken r) (isAlive r) (lastDamageTime r)
    (lastStaminaUse r) (regenRest r) (notices r).

(** The public operations of the class, and runs of them. *)
Inductive Op : Set :=
  | OpUpdate (now deltaTime : Q) (movementState : MovementState)
  | OpSpendMana (amount : Q)
  | OpSpendStamina (now amount : Q)
  | OpTakeDamage (now amount : Q)
  | OpHeal (amount : Q)
  | OpRestoreMana (amount : Q)
  | OpRevive (healthPercentage : Q)
  | OpAddExperience (amount : Q)
  | OpRecordSpellCast
  | OpRecordDamageDealt (amount : Q)
  | OpSetMaxStats (newMaxHealth newMaxMana newMaxStamina : option Q)
  | OpReset
  | OpFullReset.

Definition applyOp (op : Op) (s : t) : t :=
  match op with
  | OpUpdate now deltaTime movementState => update now deltaTime movementState s
  | OpSpendMana amount => snd (spendMana amount s)
  | OpSpendStamina now amount => snd (spendStamina now amount s)
  | OpTakeDamage now amount => snd (takeDamage now amount s)
  | OpHeal amount => heal amount s
  | OpRestoreMana amount => restoreMana amount s
  | OpRevive healthPercentage => revive healthPercentage s
  | OpAddExperience amount => addExperience amount s
  | OpRecordSpellCast => recordSpellCast s
  | OpRecordDamageDealt amount => recordDamageDealt amount s
  | OpSetMaxStats a b c => setMaxStats a b c s
  | OpReset => reset s
  | OpFullReset => fullReset s
  end.

Definition run (ops : list Op) (s : t) : t :=
  fold_left (fun acc op => applyOp op acc) ops s.

(** The operations that bring a dead player back. *)
Definition revives (op : Op) : bool :=
  match op with
  | OpRevive _ | OpReset | OpFullReset => true
  | _ => false
  end.

(** Amounts, time steps, percentages and new maxima an operation is meant
    to be called with: none negative, the revive percentage at most 1. *)
Definition nonNegativeOption (v : option Q) : Prop :=
  match v with Some a => 0 <= a | None => True end.

Definition sensible (op : Op) : Prop :=
  match op with
  | OpUpdate _ deltaTime _ => 0 <= deltaTime
  | OpSpendMana amount | OpSpendStamina _ amount | OpTakeDamage _ amount
  | OpHeal amount | OpRestoreMana amount => 0 <= amount
  | OpRevive healthPercentage => 0 <= healthPercentage /\ healthPercentage <= 1
  | OpSetMaxStats a b c =>
      nonNegativeOption a /\ nonNegativeOption b /\ nonNegativeOption c
  | _ => True
  end.

(** No regeneration rate or multiplier of the configuration is negative. *)
Definition ratesNonNegative (s : t) : Prop :=
  let cfg := PlayerStats.regenConfig (pool s) in
  0 <= PlayerStats.manaRegenRate cfg
  /\ 0 <= PlayerStats.restingMultiplier cfg
  /\ 0 <= PlayerStats.movingMultiplier cfg
  /\ 0 <= PlayerStats.runningMultiplier cfg
  /\ 0 <= staminaRegenRate (regenRest s)
  /\ 0 <= healthRegenRate (regenRest s).

(** Every pool is between zero and its maximum. *)
Definition poolsWithinBounds (s : t) : Prop :=
  (0 <= PlayerStats.mana (pool s)
   /\ PlayerStats.mana (pool s) <= PlayerStats.maxMana (pool s))
  /\ (0 <= health s /\ health s <= maxHealth s)
  /\ (0 <= stamina s /\ stamina s <= maxStamina s).

(** A run of [Player.spendMana] requests: the results, in order, and the
    stats afterwards. *)
Fixpoint spendAll (amounts : list Q) (s : PlayerStats.t)
    : list bool * PlayerStats.t :=
  match amounts with
  | [] => ([], s)
  | amount :: rest =>
      let (ok, s') := PlayerStats.Player_spendMana amount s in
      let (oks, s'') := spendAll rest s' in
      (ok :: oks, s'')
  end.

(** The sum of the amounts whose request succeeded. *)
Fixpoint spentTotal (amounts : list Q) (results : list bool) : Q :=
  match amounts, results with
  | amount :: rest, ok :: oks =>
      (if ok then amount else 0) + spentTotal rest oks
  | _, _ => 0
  end.

(** The invariant of the class: the rates of the configuration and the
    pools. *)
Definition wellFormed (s : t) : Prop :=
  ratesNonNegative s /\ poolsWithinBounds s.

(** A frame of the game loop: the clock, [deltaTime] and the movement state
    [update] is called with. *)
Definition Frame : Set := (Q * Q * MovementState)%type.

Definition frameTime (f : Frame) : Q := fst (fst f).

Definition frameOp (f : Frame) : Op :=
  OpUpdate (fst (fst f)) (snd (fst f)) (snd f).

(** The notifications of [onLowMana] and [onExhausted]. *)
Definition isLowResourceNotice (n : Notice) : bool :=
  match n with
  | LowMana | Exhausted => true
  | _ => false
  end.

(** The rate [updateHealthRegen] applies in a movement state. *)
Definition healthRate (movementState : MovementState) (s : t) : Q :=
  match movementState with
  | IDLE =>
      healthRegenRate (regenRest s)
      * PlayerStats.restingMultiplier (PlayerStats.regenConfig (pool s))
  | _ => healthRegenRate (regenRest s)
  end.

End PlayerStatsAll.

(** ** GameUI (src/unnamed/part_001): the casting bar

    The elements are kept as the style properties and the text the class
    writes.  [setTimeout] callbacks wait in [timers] with the time they are
    due; a method called at time [now] finds the callbacks due by then
    already run, in the order of their due times. *)

Module GameUI.

Inductive Display : Set := display_block | display_none.

Inductive Timeout : Set :=
  | fadeIn        (* the callback of [showCastingBar], after 10 ms *)
  | finishHide.   (* the callback of [hideCastingBar], after 200 ms *)

Record t : Set := mk {
  castingBarDisplay : Display;
  castingBarOpacity : Q;
  castingBarTransition : string;
  castingProgressWidth : Z;           (* the percentage of [width] *)
  castingProgressBackground : string;
  castingText : string;
  isCastingBarVisible : bool;
  timers : list (Q * Timeout)         (* by due time *)
}.

(** The page as index.html styles it, before any call. *)
Definition initial : t :=
  {| castingBarDisplay := display_none;
     castingBarOpacity := 1;
     castingBarTransition := EmptyString;
     castingProgressWidth := 0;
     castingProgressBackground := "linear-gradient(90deg, #4a90e2, #7bb3f0)";
     castingText := "Conjurando...";
     isCastingBarVisible := false;
     timers := [] |}.

Definition set_timers (l : list (Q * Timeout)) (ui : t) : t :=
  mk (castingBarDisplay ui) (castingBarOpacity ui) (castingBarTransition ui)
    (castingProgressWidth ui) (castingProgressBackground ui) (castingText ui)
    (isCastingBarVisible ui) l.

(** The body of a callback. *)
Definition runTimeout (callback : Timeout) (ui : t) : t :=
  match callback with
  | fadeIn =>
      mk (castingBarDisplay ui) 1 "opacity 0.2s ease"
        (castingProgressWidth ui) (castingProgressBackground ui)
        (castingText ui) (isCastingBarVisible ui) (timers ui)
  | finishHide =>
      mk display_none (castingBarOpacity ui) (castingBarTransition ui)
        (castingProgressWidth ui) (castingProgressBackground ui)
        (castingText ui) false (timers ui)
  end.

(** [setTimeout(callback, delay)] at time [now]: queued behind the callbacks
    due no later. *)
Fixpoint enqueue (due : Q) (callback : Timeout) (l : list (Q * Timeout))
    : list (Q * Timeout) :=
  match l with
  | [] => [(due, callback)]
  | (d, c) :: rest =>
      if Qle_bool d due then (d, c) :: enqueue due callback rest
      else (due, callback) :: l
  end.

Definition setTimeout (now delay : Q) (callback : Timeout) (ui : t) : t :=
  set_timers (enqueue (now + delay) callback (timers ui)) ui.

(** The callbacks due by [now] run, earliest first. *)
Fixpoint runDue (now : Q) (l : list (Q * Timeout)) (ui : t) : t :=
  match l with
  | [] => set_timers [] ui
  | (d, c) :: rest =>
      if Qle_bool d now then runDue now rest (runTimeout c ui)
      else set_timers l ui
  end.

Definition advance (now : Q) (ui : t) : t := runDue now (timers ui) ui.

(** [showCastingBar()] at time [now]. *)
Definition showCastingBar (now : Q) (ui0 : t) : t :=
  let ui := advance now ui0 in
  if isCastingBarVisible ui then ui
  else
    setTimeout now 10 fadeIn
      (mk display_block 0 (castingBarTransition ui) 0
         (castingProgressBackground ui) "Conjurando..." true (timers ui)).

(** [hideCastingBar()] at time [now]. *)
Definition hideCastingBar (now : Q) (ui0 : t) : t :=
  let ui := advance now ui0 in
  if negb (isCastingBarVisible ui) then ui
  else
    setTimeout now 200 finishHide
      (mk (castingBarDisplay ui) 0 "opacity 0.2s ease"
         (castingProgressWidth ui) (castingProgressBackground ui)
         (castingText ui) (isCastingBarVisible ui) (timers ui)).

(** The text and the background [updateCastingProgress] picks for a
    progress already clamped. *)
Definition progressText (progress : Q) : string :=
  if Qltb progress (2 # 10) then "Conjurando..."
  else if Qltb progress (8 # 10) then "Focando..."
  else if Qltb progress 1 then "Quase pronto..."
  else "Pronto!".

Definition progressBackground (progress : Q) : string :=
  if Qltb progress (5 # 10) then "linear-gradient(90deg, #4a90e2, #7bb3f0)"
  else if Qltb progress (8 # 10)
       then "linear-gradient(90deg, #2e7bc6, #4a90e2)"
       else "linear-gradient(90deg, #1e5f96, #ffd700)".

(** [updateCastingProgress(progress)] at time [now].  The product under
    [Math.floor] is exact here; the code rounds it to a double first, which
    can move the width by one between the ends (28% for 29% at progress
    0.29).  At progress 0 and 1 the two agree, and the width is between 0
    and 100 either way. *)
Definition updateCastingProgress (now progress0 : Q) (ui0 : t) : t :=
  let ui := advance now ui0 in
  if negb (isCastingBarVisible ui) then ui
  else
    let progress := Math_max 0 (Math_min 1 progress0) in
    let percentage := Qfloor (progress * 100) in
    mk (castingBarDisplay ui) (castingBarOpacity ui)
      (castingBarTransition ui) percentage (progressBackground progress)
      (progressText progress) (isCastingBarVisible ui) (timers ui).

(** The calls [MagicController] makes, each at its time. *)
Definition call (now : Q) (c : MagicController.UICall) (ui : t) : t :=
  match c with
  | MagicController.showCastingBar => showCastingBar now ui
  | MagicController.hideCastingBar => hideCastingBar now ui
  | MagicController.updateCastingProgress progress =>
      updateCastingProgress now progress ui
  end.

Definition calls (l : list (Q * MagicController.UICall)) (ui : t) : t :=
  fold_left (fun acc c => call (fst c) (snd c) acc) l ui.

End GameUI.

(** * Properties *)

(** ** Numbers *)

Lemma Qltb_true (a b : Q) : Qltb a b = true <-> a < b.
Proof.
  unfold Qltb. rewrite negb_true_iff, <- not_true_iff_false, Qle_bool_iff.
  split; [apply Qnot_le_lt | apply Qlt_not_le].
Qed.

Lemma Qltb_false (a b : Q) : Qltb a b = false <-> b <= a.
Proof.
  unfold Qltb. rewrite negb_false_iff. apply Qle_bool_iff.
Qed.

Lemma Qgeb_true (a b : Q) : Qgeb a b = true <-> b <= a.
Proof. apply Qle_bool_iff. Qed.

Lemma Qgeb_false (a b : Q) : Qgeb a b = false <-> a < b.
Proof.
  unfold Qgeb. rewrite <- not_true_iff_false, Qle_bool_iff.
  split; [apply Qnot_le_lt | apply Qlt_not_le].
Qed.

Lemma Qgtb_true (a b : Q) : Qgtb a b = true <-> b < a.
Proof. apply Qltb_true. Qed.

Lemma Qgtb_false (a b : Q) : Qgtb a b = false <-> a <= b.
Proof. apply Qltb_false. Qed.

(** [Math.ceil a] is the least integer that is not below [a]. *)
Lemma Math_ceil_spec (a : Q) :
  a <= Math_ceil a /\ Math_ceil a - 1 < a.
Proof.
  unfold Math_ceil. split.
  - apply Qle_ceiling.
  - generalize (Qceiling_lt a). unfold Zminus. rewrite inject_Z_plus.
    intros H. exact H.
Qed.

Lemma Math_min_le_l (a b : Q) : Math_min a b <= a.
Proof. apply Q.le_min_l. Qed.

Lemma Math_max_clamp (lo hi v : Q) :
  lo <= hi -> lo <= Math_max lo (Math_min hi v) <= hi.
Proof.
  intros Hlh. unfold Math_max, Math_min. split.
  - apply Q.le_max_l.
  - apply Q.max_lub; [exact Hlh | apply Q.le_min_l].
Qed.

(** ** The projectile loop *)

Section Loop.

Context {A : Type} (body : A -> option A).

Lemma keepUpdated_app (l1 l2 : list A) :
  keepUpdated body (l1 ++ l2) = keepUpdated body l1 ++ keepUpdated body l2.
Proof.
  induction l1 as [|a l1 IH]; simpl; [reflexivity|].
  destruct (body a); simpl; now rewrite IH.
Qed.

Lemma nth_error_middle (l1 l2 : list A) (a : A) :
  nth_error (l1 ++ a :: l2) (List.length l1) = Some a.
Proof.
  rewrite nth_error_app2 by lia. now rewrite Nat.sub_diag.
Qed.

Lemma splice1_middle (l1 l2 : list A) (a : A) :
  splice1 (List.length l1) (l1 ++ a :: l2) = l1 ++ l2.
Proof.
  unfold splice1.
  rewrite firstn_app, firstn_all, Nat.sub_diag, app_nil_r.
  replace (S (List.length l1)) with (List.length (l1 ++ [a])).
  - replace (l1 ++ a :: l2) with ((l1 ++ [a]) ++ l2).
    + now rewrite skipn_app, skipn_all, Nat.sub_diag.
    + now rewrite <- app_assoc.
  - rewrite length_app. simpl. lia.
Qed.

Lemma setAt_middle (l1 l2 : list A) (a a' : A) :
  setAt (List.length l1) a' (l1 ++ a :: l2) = l1 ++ a' :: l2.
Proof.
  unfold setAt.
  rewrite firstn_app, firstn_all, Nat.sub_diag, app_nil_r.
  replace (S (List.length l1)) with (List.length (l1 ++ [a])).
  - replace (l1 ++ a :: l2) with ((l1 ++ [a]) ++ l2).
    + now rewrite skipn_app, skipn_all, Nat.sub_diag.
    + now rewrite <- app_assoc.
  - rewrite length_app. simpl. lia.
Qed.

(** The iterations below index [length l1] leave the rest of the array
    alone and turn [l1] into its updated survivors. *)
Lemma loopFrom_prefix (l1 l2 : list A) :
  loopFrom body (List.length l1) (l1 ++ l2) = keepUpdated body l1 ++ l2.
Proof.
  revert l2. induction l1 as [|a l1 IH] using rev_ind; intros l2.
  - reflexivity.
  - rewrite length_app, Nat.add_comm. simpl.
    rewrite <- app_assoc. simpl.
    rewrite nth_error_middle, keepUpdated_app. simpl.
    destruct (body a) as [a'|].
    + rewrite setAt_middle, IH, <- app_assoc. reflexivity.
    + rewrite splice1_middle, IH, app_nil_r. reflexivity.
Qed.

(** The loop that walks the array from its end, removing as it goes, keeps
    exactly the updated survivors, in order. *)
Lemma forEachFromEnd_keepUpdated (l : list A) :
  forEachFromEnd body l = keepUpdated body l.
Proof.
  unfold forEachFromEnd.
  rewrite <- (app_nil_r l) at 2.
  rewrite loopFrom_prefix. apply app_nil_r.
Qed.

End Loop.

(** ** Charge casting: which spell a release resolves to *)

Module ChargeCast.

Import MagicController.

Lemma startCasting_from_idle (now : Q) (m : t) :
  isCasting m = false ->
  isCasting (startCasting now m) = true
  /\ castStartTime (startCasting now m) = now
  /\ currentSpell (startCasting now m) = Some (waterBallCharged (spells m))
  /\ spells (startCasting now m) = spells m.
Proof.
  intros Hidle. unfold startCasting. rewrite Hidle. simpl. repeat split.
Qed.

Lemma spellToCast_quick (sp : Spells) (cur : option SpellData) (h : Q) :
  h < quickThreshold -> spellToCast sp cur h = Some (waterBallQuick sp).
Proof.
  intros Hlt. unfold spellToCast.
  apply Qltb_true in Hlt. now rewrite Hlt.
Qed.

Lemma spellToCast_charged (sp : Spells) (cur : SpellData) (h : Q) :
  quickThreshold <= h -> castTime cur <= h ->
  spellToCast sp (Some cur) h = Some (waterBallCharged sp).
Proof.
  intros Hq Hfull. unfold spellToCast.
  apply Qltb_false in Hq. apply Qgeb_true in Hfull.
  now rewrite Hq, Hfull.
Qed.

Lemma spellToCast_partial (sp : Spells) (cur : SpellData) (h : Q) :
  quickThreshold <= h -> h < castTime cur ->
  spellToCast sp (Some cur) h = Some (partialSpell sp (h / castTime cur)).
Proof.
  intros Hq Hfull. unfold spellToCast.
  apply Qltb_false in Hq. apply Qgeb_false in Hfull.
  now rewrite Hq, Hfull.
Qed.

Lemma Math_ceil_Qeq (a b : Q) : a == b -> Math_ceil a = Math_ceil b.
Proof.
  intros E. unfold Math_ceil. now rewrite E.
Qed.

(** What [finishCasting] does with the spell it resolved: the release of a
    cast started at [t0] and released at [t1] casts
    [spellToCast _ _ ((t1 - t0) / 1000)] and returns to idle. *)
Lemma finishCasting_after_start (t0 t1 : Q) (tip dir : Vector3) (m : t) :
  isCasting m = false ->
  finishCasting t1 tip dir (startCasting t0 m)
  = match
      spellToCast (spells m) (Some (waterBallCharged (spells m)))
        ((t1 - t0) / 1000)
    with
    | None => None
    | Some s =>
        let m' := castSpell tip dir s (startCasting t0 m) in
        Some (mk (playerController m') (hideCastingBar :: gameUI m')
                (targetMeshes m') false (castStartTime m') None
                (activeProjectiles m') (spellsCast m') (spells m'))
    end.
Proof.
  intros Hidle.
  destruct (startCasting_from_idle t0 m Hidle) as (Hc & Ht & Hs & Hsp).
  unfold finishCasting. rewrite Hc, Ht, Hs, Hsp. simpl.
  destruct (spellToCast _ _ _); reflexivity.
Qed.

(** [SimpleMagicController.finishCasting] has two tiers and no partial
    cast: the quick tier below 0.3 s, the charged tier from 0.3 s on. *)
Lemma simple_cast_has_two_tiers (sp : Spells) (h : Q) :
  (h < 3 # 10 ->
   SimpleMagicController.spellToCast sp h = waterBallQuick sp)
  /\ (3 # 10 <= h ->
      SimpleMagicController.spellToCast sp h = waterBallCharged sp).
Proof.
  unfold SimpleMagicController.spellToCast. split; intros Hh.
  - apply Qltb_true in Hh. now rewrite Hh.
  - apply Qltb_false in Hh. now rewrite Hh.
Qed.


(** C1, amended. In [MagicController], a cast started from idle and held
    for [h] seconds resolves to the quick tier when [h] is below the quick
    threshold, to the charged tier when [h] is at least the charged tier's
    [castTime] (its full charge duration), and otherwise to a spell whose
    [manaCost] and [damage] are the ceiling of the linear interpolation
    [quick + (charged - quick) * (h / castTime)] and whose [projectileSize]
    is that interpolation unrounded.  With a full charge duration of 1.5 s
    (the quick threshold is 0.2 s): 0.1 s gives the quick tier, 1.5 s or
    more gives the charged tier, and 0.75 s gives
    [manaCost = ceil (quick + (charged - quick) * 0.5)].
    [SimpleMagicController] resolves to the quick tier below 0.3 s and to
    the charged tier from 0.3 s on, with no interpolated spell. *)
Theorem charge_tier_resolution (t0 h : Q) (m : t)
    (Hidle : isCasting m = false)
    (Hwf : quickThreshold <= castTime (waterBallCharged (spells m))) :
  let m1 := startCasting t0 m in
  let quick := waterBallQuick (spells m1) in
  let charged := waterBallCharged (spells m1) in
  let resolved := spellToCast (spells m1) (currentSpell m1) in
  let lerp (a b : Q) := a + (b - a) * (h / castTime charged) in
  (h < quickThreshold -> resolved h = Some quick)
  /\ (castTime charged <= h -> resolved h = Some charged)
  /\ (quickThreshold <= h -> h < castTime charged ->
      exists s,
        resolved h = Some s
        /\ manaCost s = Math_ceil (lerp (manaCost quick) (manaCost charged))
        /\ damage s = Math_ceil (lerp (damage quick) (damage charged))
        /\ projectileSize s
           = lerp (projectileSize quick) (projectileSize charged))
  /\ (quickThreshold == 2 # 10 /\
      (castTime charged == 15 # 10 ->
       (exists s, resolved (1 # 10) = Some s /\ manaCost s = manaCost quick)
       /\ (forall h', 15 # 10 <= h' -> resolved h' = Some charged)
       /\ (exists s,
             resolved (75 # 100) = Some s
             /\ manaCost s
                = Math_ceil (manaCost quick
                             + (manaCost charged - manaCost quick)
                               * (5 # 10)))))
  /\ (forall (sp : Spells) (h' : Q),
        (h' < 3 # 10 ->
         SimpleMagicController.spellToCast sp h' = waterBallQuick sp)
        /\ (3 # 10 <= h' ->
            SimpleMagicController.spellToCast sp h' = waterBallCharged sp)).
Proof.
  destruct (startCasting_from_idle t0 m Hidle) as (_ & _ & Hs & Hsp).
  cbv zeta. rewrite Hs, Hsp.
  set (sp := spells m) in *.
  split; [apply spellToCast_quick|].
  split.
  { intros Hfull. apply spellToCast_charged; [|exact Hfull].
    eapply Qle_trans; eassumption. }
  split.
  { intros Hq Hfull. eexists. split.
    - apply spellToCast_partial; assumption.
    - repeat split. }
  split; [|exact simple_cast_has_two_tiers].
  split; [reflexivity|].
  intros H. split; [|split].
  - eexists. split; [apply spellToCast_quick; reflexivity | reflexivity].
  - intros h' Hh'. apply spellToCast_charged.
    + eapply Qle_trans; [|exact Hh']. discriminate.
    + now rewrite H.
  - eexists. split.
    + apply spellToCast_partial; [discriminate | rewrite H; reflexivity].
    + simpl. apply Math_ceil_Qeq. rewrite H.
      assert (E : (75 # 100) / (15 # 10) == 5 # 10) by reflexivity.
      rewrite E. reflexivity.
Qed.

(** The spell table of the source (full charge after 2 s), released after
    1 s: half-way between 5 and 20 mana, rounded up. *)
Lemma charge_tier_resolution_witness :
  let m := create PlayerController.initial [] in
  exists s,
    spellToCast (spells m) (currentSpell (startCasting 0 m)) 1 = Some s
    /\ manaCost s = 13.
Proof.
  destruct (charge_tier_resolution 0 1 (create PlayerController.initial [])
              eq_refl ltac:(discriminate))
    as (_ & _ & (s & Hs & Hm & _) & _ & _).
  - discriminate.
  - reflexivity.
  - exists s. split; [exact Hs | rewrite Hm; reflexivity].
Defined.

(** C6. A cast started from idle and released after [h] seconds, with [h]
    from the quick threshold up to (not including) the charged tier's
    [castTime], resolves to a spell whose projectile speed, color and cast
    time (and name) are those of the charged tier, unchanged. *)
Theorem partial_cast_inherits_charged (t0 h : Q) (m : t)
    (Hidle : isCasting m = false)
    (Hquick : quickThreshold <= h)
    (Hfull : h < castTime (waterBallCharged (spells m))) :
  let m1 := startCasting t0 m in
  let charged := waterBallCharged (spells m1) in
  exists s,
    spellToCast (spells m1) (currentSpell m1) h = Some s
    /\ projectileSpeed s = projectileSpeed charged
    /\ color s = color charged
    /\ castTime s = castTime charged
    /\ name s = name charged.
Proof.
  destruct (startCasting_from_idle t0 m Hidle) as (_ & _ & Hs & Hsp).
  cbv zeta. rewrite Hs, Hsp.
  exists (partialSpell (spells m) (h / castTime (waterBallCharged (spells m)))).
  split.
  - apply spellToCast_partial; assumption.
  - unfold partialSpell. simpl. repeat split.
Qed.

(** The spell table of the source, released after 1 s: the speed (15), the
    color and the cast time (2 s) of the charged Water Ball. *)
Lemma partial_cast_inherits_charged_witness :
  let m := create PlayerController.initial [] in
  exists s,
    spellToCast (spells m) (currentSpell (startCasting 0 m)) 1 = Some s
    /\ projectileSpeed s = 15
    /\ color s = mkColor3 (1 # 10) (4 # 10) (9 # 10)
    /\ castTime s = 2.
Proof.
  destruct (partial_cast_inherits_charged 0 1
              (create PlayerController.initial []) eq_refl)
    as (s & Hs & Hv & Hc & Ht & _).
  - discriminate.
  - reflexivity.
  - exists s. rewrite Hv, Hc, Ht. repeat split. exact Hs.
Defined.

(** C7. Starting a cast is idempotent in both magic controllers: a second
    [startCasting] with no release in between leaves the whole controller
    (the recorded start time included) as the first call left it, and a
    [startCasting] while a cast is charging changes nothing. *)
Theorem startCasting_idempotent :
  (forall (t1 t2 : Q) (m : MagicController.t),
      MagicController.startCasting t2 (MagicController.startCasting t1 m)
      = MagicController.startCasting t1 m)
  /\ (forall (t1 t2 : Q) (m : SimpleMagicController.t),
        SimpleMagicController.startCasting t2
          (SimpleMagicController.startCasting t1 m)
        = SimpleMagicController.startCasting t1 m)
  /\ (forall (t1 t2 : Q) (m : MagicController.t),
        MagicController.isCasting m = false ->
        MagicController.castStartTime
          (MagicController.startCasting t2
             (MagicController.startCasting t1 m)) = t1)
  /\ (forall (t1 t2 : Q) (m : SimpleMagicController.t),
        SimpleMagicController.isCasting m = false ->
        SimpleMagicController.castStartTime
          (SimpleMagicController.startCasting t2
             (SimpleMagicController.startCasting t1 m)) = t1)
  /\ (forall (now : Q) (m : MagicController.t),
        MagicController.isCasting m = true ->
        MagicController.startCasting now m = m)
  /\ (forall (now : Q) (m : SimpleMagicController.t),
        SimpleMagicController.isCasting m = true ->
        SimpleMagicController.startCasting now m = m).
Proof.
  repeat split.
  - intros t1 t2 m.
    assert (Hc : MagicController.isCasting
                   (MagicController.startCasting t1 m) = true).
    { unfold MagicController.startCasting.
      destruct (MagicController.isCasting m) eqn:E; [exact E | reflexivity]. }
    unfold MagicController.startCasting at 1. now rewrite Hc.
  - intros t1 t2 m.
    assert (Hc : SimpleMagicController.isCasting
                   (SimpleMagicController.startCasting t1 m) = true).
    { unfold SimpleMagicController.startCasting.
      destruct (SimpleMagicController.isCasting m) eqn:E;
        [exact E | reflexivity]. }
    unfold SimpleMagicController.startCasting at 1. now rewrite Hc.
  - intros t1 t2 m E. unfold MagicController.startCasting.
    rewrite E. reflexivity.
  - intros t1 t2 m E. unfold SimpleMagicController.startCasting.
    rewrite E. reflexivity.
  - intros now m E. unfold MagicController.startCasting. now rewrite E.
  - intros now m E. unfold SimpleMagicController.startCasting. now rewrite E.
Qed.

(** C1 as the specification states it fails on
    [SimpleMagicController.finishCasting]: a cast with the spell table of
    the source (quick 10 mana, charged 25 mana, full charge 1.5 s), started
    at 0 ms and released at 750 ms, is inside the partial window, where the
    interpolated cost would be [ceil (10 + 15 * 0.5) = 18]; it resolves to
    the charged tier and spends 25 mana. *)
Lemma simple_release_at_half_charge :
  let sp := SimpleMagicController.defaultSpells in
  let quick := waterBallQuick sp in
  let charged := waterBallCharged sp in
  let h := (750 - 0) / 1000 in
  let m1 :=
    SimpleMagicController.startCasting 0
      (SimpleMagicController.create PlayerStats.initial []) in
  let m2 :=
    SimpleMagicController.finishCasting 750 (mkVector3 0 1 0)
      (mkVector3 0 0 1) m1 in
  (3 # 10 <= h /\ h < castTime charged)
  /\ SimpleMagicController.spellToCast sp h = charged
  /\ manaCost (SimpleMagicController.spellToCast sp h) = 25
  /\ Math_ceil (manaCost quick
                + (manaCost charged - manaCost quick) * (h / castTime charged))
     = 18
  /\ manaCost (SimpleMagicController.spellToCast sp h)
     <> Math_ceil (manaCost quick
                   + (manaCost charged - manaCost quick)
                     * (h / castTime charged))
  /\ PlayerStats.mana (SimpleMagicController.playerStats m2) == 100 - 25.
Proof.
  cbv zeta. split; [split; [discriminate | reflexivity]|].
  split; [reflexivity|]. split; [reflexivity|]. split; [reflexivity|].
  split; [discriminate | reflexivity].
Qed.

End ChargeCast.

(** ** The mana pool *)

Module Mana.

Lemma set_playerController_same (m : MagicController.t) :
  MagicController.set_playerController (MagicController.playerController m) m
  = m.
Proof. destruct m. reflexivity. Qed.

Lemma set_playerStats_same (m : SimpleMagicController.t) :
  SimpleMagicController.set_playerStats
    (SimpleMagicController.playerStats m) m = m.
Proof. destruct m. reflexivity. Qed.

Lemma PlayerStats_spendMana_short (amount : Q) (s : PlayerStats.t) :
  PlayerStats.mana s < amount -> PlayerStats.spendMana amount s = (false, s).
Proof.
  intros Hlt. unfold PlayerStats.spendMana.
  apply Qltb_true in Hlt. now rewrite Hlt.
Qed.

Lemma PlayerController_spendMana_short (amount : Q) (pc : PlayerController.t) :
  PlayerController.currentMana pc < amount ->
  PlayerController.spendMana amount pc = (false, pc).
Proof.
  intros Hlt. unfold PlayerController.spendMana.
  apply Qgeb_false in Hlt. now rewrite Hlt.
Qed.

(** C2. Spending more mana than the pool holds returns [false] and leaves
    the pool as it was, in [PlayerStats] and in [PlayerController]; the
    [castSpell] that asked for it leaves its magic controller as it was, so
    it spawns no projectile and counts no spell ([MagicController.spellsCast],
    and [PlayerStats.spellsCast] behind [SimpleMagicController]).  With 4 mana
    and a spell that costs 10: [false], and the mana is still 4. *)
Theorem insufficient_mana_aborts_cast :
  (forall (amount : Q) (s : PlayerStats.t),
      PlayerStats.mana s < amount ->
      PlayerStats.spendMana amount s = (false, s))
  /\ (forall (amount : Q) (pc : PlayerController.t),
        PlayerController.currentMana pc < amount ->
        PlayerController.spendMana amount pc = (false, pc))
  /\ (forall (tip dir : Vector3) (spell : SpellData) (m : MagicController.t),
        PlayerController.currentMana (MagicController.playerController m)
        < manaCost spell ->
        let m' := MagicController.castSpell tip dir spell m in
        m' = m
        /\ MagicController.activeProjectiles m'
           = MagicController.activeProjectiles m
        /\ MagicController.spellsCast m' = MagicController.spellsCast m)
  /\ (forall (pos dir : Vector3) (spell : SpellData)
             (m : SimpleMagicController.t),
        PlayerStats.mana (SimpleMagicController.playerStats m)
        < manaCost spell ->
        let m' := SimpleMagicController.castSpell pos dir spell m in
        m' = m
        /\ SimpleMagicController.activeProjectiles m'
           = SimpleMagicController.activeProjectiles m
        /\ PlayerStats.spellsCast (SimpleMagicController.playerStats m')
           = PlayerStats.spellsCast (SimpleMagicController.playerStats m))
  /\ (forall s : PlayerStats.t,
        PlayerStats.mana s == 4 ->
        PlayerStats.spendMana 10 s = (false, s)
        /\ PlayerStats.mana (snd (PlayerStats.spendMana 10 s)) == 4)
  /\ (forall pc : PlayerController.t,
        PlayerController.currentMana pc == 4 ->
        PlayerController.spendMana 10 pc = (false, pc)
        /\ PlayerController.currentMana
             (snd (PlayerController.spendMana 10 pc)) == 4).
Proof.
  assert (Hcast : forall tip dir spell m,
             PlayerController.currentMana (MagicController.playerController m)
             < manaCost spell ->
             MagicController.castSpell tip dir spell m = m).
  { intros tip dir spell m Hlt. unfold MagicController.castSpell.
    rewrite (PlayerController_spendMana_short _ _ Hlt). simpl.
    apply set_playerController_same. }
  assert (Hsimple : forall pos dir spell m,
             PlayerStats.mana (SimpleMagicController.playerStats m)
             < manaCost spell ->
             SimpleMagicController.castSpell pos dir spell m = m).
  { intros pos dir spell m Hlt.
    unfold SimpleMagicController.castSpell, PlayerStats.Player_spendMana.
    rewrite (PlayerStats_spendMana_short _ _ Hlt). simpl.
    apply set_playerStats_same. }
  split; [exact PlayerStats_spendMana_short|].
  split; [exact PlayerController_spendMana_short|].
  split; [|split; [|split]].
  - intros tip dir spell m Hlt. cbv zeta.
    rewrite (Hcast tip dir spell m Hlt). repeat split.
  - intros pos dir spell m Hlt. cbv zeta.
    rewrite (Hsimple pos dir spell m Hlt). repeat split.
  - intros s H4.
    assert (Hlt : PlayerStats.mana s < 10) by (rewrite H4; reflexivity).
    rewrite (PlayerStats_spendMana_short _ _ Hlt). split; [reflexivity|exact H4].
  - intros pc H4.
    assert (Hlt : PlayerController.currentMana pc < 10)
      by (rewrite H4; reflexivity).
    rewrite (PlayerController_spendMana_short _ _ Hlt).
    split; [reflexivity|exact H4].
Qed.

(** One frame of [PlayerStats] regeneration never lifts the mana above the
    maximum, and leaves the maximum alone. *)
Lemma updateManaRegen_le_max (deltaTime : Q) (st : MovementState)
    (s : PlayerStats.t) :
  PlayerStats.mana s <= PlayerStats.maxMana s ->
  PlayerStats.mana (PlayerStats.updateManaRegen deltaTime st s)
  <= PlayerStats.maxMana (PlayerStats.updateManaRegen deltaTime st s)
  /\ PlayerStats.maxMana (PlayerStats.updateManaRegen deltaTime st s)
     = PlayerStats.maxMana s.
Proof.
  intros Hinv. unfold PlayerStats.updateManaRegen.
  destruct (Qgeb (PlayerStats.mana s) (PlayerStats.maxMana s)); simpl.
  - split; [exact Hinv | reflexivity].
  - split; [apply Math_min_le_l | reflexivity].
Qed.

Lemma regenSteps_le_max (frames : list (Q * MovementState))
    (s : PlayerStats.t) :
  PlayerStats.mana s <= PlayerStats.maxMana s ->
  PlayerStats.mana (PlayerStats.regenSteps frames s)
  <= PlayerStats.maxMana s
  /\ PlayerStats.maxMana (PlayerStats.regenSteps frames s)
     = PlayerStats.maxMana s.
Proof.
  revert s. unfold PlayerStats.regenSteps.
  induction frames as [|[dt st] frames IH]; intros s Hinv; simpl.
  - split; [exact Hinv | reflexivity].
  - destruct (updateManaRegen_le_max dt st s Hinv) as [Hle Hmax].
    destruct (IH _ Hle) as [Hle' Hmax'].
    rewrite Hmax in Hle', Hmax'. split; assumption.
Qed.

(** The first player's pool ([PlayerController.regenerateMana]) follows the
    same formula; its rate is 0.7 of the base rate while Running and the
    base rate in every other state, the airborne ones included. *)
Lemma regenerateMana_clamped (deltaTime : Q) (pc : PlayerController.t) :
  0 <= deltaTime ->
  0 <= PlayerController.regenRate pc ->
  PlayerController.currentMana pc <= PlayerController.maxMana pc ->
  PlayerController.currentMana (PlayerController.regenerateMana deltaTime pc)
  == Math_min (PlayerController.maxMana pc)
       (PlayerController.currentMana pc
        + PlayerController.regenRate pc * deltaTime)
  /\ PlayerController.currentMana
       (PlayerController.regenerateMana deltaTime pc)
     <= PlayerController.maxMana pc.
Proof.
  intros Hdt Hrate Hinv. unfold PlayerController.regenerateMana.
  destruct (Qltb (PlayerController.currentMana pc)
              (PlayerController.maxMana pc)) eqn:E.
  - simpl. split; [reflexivity | apply Math_min_le_l].
  - apply Qltb_false in E.
    assert (Heq : PlayerController.currentMana pc
                  == PlayerController.maxMana pc)
      by (apply Qle_antisym; assumption).
    assert (Hgain : 0 <= PlayerController.regenRate pc * deltaTime)
      by (apply Qmult_le_0_compat; assumption).
    split; [|exact Hinv].
    unfold Math_min. rewrite Q.min_l; [exact Heq|].
    rewrite Heq. Lqa.lra.
Qed.

Lemma PlayerController_regenRate_cases (pc : PlayerController.t) :
  (PlayerController.currentState pc = RUNNING ->
   PlayerController.regenRate pc
   = PlayerController.manaRegenRate pc * (7 # 10))
  /\ (PlayerController.currentState pc <> RUNNING ->
      PlayerController.regenRate pc = PlayerController.manaRegenRate pc).
Proof.
  unfold PlayerController.regenRate.
  destruct (PlayerController.currentState pc); split; intros H;
    try reflexivity; try discriminate; congruence.
Qed.

Lemma PlayerController_regenSteps_le_max (deltaTimes : list Q)
    (pc : PlayerController.t) :
  PlayerController.currentMana pc <= PlayerController.maxMana pc ->
  PlayerController.currentMana (PlayerController.regenSteps deltaTimes pc)
  <= PlayerController.maxMana (PlayerController.regenSteps deltaTimes pc).
Proof.
  revert pc. unfold PlayerController.regenSteps.
  induction deltaTimes as [|dt rest IH]; intros pc Hinv; simpl.
  - exact Hinv.
  - apply IH. unfold PlayerController.regenerateMana.
    destruct (Qltb (PlayerController.currentMana pc)
                (PlayerController.maxMana pc)); simpl.
    + apply Math_min_le_l.
    + exact Hinv.
Qed.


(** C3, amended. One frame of mana regeneration with [deltaTime >= 0], in
    any movement state, sets the mana to
    [min (max, mana + rate * deltaTime)], for a pool within its maximum and
    a rate that is not negative, in [PlayerStats.updateManaRegen] and in
    [PlayerController.regenerateMana].  In [PlayerStats] the rate is the
    base rate times the running multiplier while Running and times 0.5
    while Jumping or Falling: with a positive base rate and a running
    multiplier between 0.5 and 1 (0.7 in the source) the rate while Running
    is below the base rate and the rate in the air is lower still.  In
    [PlayerController] the rate is 0.7 of the base rate while Running and
    the base rate in every other state, the airborne ones included.  In
    both the mana never exceeds the maximum, whatever the [deltaTime]s and
    however many frames regenerate. *)
Theorem mana_regen_clamped (deltaTime : Q) (st : MovementState)
    (s : PlayerStats.t)
    (Hdt : 0 <= deltaTime)
    (Hrate : 0 <= PlayerStats.regenRate (PlayerStats.regenConfig s) st)
    (Hinv : PlayerStats.mana s <= PlayerStats.maxMana s) :
  let cfg := PlayerStats.regenConfig s in
  let base := PlayerStats.manaRegenRate cfg in
  PlayerStats.mana (PlayerStats.updateManaRegen deltaTime st s)
  == Math_min (PlayerStats.maxMana s)
       (PlayerStats.mana s + PlayerStats.regenRate cfg st * deltaTime)
  /\ PlayerStats.regenRate cfg RUNNING
     = base * PlayerStats.runningMultiplier cfg
  /\ PlayerStats.regenRate cfg JUMPING = base * (5 # 10)
  /\ PlayerStats.regenRate cfg FALLING = base * (5 # 10)
  /\ (0 < base ->
      5 # 10 < PlayerStats.runningMultiplier cfg ->
      PlayerStats.runningMultiplier cfg < 1 ->
      PlayerStats.regenRate cfg JUMPING < PlayerStats.regenRate cfg RUNNING
      /\ PlayerStats.regenRate cfg FALLING
         < PlayerStats.regenRate cfg RUNNING
      /\ PlayerStats.regenRate cfg RUNNING < base)
  /\ (forall frames : list (Q * MovementState),
        PlayerStats.mana (PlayerStats.regenSteps frames s)
        <= PlayerStats.maxMana (PlayerStats.regenSteps frames s))
  /\ (forall pc : PlayerController.t,
        0 <= PlayerController.regenRate pc ->
        PlayerController.currentMana pc <= PlayerController.maxMana pc ->
        PlayerController.currentMana
          (PlayerController.regenerateMana deltaTime pc)
        == Math_min (PlayerController.maxMana pc)
             (PlayerController.currentMana pc
              + PlayerController.regenRate pc * deltaTime))
  /\ (forall pc : PlayerController.t,
        (PlayerController.currentState pc = RUNNING ->
         PlayerController.regenRate pc
         = PlayerController.manaRegenRate pc * (7 # 10))
        /\ (PlayerController.currentState pc <> RUNNING ->
            PlayerController.regenRate pc
            = PlayerController.manaRegenRate pc))
  /\ (forall (deltaTimes : list Q) (pc : PlayerController.t),
        PlayerController.currentMana pc <= PlayerController.maxMana pc ->
        PlayerController.currentMana
          (PlayerController.regenSteps deltaTimes pc)
        <= PlayerController.maxMana
             (PlayerController.regenSteps deltaTimes pc)).
Proof.
  cbv zeta.
  split; [|split; [|split; [|split; [|split; [|split; [|split; [|split]]]]]]];
    [..
    | intros pc Hr Hi; apply (regenerateMana_clamped deltaTime pc Hdt Hr Hi)
    | exact PlayerController_regenRate_cases
    | exact PlayerController_regenSteps_le_max].
  - unfold PlayerStats.updateManaRegen.
    destruct (Qgeb (PlayerStats.mana s) (PlayerStats.maxMana s)) eqn:E.
    + apply Qgeb_true in E.
      assert (Heq : PlayerStats.mana s == PlayerStats.maxMana s)
        by (apply Qle_antisym; assumption).
      assert (Hgain : 0 <= PlayerStats.regenRate (PlayerStats.regenConfig s) st
                           * deltaTime)
        by (apply Qmult_le_0_compat; assumption).
      unfold Math_min. rewrite Q.min_l; [exact Heq|].
      rewrite Heq. Lqa.lra.
    + simpl. reflexivity.
  - reflexivity.
  - reflexivity.
  - reflexivity.
  - simpl. intros Hb Hlo Hhi.
    assert (Hair : PlayerStats.manaRegenRate (PlayerStats.regenConfig s)
                   * (5 # 10)
                   < PlayerStats.manaRegenRate (PlayerStats.regenConfig s)
                     * PlayerStats.runningMultiplier (PlayerStats.regenConfig s))
      by (apply Qmult_lt_l; assumption).
    split; [exact Hair | split; [exact Hair|]].
    rewrite <- (Qmult_1_r (PlayerStats.manaRegenRate _)) at 2.
    apply Qmult_lt_l; assumption.
  - intros frames.
    destruct (regenSteps_le_max frames s Hinv) as [Hle Hmax].
    rewrite Hmax. exact Hle.
Qed.

(** The pool of the source at 40 of 100 mana while Running, after a frame of
    one second: 40 + 10 * 0.7 * 1 = 47. *)
Lemma mana_regen_clamped_witness :
  PlayerStats.mana
    (PlayerStats.updateManaRegen 1 RUNNING
       (PlayerStats.mk 40 100 0 PlayerStats.defaultRegenConfig []))
  == 47.
Proof.
  destruct (mana_regen_clamped 1 RUNNING
              (PlayerStats.mk 40 100 0 PlayerStats.defaultRegenConfig []))
    as (H & _).
  - discriminate.
  - discriminate.
  - discriminate.
  - rewrite H. reflexivity.
Defined.

(** C3 as the specification states it fails on
    [PlayerController.regenerateMana]: in the air the rate is the base rate
    (10), above the rate while Running (7), so a second of regeneration from
    40 mana gives 50 while Jumping and 47 while Running. *)
Lemma PlayerController_airborne_regen_is_unscaled :
  let airborne := PlayerController.mk 100 40 10 JUMPING in
  let running := PlayerController.mk 100 40 10 RUNNING in
  PlayerController.regenRate airborne == PlayerController.manaRegenRate airborne
  /\ PlayerController.regenRate running == 7
  /\ ~ PlayerController.regenRate airborne < PlayerController.regenRate running
  /\ PlayerController.currentMana (PlayerController.regenerateMana 1 airborne)
     == 50
  /\ PlayerController.currentMana (PlayerController.regenerateMana 1 running)
     == 47.
Proof.
  cbv zeta. split; [reflexivity|]. split; [reflexivity|].
  split; [discriminate|]. split; reflexivity.
Qed.

End Mana.

(** ** Projectile lifetime *)

Module ProjectileLifetime.

Section Loops.

Variable Distance : Vector3 -> Vector3 -> Q.

(** Both [update] loops keep exactly the projectiles their body keeps. *)
Lemma updateProjectiles_keepUpdated (deltaTime : Q)
    (m : SimpleMagicController.t) :
  SimpleMagicController.activeProjectiles
    (SimpleMagicController.updateProjectiles Distance deltaTime m)
  = keepUpdated
      (SimpleMagicController.updateProjectile Distance
         (SimpleMagicController.targetMeshes m) deltaTime)
      (SimpleMagicController.activeProjectiles m).
Proof.
  unfold SimpleMagicController.updateProjectiles. simpl.
  apply forEachFromEnd_keepUpdated.
Qed.

Lemma update_keepUpdated (now deltaTime : Q) (m : MagicController.t) :
  MagicController.activeProjectiles
    (MagicController.update Distance now deltaTime m)
  = keepUpdated
      (MagicController.updateProjectile Distance
         (MagicController.targetMeshes m) deltaTime)
      (MagicController.activeProjectiles m).
Proof.
  unfold MagicController.update. simpl. apply forEachFromEnd_keepUpdated.
Qed.

(** What the two [createProjectile] spawn. *)
Lemma createProjectile_lifetimes (a b : Vector3) (spell : SpellData) :
  (forall m : SimpleMagicController.t,
      exists p,
        SimpleMagicController.activeProjectiles
          (SimpleMagicController.createProjectile a b spell m)
        = SimpleMagicController.activeProjectiles m ++ [p]
        /\ lifetime p = 0 /\ maxLifetime p = 5)
  /\ (forall m : MagicController.t,
        exists p,
          MagicController.activeProjectiles
            (MagicController.createProjectile a b spell m)
          = MagicController.activeProjectiles m ++ [p]
          /\ lifetime p = 0 /\ maxLifetime p = 8).
Proof.
  split; intros m; eexists; (split; [reflexivity|]); split; reflexivity.
Qed.

End Loops.

Section FirstTick.

(** A loop body [step] that, when the moved projectile does not collide,
    removes it exactly on [expired lifetime maxLifetime]. *)
Variable step : float -> Doubles.Projectile -> option Doubles.Projectile.
Variable collides : Doubles.Projectile -> bool.
Variable expired : float -> float -> bool.
Hypothesis step_no_collision :
  forall (deltaTime : float) (p : Doubles.Projectile),
    collides (Doubles.moveProjectile deltaTime p) = false ->
    step deltaTime p
    = if expired (Doubles.lifetime p + deltaTime)%float
           (Doubles.maxLifetime p)
      then None
      else Some (Doubles.moveProjectile deltaTime p).

(** The tick that removes the projectile is the first one after which
    [expired] holds of its accumulated lifetime. *)
Lemma removalTick_first_expired (deltaTimes : list float)
    (p : Doubles.Projectile) (k : nat) :
  Doubles.neverCollides collides deltaTimes p ->
  Doubles.removalTick step deltaTimes p = Some k
  <-> ((1 <= k <= List.length deltaTimes)%nat
       /\ expired (Doubles.elapsedAfter (Doubles.lifetime p) deltaTimes k)
            (Doubles.maxLifetime p) = true
       /\ forall j, (1 <= j < k)%nat ->
                    expired
                      (Doubles.elapsedAfter (Doubles.lifetime p) deltaTimes j)
                      (Doubles.maxLifetime p) = false).
Proof.
  revert p k.
  induction deltaTimes as [|dt rest IH]; intros p k Hfree.
  - simpl. split; [discriminate | intros [[H1 H0] _]; lia].
  - destruct Hfree as [Hnow Hlater]. simpl Doubles.removalTick.
    rewrite (step_no_collision _ _ Hnow).
    destruct (expired (Doubles.lifetime p + dt)%float (Doubles.maxLifetime p))
      eqn:E.
    + split.
      * intros Hk. injection Hk as <-. simpl. repeat split; try lia.
        exact E.
      * intros [[H1 _] [_ Hbefore]].
        destruct (Nat.eq_dec k 1) as [-> | Hne]; [reflexivity|].
        specialize (Hbefore 1%nat ltac:(lia)). simpl in Hbefore.
        congruence.
    + specialize (IH (Doubles.moveProjectile dt p)).
      split.
      * intros Hk.
        destruct (Doubles.removalTick step rest (Doubles.moveProjectile dt p))
          as [k'|] eqn:Ek; [|discriminate].
        injection Hk as <-.
        destruct (proj1 (IH k' Hlater) eq_refl) as [[H1 Hlen] [Hmax Hbefore]].
        simpl. repeat split; try lia.
        -- exact Hmax.
        -- intros j Hj. destruct j as [|j']; [lia|].
           destruct j' as [|j'']; [exact E|].
           apply (Hbefore (S j'')). lia.
      * intros [[H1 Hlen] [Hmax Hbefore]].
        destruct k as [|k']; [lia|].
        destruct k' as [|k''].
        -- simpl in Hmax. congruence.
        -- assert (Hrec : Doubles.removalTick step rest
                            (Doubles.moveProjectile dt p)
                          = Some (S k'')).
           { apply (IH (S k'') Hlater). simpl in Hlen.
             repeat split; try lia.
             - exact Hmax.
             - intros j Hj. apply (Hbefore (S j)). lia. }
           rewrite Hrec. reflexivity.
Qed.

End FirstTick.

Section Controllers.

Variable Distance : Doubles.Vector3 -> Doubles.Vector3 -> float.

(** In doubles too, both loops keep exactly the projectiles their body
    keeps. *)
Lemma loops_keepUpdated (targets : list (option Doubles.Vector3))
    (deltaTime : float) (l : list Doubles.Projectile) :
  Doubles.SimpleMagicController.updateProjectiles Distance targets deltaTime l
  = keepUpdated
      (Doubles.SimpleMagicController.updateProjectile Distance targets
         deltaTime) l
  /\ Doubles.MagicController.updateProjectiles Distance targets deltaTime l
     = keepUpdated
         (Doubles.MagicController.updateProjectile Distance targets
            deltaTime) l.
Proof.
  split; apply forEachFromEnd_keepUpdated.
Qed.

(** C4, amended. A projectile that registers no collision is removed by
    [SimpleMagicController.updateProjectiles] at the first tick at which its
    accumulated lifetime (the running double sum the loop keeps in
    [projectile.lifetime]) is greater than or equal to its [maxLifetime]
    (spawned as 5), and at no earlier tick; [MagicController.update] removes
    it at the first tick at which the lifetime is strictly greater than its
    [maxLifetime] (spawned as 8), and at no earlier tick.  Each controller
    is taken with its own collision test. *)
Theorem projectile_removed_when_lifetime_reached
    (targets : list (option Doubles.Vector3)) (deltaTimes : list float)
    (p : Doubles.Projectile) (k : nat) :
  let elapsed := Doubles.elapsedAfter (Doubles.lifetime p) deltaTimes in
  (Doubles.neverCollides
     (Doubles.SimpleMagicController.checkProjectileCollisions Distance
        targets) deltaTimes p ->
   (Doubles.removalTick
      (Doubles.SimpleMagicController.updateProjectile Distance targets)
      deltaTimes p = Some k
    <-> ((1 <= k <= List.length deltaTimes)%nat
         /\ Fgeb (elapsed k) (Doubles.maxLifetime p) = true
         /\ forall j, (1 <= j < k)%nat ->
                      Fgeb (elapsed j) (Doubles.maxLifetime p) = false)))
  /\ (Doubles.neverCollides
        (Doubles.MagicController.checkProjectileCollisions Distance targets)
        deltaTimes p ->
      (Doubles.removalTick
         (Doubles.MagicController.updateProjectile Distance targets)
         deltaTimes p = Some k
       <-> ((1 <= k <= List.length deltaTimes)%nat
            /\ Fgtb (elapsed k) (Doubles.maxLifetime p) = true
            /\ forall j, (1 <= j < k)%nat ->
                         Fgtb (elapsed j) (Doubles.maxLifetime p) = false))).
Proof.
  cbv zeta. split; intros Hfree.
  - apply (removalTick_first_expired
             (Doubles.SimpleMagicController.updateProjectile Distance targets)
             (Doubles.SimpleMagicController.checkProjectileCollisions
                Distance targets)
             Fgeb); [|exact Hfree].
    intros dt q Hq.
    unfold Doubles.SimpleMagicController.updateProjectile.
    rewrite Hq. reflexivity.
  - apply (removalTick_first_expired
             (Doubles.MagicController.updateProjectile Distance targets)
             (Doubles.MagicController.checkProjectileCollisions Distance
                targets)
             Fgtb); [|exact Hfree].
    intros dt q Hq.
    unfold Doubles.MagicController.updateProjectile.
    rewrite Hq. reflexivity.
Qed.

End Controllers.

(** Frames of 0.1 s.  The lifetime of a [SimpleMagicController] projectile
    is 4.999999999999998 after fifty of them, below 5, and the fifty-first
    removes it; that of a [MagicController] projectile is 7.999999999999988
    after eighty, not above 8, and the eighty-first removes it. *)
Lemma projectile_removed_when_lifetime_reached_witness :
  let tenths := repeat 0.1%float in
  Doubles.removalTick
    (Doubles.SimpleMagicController.updateProjectile Doubles.outOfReach [])
    (tenths 51%nat) (Doubles.spawned 5) = Some 51%nat
  /\ Doubles.elapsedAfter 0 (tenths 51%nat) 50 = 4.999999999999998%float
  /\ Doubles.removalTick
       (Doubles.MagicController.updateProjectile Doubles.outOfReach [])
       (tenths 81%nat) (Doubles.spawned 8) = Some 81%nat
  /\ Doubles.elapsedAfter 0 (tenths 81%nat) 80 = 7.999999999999988%float
  /\ Fgtb (Doubles.elapsedAfter 0 (tenths 81%nat) 80) 8 = false.
Proof.
  cbv zeta. split; [|split; [vm_compute; reflexivity|]].
  - refine (proj2 (proj1 (projectile_removed_when_lifetime_reached
                            Doubles.outOfReach [] (repeat 0.1%float 51)
                            (Doubles.spawned 5) 51) _) _).
    + vm_compute. repeat split.
    + split; [vm_compute; lia|].
      split; [vm_compute; reflexivity|].
      intros j Hj.
      do 51 (destruct j as [|j]; [try lia; vm_compute; reflexivity|]).
      lia.
  - split; [vm_compute; reflexivity|].
    split; [vm_compute; reflexivity|].
    assert (Hfree : Doubles.neverCollides
                      (Doubles.MagicController.checkProjectileCollisions
                         Doubles.outOfReach [])
                      (repeat 0.1%float 81) (Doubles.spawned 8))
      by (vm_compute; repeat split).
    assert (Htick : Doubles.removalTick
                      (Doubles.MagicController.updateProjectile
                         Doubles.outOfReach [])
                      (repeat 0.1%float 81) (Doubles.spawned 8)
                    = Some 81%nat)
      by (vm_compute; reflexivity).
    destruct (proj1 (proj2 (projectile_removed_when_lifetime_reached
                              Doubles.outOfReach [] (repeat 0.1%float 81)
                              (Doubles.spawned 8) 81) Hfree) Htick)
      as (_ & _ & Hbefore).
    apply (Hbefore 80%nat). lia.
Defined.

(** C4 as the specification states it fails on [MagicController.update]: a
    projectile spawned with [maxLifetime] 8 whose lifetime is exactly 8
    after its first tick registers no collision, has reached its maximum at
    tick 1, and is removed at tick 2. *)
Lemma MagicController_expiry_is_strict :
  let p := Doubles.spawned 8 in
  let deltaTimes := [8%float; 0.01%float] in
  Doubles.neverCollides
    (Doubles.MagicController.checkProjectileCollisions Doubles.outOfReach [])
    deltaTimes p
  /\ Doubles.elapsedAfter (Doubles.lifetime p) deltaTimes 1 = 8%float
  /\ Fgeb (Doubles.elapsedAfter (Doubles.lifetime p) deltaTimes 1)
       (Doubles.maxLifetime p) = true
  /\ Doubles.removalTick
       (Doubles.MagicController.updateProjectile Doubles.outOfReach [])
       deltaTimes p = Some 2%nat
  /\ Doubles.removalTick
       (Doubles.MagicController.updateProjectile Doubles.outOfReach [])
       deltaTimes p <> Some 1%nat.
Proof.
  cbv zeta. split; [vm_compute; repeat split|].
  split; [vm_compute; reflexivity|].
  split; [vm_compute; reflexivity|].
  split; [vm_compute; reflexivity | vm_compute; discriminate].
Qed.

End ProjectileLifetime.

(** ** Movement state and jumping *)

Module Movement.

(** [update] in the first document throws at its first statement after
    reading the state: [this.applyGravity] is not a function.  The state is
    as it was. *)
Lemma update_throws (Math_sqrt : Q -> Q) (deltaTime : Q)
    (m : PlayerMovement.t) :
  PlayerMovement.update Math_sqrt deltaTime m
  = Threw "TypeError: this.applyGravity is not a function" m.
Proof. reflexivity. Qed.

(** The second variant ([PlayerMovement2.updateState]) does test sprint: it
    follows the specified resolution with the fixed thresholds 0.5 (jump),
    0.8 of the walk speed (run) and 0.5 (walk), when the run threshold is
    not below the walk threshold. *)
Lemma updateState_tests_sprint (Math_sqrt : Q -> Q) (m : PlayerMovement2.t) :
  5 # 10 <= PlayerMovement2.walkSpeed (PlayerMovement2.config m) * (8 # 10) ->
  let v := PlayerMovement.linearVelocity (PlayerMovement2.physicsAggregate m) in
  PlayerMovement2.currentState (PlayerMovement2.updateState Math_sqrt m)
  = PlayerMovement.specifiedResolution (PlayerMovement2.isGrounded m)
      (vy v) (Math_sqrt (vx v * vx v + vz v * vz v))
      (InputManager.sprint (PlayerMovement2.inputManager m))
      (5 # 10)
      (PlayerMovement2.walkSpeed (PlayerMovement2.config m) * (8 # 10))
      (5 # 10).
Proof.
  intros Hord. cbv zeta.
  unfold PlayerMovement2.updateState, PlayerMovement.specifiedResolution.
  simpl.
  set (v := PlayerMovement.linearVelocity (PlayerMovement2.physicsAggregate m)).
  set (hs := Math_sqrt (vx v * vx v + vz v * vz v)).
  set (runT := PlayerMovement2.walkSpeed (PlayerMovement2.config m) * (8 # 10))
    in *.
  destruct (PlayerMovement2.isGrounded m); simpl.
  - destruct (InputManager.sprint (PlayerMovement2.inputManager m)); simpl.
    + destruct (Qgtb hs runT) eqn:Er; simpl.
      * apply Qgtb_true in Er.
        assert (Ew : Qgtb hs (5 # 10) = true)
          by (apply Qgtb_true; Lqa.lra).
        now rewrite Ew.
      * destruct (Qgtb hs (5 # 10)); reflexivity.
    + rewrite andb_false_r. destruct (Qgtb hs (5 # 10)); reflexivity.
  - destruct (Qgtb (vy v) (5 # 10)); reflexivity.
Qed.

(** C5. [PlayerMovement.update] of the first document (the class [Player]
    composes) resolves no state: at every call it throws at
    [this.applyGravity(deltaTime)], a method the class does not have, before
    the resolution is reached, and leaves the state and the observers as
    they were.  A player as constructed (grounded, Idle) whose body moves
    at 7, above the run threshold 6, with forward and sprint held stays Idle
    where the resolution in the words of the specification gives Running.
    [updateState] of the third document, which its [update]
    calls at every tick, does resolve the state in the specified priority
    order, sprint included, with the thresholds 0.5 (jump), 0.8 of the walk
    speed (run) and 0.5 (walk), whenever the run threshold is not below the
    walk threshold, as with the default walk speed 4. *)
Theorem update_throws_before_state_is_resolved (Math_sqrt : Q -> Q) :
  (forall (deltaTime : Q) (m : PlayerMovement.t),
      let outcome := PlayerMovement.update Math_sqrt deltaTime m in
      errorOf outcome
      = Some "TypeError: this.applyGravity is not a function"%string
      /\ stateOf outcome = m)
  /\ (let keys :=
        InputManager.mkInput true false false false true false (0, 0) 0
          false false false in
      let m :=
        PlayerMovement.create keys
          (PlayerMovement.mkBody (mkVector3 7 0 0) (mkVector3 0 1 0)) in
      let m' := stateOf (PlayerMovement.update sqrtOfSquare (16 # 1000) m) in
      let cfg := PlayerMovement.config m' in
      PlayerMovement.currentState m' = IDLE
      /\ PlayerMovement.notifications m' = []
      /\ PlayerMovement.getHorizontalSpeed sqrtOfSquare m' == 7
      /\ InputManager.sprint (PlayerMovement.inputManager m') = true
      /\ PlayerMovement.specifiedResolution (PlayerMovement.isGrounded m')
           (vy (PlayerMovement.linearVelocity
                  (PlayerMovement.physicsAggregate m')))
           (PlayerMovement.getHorizontalSpeed sqrtOfSquare m')
           (InputManager.sprint (PlayerMovement.inputManager m'))
           (PlayerMovement.jumpThreshold cfg)
           (PlayerMovement.runThreshold cfg)
           (PlayerMovement.walkThreshold cfg) = RUNNING)
  /\ (forall m : PlayerMovement2.t,
        let v :=
          PlayerMovement.linearVelocity (PlayerMovement2.physicsAggregate m) in
        let runT :=
          PlayerMovement2.walkSpeed (PlayerMovement2.config m) * (8 # 10) in
        let state :=
          PlayerMovement2.currentState
            (PlayerMovement2.updateState Math_sqrt m) in
        (5 # 10 <= runT ->
         state
         = PlayerMovement.specifiedResolution (PlayerMovement2.isGrounded m)
             (vy v) (Math_sqrt (vx v * vx v + vz v * vz v))
             (InputManager.sprint (PlayerMovement2.inputManager m))
             (5 # 10) runT (5 # 10))
        /\ (state = JUMPING \/ state = FALLING \/ state = RUNNING
            \/ state = WALKING \/ state = IDLE))
  /\ 5 # 10
     <= PlayerMovement2.walkSpeed PlayerMovement2.defaultConfig * (8 # 10).
Proof.
  split; [intros deltaTime m; cbv zeta; rewrite update_throws; split;
          reflexivity|].
  split; [cbv zeta; rewrite update_throws; vm_compute; repeat split|].
  split; [|discriminate].
  intros m. cbv zeta. split.
  - intros Hord. exact (updateState_tests_sprint Math_sqrt m Hord).
  - unfold PlayerMovement2.updateState. simpl.
    destruct (PlayerMovement2.isGrounded m); simpl.
    + destruct (Qgtb _ (5 # 10)); [|auto 10].
      destruct (InputManager.sprint (PlayerMovement2.inputManager m) && _);
        auto 10.
    + destruct (Qgtb _ (5 # 10)); auto 10.
Qed.

(** C8. A [jump] while [isGrounded] is false changes nothing, in either
    variant of [PlayerMovement]: no impulse reaches the body, so its
    velocity is as before, the movement state is as before and nothing is
    left behind for a later tick (the next [update] runs as if the request
    had not been made).  A [jump] while grounded applies the impulse
    [(0, jumpForce, 0)] to the body and leaves the movement state to the
    next tick. *)
Theorem jump_dropped_while_airborne :
  (forall (applyImpulse :
             Vector3 -> Vector3 -> PlayerMovement.Body -> PlayerMovement.Body)
          (m : PlayerMovement.t),
      PlayerMovement.isGrounded m = false ->
      PlayerMovement.jump applyImpulse m = m)
  /\ (forall (applyImpulse :
                Vector3 -> Vector3 -> PlayerMovement.Body
                -> PlayerMovement.Body)
             (m : PlayerMovement2.t),
        PlayerMovement2.isGrounded m = false ->
        PlayerMovement2.jump applyImpulse m = m)
  /\ (forall (applyImpulse :
                Vector3 -> Vector3 -> PlayerMovement.Body
                -> PlayerMovement.Body)
             (m : PlayerMovement.t),
        PlayerMovement.isGrounded m = true ->
        let m' := PlayerMovement.jump applyImpulse m in
        PlayerMovement.physicsAggregate m'
        = applyImpulse
            (mkVector3 0 (PlayerMovement.jumpForce (PlayerMovement.config m)) 0)
            (PlayerMovement.absolutePosition (PlayerMovement.physicsAggregate m))
            (PlayerMovement.physicsAggregate m)
        /\ PlayerMovement.currentState m' = PlayerMovement.currentState m)
  /\ (forall (applyImpulse :
                Vector3 -> Vector3 -> PlayerMovement.Body
                -> PlayerMovement.Body)
             (m : PlayerMovement2.t),
        PlayerMovement2.isGrounded m = true ->
        let m' := PlayerMovement2.jump applyImpulse m in
        PlayerMovement2.physicsAggregate m'
        = applyImpulse
            (mkVector3 0
               (PlayerMovement2.jumpForce (PlayerMovement2.config m)) 0)
            (PlayerMovement.absolutePosition
               (PlayerMovement2.physicsAggregate m))
            (PlayerMovement2.physicsAggregate m)
        /\ PlayerMovement2.currentState m' = PlayerMovement2.currentState m)
  /\ (forall (applyImpulse :
                Vector3 -> Vector3 -> PlayerMovement.Body
                -> PlayerMovement.Body)
             (Math_sqrt : Q -> Q)
             (methods : PlayerMovement.Methods)
             (deltaTime : Q) (m : PlayerMovement.t),
        PlayerMovement.isGrounded m = false ->
        PlayerMovement.updateWith Math_sqrt methods deltaTime
          (PlayerMovement.jump applyImpulse m)
        = PlayerMovement.updateWith Math_sqrt methods deltaTime m
        /\ PlayerMovement.update Math_sqrt deltaTime
             (PlayerMovement.jump applyImpulse m)
           = PlayerMovement.update Math_sqrt deltaTime m).
Proof.
  assert (H1 : forall applyImpulse (m : PlayerMovement.t),
             PlayerMovement.isGrounded m = false ->
             PlayerMovement.jump applyImpulse m = m).
  { intros f m Hair. unfold PlayerMovement.jump. now rewrite Hair. }
  split; [exact H1|].
  split; [|split; [|split]].
  - intros f m Hair. unfold PlayerMovement2.jump. now rewrite Hair.
  - intros f m Hg. cbv zeta. unfold PlayerMovement.jump. rewrite Hg.
    simpl. split; reflexivity.
  - intros f m Hg. cbv zeta. unfold PlayerMovement2.jump. rewrite Hg.
    simpl. split; reflexivity.
  - intros f sq methods dt m Hair. now rewrite (H1 f m Hair).
Qed.

End Movement.

(** ** The movement vector of the input manager *)

Module MovementVector.

Import InputManager.

(** C9, amended. For every combination of the movement keys,
    [getMovementVector] returns the zero vector exactly when both axes are
    idle or cancelled (no key of the axis, or both of its keys); one axis
    alone gives a vector of length exactly 1; a diagonal gives components
    of size 0.7071067811865475, of length 0.9999999999999999 as the code
    would compute it and just below 1 as a real number.  So the diagonal is
    normalized up to rounding, and no request is longer than 1: a diagonal
    is never faster than an axis-aligned request. *)
Theorem movement_vector_zero_or_near_unit (i : InputState) :
  let v := getMovementVector i in
  let idleX := axisCancelled (left i) (right i) in
  let idleZ := axisCancelled (forward i) (backward i) in
  (v = (0%float, 0%float) <-> idleX && idleZ = true)
  /\ (xorb idleX idleZ = true ->
      vectorLength v = 1%float /\ squaredLength v == 1
      /\ (abs (fst v) = 1%float /\ snd v = 0%float
          \/ fst v = 0%float /\ abs (snd v) = 1%float))
  /\ (idleX || idleZ = false ->
      abs (fst v) = 0.7071067811865475%float
      /\ abs (snd v) = 0.7071067811865475%float
      /\ vectorLength v = 0.9999999999999999%float
      /\ squaredLength v < 1
      /\ 1 - (1 # 1000000000000000) < squaredLength v)
  /\ squaredLength v <= 1
  /\ (forward i = true -> right i = true ->
      backward i = false -> left i = false ->
      v = (0.7071067811865475%float, 0.7071067811865475%float)).
Proof.
  destruct i as [f b l r s j mm sc pc ph pa].
  destruct f, b, l, r; vm_compute;
    (split; [split; intros H; try reflexivity; try discriminate H|]);
    (split; [intros H; try discriminate H; repeat split; auto|]);
    (split; [intros H; try discriminate H; repeat split|]);
    (split; [intros H; discriminate H|]);
    intros H1 H2 H3 H4; try discriminate; reflexivity.
Qed.

(** C9 as the specification states it fails on the diagonal: forward and
    right held together give (0.7071067811865475, 0.7071067811865475),
    which is not the zero vector and whose length is not 1, neither as the
    code would compute it (0.9999999999999999) nor exactly. *)
Lemma diagonal_is_shorter_than_unit :
  let i := mkInput true false false true false false (0, 0) 0 false false
             false in
  let v := getMovementVector i in
  v = (0.7071067811865475%float, 0.7071067811865475%float)
  /\ v <> (0%float, 0%float)
  /\ vectorLength v = 0.9999999999999999%float
  /\ vectorLength v <> 1%float
  /\ ~ squaredLength v == 1.
Proof.
  vm_compute. repeat split; intros H; discriminate H.
Qed.

End MovementVector.

(** ** Camera zoom *)

Module CameraZoom.

Import ThirdPersonCamera.

(** Each zoom operation stores [max(minDistance, min(maxDistance, v))] under
    the limits in force after it: never below [minDistance], within the
    limits exactly when they are ordered, and [minDistance] itself when
    they are not. *)
Lemma applyOp_clamps (op : ZoomOp) (c : t) :
  let c' := applyOp op c in
  minDistance (config c') <= targetCameraDistance c'
  /\ (limitsOrdered (config c') -> targetInBounds c')
  /\ (~ limitsOrdered (config c') ->
      targetCameraDistance c' == minDistance (config c')).
Proof.
  cbv zeta. unfold limitsOrdered, targetInBounds.
  assert (H : forall lo hi v : Q,
             lo <= Math_max lo (Math_min hi v)
             /\ (lo <= hi ->
                 lo <= Math_max lo (Math_min hi v)
                 /\ Math_max lo (Math_min hi v) <= hi)
             /\ (~ lo <= hi -> Math_max lo (Math_min hi v) == lo)).
  { intros lo hi v. unfold Math_max, Math_min.
    split; [apply Q.le_max_l|]. split.
    - intros Hord. split; [apply Q.le_max_l|].
      apply Q.max_lub; [exact Hord | apply Q.le_min_l].
    - intros Hinv. apply Q.max_l.
      apply Qle_trans with hi; [apply Q.le_min_l|].
      apply Qlt_le_weak, Qnot_le_lt, Hinv. }
  destruct op as [delta | distance | newConfig]; simpl; apply H.
Qed.

Lemma applyOps_cons (op : ZoomOp) (ops : list ZoomOp) (c : t) :
  applyOps (op :: ops) c = applyOps ops (applyOp op c).
Proof. reflexivity. Qed.

Lemma applyOps_last (ops : list ZoomOp) (op : ZoomOp) (c : t) :
  applyOps (ops ++ [op]) c = applyOp op (applyOps ops c).
Proof. unfold applyOps. rewrite fold_left_app. reflexivity. Qed.

(** C10, amended. After any zoom operation (the scroll handler, [setZoom],
    [updateConfig]) at the end of any run of them, the target zoom distance
    is within [[minDistance, maxDistance]] exactly when the limits then in
    force are ordered ([minDistance <= maxDistance]): each operation clamps
    into them.  [updateConfig] does not check the limits it is given; when
    they are not ordered the target is [minDistance], above [maxDistance].
    So a run that starts within the limits stays within them as long as the
    limits stay ordered. *)
Theorem zoom_target_within_ordered_limits (ops : list ZoomOp) (op : ZoomOp)
    (c : t) :
  let c' := applyOps (ops ++ [op]) c in
  (targetInBounds c' <-> limitsOrdered (config c'))
  /\ minDistance (config c') <= targetCameraDistance c'
  /\ (~ limitsOrdered (config c') ->
      targetCameraDistance c' == minDistance (config c')
      /\ maxDistance (config c') < targetCameraDistance c')
  /\ (limitsStayOrdered (ops ++ [op]) c -> targetInBounds c ->
      forall n : nat, targetInBounds (applyOps (firstn n (ops ++ [op])) c)).
Proof.
  cbv zeta. rewrite applyOps_last.
  destruct (applyOp_clamps op (applyOps ops c)) as (Hmin & Hord & Hinv).
  cbv zeta in Hmin, Hord, Hinv.
  split; [split; [|exact Hord]|].
  { unfold targetInBounds, limitsOrdered. intros [H1 H2].
    apply Qle_trans with (targetCameraDistance (applyOp op (applyOps ops c)));
      assumption. }
  split; [exact Hmin|]. split.
  - intros Hno. split; [exact (Hinv Hno)|].
    rewrite (Hinv Hno). apply Qnot_le_lt, Hno.
  - generalize (ops ++ [op]). clear. intros l. revert c.
    induction l as [|o rest IH]; intros c Hlimits Hstart n.
    + destruct n; exact Hstart.
    + destruct n as [|n]; [exact Hstart|].
      destruct Hlimits as [Hord Hrest]. simpl firstn.
      rewrite applyOps_cons. apply IH; [exact Hrest|].
      apply (applyOp_clamps o c), Hord.
Qed.

(** C10 as the specification states it fails on [updateConfig]: on the
    camera as constructed (limits 3 and 15, target 8),
    [updateConfig({ minDistance: 20 })] leaves the target at 20, above
    [maxDistance] 15, and a [setZoom(5)] or a scroll after it leave it
    there. *)
Lemma updateConfig_leaves_target_above_maxDistance :
  let raised :=
    UpdateConfig
      (mkPartial (Some 20) None None None None None None None None) in
  let c' := applyOps [raised] (create None) in
  targetInBounds (create None)
  /\ targetCameraDistance c' == 20
  /\ maxDistance (config c') == 15
  /\ ~ targetInBounds c'
  /\ ~ targetInBounds (applyOps [raised; SetZoom 5] (create None))
  /\ ~ targetInBounds (applyOps [raised; Scroll (-120)] (create None)).
Proof.
  cbv zeta. unfold targetInBounds.
  split; [split; discriminate|].
  split; [reflexivity|]. split; [reflexivity|].
  split; [|split]; intros [_ H]; vm_compute in H; apply H; reflexivity.
Qed.

End CameraZoom.

(** * Further properties *)

(** ** More on the numbers *)

Lemma Qle_bool_false (a b : Q) : Qle_bool a b = false <-> b < a.
Proof.
  rewrite <- (Qgtb_true a b). unfold Qgtb.
  destruct (Qle_bool a b); simpl; split; congruence.
Qed.

(** ** PlayerStats: the whole class *)

Module StatsFacts.

Import PlayerStatsAll.

(** *** Spending and counting *)

Lemma Player_spendMana_result (amount : Q) (s : PlayerStats.t) :
  (PlayerStats.mana s < amount
   /\ PlayerStats.Player_spendMana amount s = (false, s))
  \/ (amount <= PlayerStats.mana s
      /\ fst (PlayerStats.Player_spendMana amount s) = true
      /\ PlayerStats.mana (snd (PlayerStats.Player_spendMana amount s))
         = PlayerStats.mana s - amount
      /\ PlayerStats.maxMana (snd (PlayerStats.Player_spendMana amount s))
         = PlayerStats.maxMana s
      /\ PlayerStats.spellsCast (snd (PlayerStats.Player_spendMana amount s))
         = S (PlayerStats.spellsCast s)).
Proof.
  unfold PlayerStats.Player_spendMana, PlayerStats.spendMana.
  destruct (Qltb (PlayerStats.mana s) amount) eqn:E.
  - left. apply Qltb_true in E. split; [exact E | reflexivity].
  - right. apply Qltb_false in E. simpl. repeat split. exact E.
Qed.

(** X1. Over any run of [Player.spendMana] requests, the spell counter grows by
    the number of requests that were granted, the mana falls by the sum of
    the granted amounts, and the maximum is untouched. *)
Theorem spells_counted_are_spells_paid (amounts : list Q)
    (s : PlayerStats.t) :
  let results := fst (spendAll amounts s) in
  let s' := snd (spendAll amounts s) in
  List.length results = List.length amounts
  /\ PlayerStats.spellsCast s'
     = (PlayerStats.spellsCast s + count_occ bool_dec results true)%nat
  /\ PlayerStats.mana s' == PlayerStats.mana s - spentTotal amounts results
  /\ PlayerStats.maxMana s' = PlayerStats.maxMana s.
Proof.
  cbv zeta. revert s.
  induction amounts as [|amount rest IH]; intros s.
  - simpl. repeat split; [lia | Lqa.lra].
  - simpl.
    destruct (PlayerStats.Player_spendMana amount s) as [ok s1] eqn:E1.
    specialize (IH s1).
    destruct (spendAll rest s1) as [oks s2] eqn:E2. simpl in *.
    destruct IH as (Hlen & Hcount & Hmana & Hmax).
    destruct (Player_spendMana_result amount s) as [[Hlt Hfail] | Hok].
    + rewrite Hfail in E1. injection E1 as <- <-.
      repeat split; [lia | exact Hcount | rewrite Hmana; Lqa.lra | exact Hmax].
    + rewrite E1 in Hok. simpl in Hok.
      destruct Hok as (_ & -> & Hm1 & Hx1 & Hc1).
      destruct (bool_dec true true) as [_ | Hne]; [|congruence].
      repeat split.
      * lia.
      * rewrite Hcount, Hc1. lia.
      * rewrite Hmana, Hm1. Lqa.lra.
      * rewrite Hmax. exact Hx1.
Qed.


(** *** Damage and death *)

Lemma Math_max_zero_le (v : Q) : Math_max 0 v <= 0 <-> v <= 0.
Proof.
  unfold Math_max. split; intros H.
  - apply Qle_trans with (Qmax 0 v); [apply Q.le_max_r | exact H].
  - apply Q.max_lub; [apply Qle_refl | exact H].
Qed.

Lemma damage_health_after_hit (now amount : Q) (s : t) :
  isAlive s = true ->
  health (snd (takeDamage now amount s)) = Math_max 0 (health s - amount)
  /\ 0 <= health (snd (takeDamage now amount s))
  /\ (0 < amount -> 0 < health s ->
      health (snd (takeDamage now amount s)) < health s)
  /\ (health s <= amount -> isAlive (snd (takeDamage now amount s)) = false).
Proof.
  intros Halive. unfold takeDamage. rewrite Halive. simpl.
  split; [reflexivity|].
  split; [apply Q.le_max_l|].
  split.
  - intros Hpos H. unfold Math_max. apply Q.max_lub_lt; Lqa.lra.
  - intros Hfatal.
    assert (E : Qle_bool (Math_max 0 (health s - amount)) 0 = true).
    { rewrite Qle_bool_iff, Math_max_zero_le. Lqa.lra. }
    rewrite E. reflexivity.
Qed.

(** X2. A hit on a living player lowers the health by the amount but not below
    zero, is added to the damage taken and stamps the time of the hit; the
    call answers [true] exactly when the hit uses up the health that was
    left, and in that case the player is dead, [onDeath] has been called,
    and whatever hits follow change nothing. *)
Theorem damage_kills_at_zero (now amount : Q) (s : t)
    (Halive : isAlive s = true) :
  let r := takeDamage now amount s in
  health (snd r) = Math_max 0 (health s - amount)
  /\ 0 <= health (snd r)
  /\ damageTaken (snd r) = damageTaken s + amount
  /\ lastDamageTime (snd r) = now
  /\ (fst r = true <-> health s <= amount)
  /\ isAlive (snd r) = negb (fst r)
  /\ (fst r = true ->
      In Death (notices (snd r))
      /\ forall hits : list (Q * Q),
           fold_left (fun acc hit => snd (takeDamage (fst hit) (snd hit) acc))
             hits (snd r) = snd r).
Proof.
  cbv zeta. unfold takeDamage. rewrite Halive. simpl.
  split; [reflexivity|].
  split; [apply Q.le_max_l|].
  split; [reflexivity|].
  split; [reflexivity|].
  split.
  { rewrite Qle_bool_iff, Math_max_zero_le. split; intros H; Lqa.lra. }
  split.
  { destruct (Qle_bool (Math_max 0 (health s - amount)) 0); reflexivity. }
  intros Hdead. rewrite Hdead. split; [left; reflexivity|].
  intros hits. induction hits as [|hit hits IH]; [reflexivity|].
  simpl. exact IH.
Qed.

Lemma damage_kills_at_zero_witness :
  fst (takeDamage 1000 120 initial) = true
  /\ health (snd (takeDamage 1000 120 initial)) = Math_max 0 (100 - 120)
  /\ isAlive (snd (takeDamage 1000 120 initial)) = false.
Proof.
  destruct (damage_kills_at_zero 1000 120 initial eq_refl)
    as (Hh & _ & _ & _ & Hdead & Halive & _).
  assert (Hfst : fst (takeDamage 1000 120 initial) = true)
    by (apply Hdead; vm_compute; discriminate).
  split; [exact Hfst|]. split; [exact Hh|].
  rewrite Halive, Hfst. reflexivity.
Defined.

(** *** Dead until revived *)

Lemma updateStaminaRegen_isAlive (dt : Q) (st : MovementState) (now : Q)
    (s : t) : isAlive (updateStaminaRegen dt st now s) = isAlive s.
Proof.
  unfold updateStaminaRegen.
  repeat match goal with
         | |- context [if ?b then _ else _] => destruct b
         end; reflexivity.
Qed.

Lemma updateHealthRegen_isAlive (dt : Q) (st : MovementState) (now : Q)
    (s : t) : isAlive (updateHealthRegen dt st now s) = isAlive s.
Proof.
  unfold updateHealthRegen.
  repeat match goal with
         | |- context [if ?b then _ else _] => destruct b
         end; reflexivity.
Qed.

Lemma updateState_same (s : t) : updateState s = s.
Proof.
  unfold updateState.
  destruct (isLowMana s); simpl; destruct (isExhausted s); reflexivity.
Qed.

Lemma applyOp_keeps_dead (op : Op) (s : t) :
  revives op = false -> isAlive s = false -> isAlive (applyOp op s) = false.
Proof.
  intros Hop Hdead. destruct op; simpl in Hop; try discriminate; simpl.
  - unfold update. rewrite updateState_same, updateHealthRegen_isAlive,
      updateStaminaRegen_isAlive. exact Hdead.
  - unfold spendMana.
    destruct (PlayerStats.spendMana amount (pool s)). exact Hdead.
  - unfold spendStamina. destruct (Qltb (stamina s) amount); exact Hdead.
  - unfold takeDamage. rewrite Hdead. exact Hdead.
  - unfold heal.
    match goal with
    | |- context [if ?b then _ else _] => destruct b
    end; exact Hdead.
  - exact Hdead.
  - unfold addExperience.
    match goal with
    | |- context [if ?b then _ else _] => destruct b
    end; exact Hdead.
  - exact Hdead.
  - exact Hdead.
  - unfold setMaxStats.
    destruct newMaxHealth, newMaxMana, newMaxStamina; exact Hdead.
Qed.

(** X3. A dead player stays dead through every run of operations that holds
    neither [revive] nor a reset: regeneration, healing, restored mana and
    level-ups do not bring the player back, although healing a dead player
    does raise the health again. *)
Theorem dead_until_revived (ops : list Op) (s : t)
    (Hdead : isAlive s = false)
    (Hops : forallb (fun op => negb (revives op)) ops = true) :
  isAlive (run ops s) = false
  /\ forall amount : Q,
       0 < amount -> health s < maxHealth s ->
       isAlive (heal amount s) = false /\ health s < health (heal amount s).
Proof.
  split.
  - revert s Hdead. unfold run.
    induction ops as [|op ops IH]; intros s Hdead; [exact Hdead|].
    simpl in Hops. apply andb_true_iff in Hops. destruct Hops as [Hop Hrest].
    simpl. apply IH; [exact Hrest|].
    apply applyOp_keeps_dead; [|exact Hdead].
    destruct (revives op); [discriminate | reflexivity].
  - intros amount Hpos Hroom. unfold heal.
    assert (Hgain : health s < Math_min (maxHealth s) (health s + amount)).
    { unfold Math_min. apply Q.min_glb_lt; Lqa.lra. }
    match goal with
    | |- context [if ?b then _ else _] => destruct b
    end; simpl; (split; [exact Hdead | exact Hgain]).
Qed.

Lemma dead_until_revived_witness :
  isAlive (run [OpHeal 50; OpUpdate 10000 1 IDLE; OpAddExperience 500]
             (snd (takeDamage 0 200 initial))) = false.
Proof.
  refine (proj1 (dead_until_revived
                    [OpHeal 50; OpUpdate 10000 1 IDLE; OpAddExperience 500]
                    (snd (takeDamage 0 200 initial)) _ _)); reflexivity.
Defined.


(** *** The pools stay between zero and their maxima *)

Lemma Math_min_bounds (m v : Q) :
  0 <= m -> 0 <= v -> 0 <= Math_min m v /\ Math_min m v <= m.
Proof.
  intros Hm Hv. unfold Math_min. split.
  - apply Q.min_glb; assumption.
  - apply Q.le_min_l.
Qed.

Lemma Math_min_cap (v m : Q) :
  0 <= v -> 0 <= m -> 0 <= Math_min v m /\ Math_min v m <= m.
Proof.
  intros Hv Hm. unfold Math_min. split.
  - apply Q.min_glb; assumption.
  - apply Q.le_min_r.
Qed.

Lemma Math_max_zero_bounds (m h a : Q) :
  h <= m -> 0 <= m -> 0 <= a ->
  0 <= Math_max 0 (h - a) /\ Math_max 0 (h - a) <= m.
Proof.
  intros Hh Hm Ha. unfold Math_max. split.
  - apply Q.le_max_l.
  - apply Q.max_lub; Lqa.lra.
Qed.

Lemma manaRate_nonneg (st : MovementState) (cfg : PlayerStats.RegenConfig) :
  0 <= PlayerStats.manaRegenRate cfg ->
  0 <= PlayerStats.restingMultiplier cfg ->
  0 <= PlayerStats.movingMultiplier cfg ->
  0 <= PlayerStats.runningMultiplier cfg ->
  0 <= PlayerStats.regenRate cfg st.
Proof.
  intros H1 H2 H3 H4. unfold PlayerStats.regenRate.
  destruct st; try (apply Qmult_le_0_compat; [exact H1 | assumption]);
    try (apply Qmult_le_0_compat; [exact H1 | Lqa.lra]); try exact H1.
Qed.


Ltac unfold_wellFormed :=
  unfold wellFormed, ratesNonNegative, poolsWithinBounds in *; simpl in *.

Lemma wellFormed_manaRegen (dt : Q) (st : MovementState) (s : t) :
  0 <= dt -> wellFormed s ->
  wellFormed (with_pool (PlayerStats.updateManaRegen dt st (pool s)) s).
Proof.
  intros Hdt [Hr Hp]. unfold PlayerStats.updateManaRegen.
  destruct (Qgeb (PlayerStats.mana (pool s)) (PlayerStats.maxMana (pool s))).
  { destruct s; split; assumption. }
  unfold_wellFormed.
  destruct Hr as (R1 & R2 & R3 & R4 & R5 & R6).
  destruct Hp as ((M1 & M2) & HH & HS).
  assert (Hrate : 0 <= PlayerStats.regenRate
                         (PlayerStats.regenConfig (pool s)) st)
    by (apply manaRate_nonneg; assumption).
  assert (Hgain : 0 <= PlayerStats.regenRate
                         (PlayerStats.regenConfig (pool s)) st * dt)
    by (apply Qmult_le_0_compat; assumption).
  split; [tauto|]. split; [|tauto].
  apply Math_min_bounds; Lqa.lra.
Qed.

Lemma wellFormed_staminaRegen (dt : Q) (st : MovementState) (now : Q)
    (s : t) :
  0 <= dt -> wellFormed s -> wellFormed (updateStaminaRegen dt st now s).
Proof.
  intros Hdt Hwf. unfold updateStaminaRegen.
  destruct (Qgeb (stamina s) (maxStamina s)); [exact Hwf|].
  destruct (Qltb (now - lastStaminaUse s) (combatStaminaDelay (regenRest s)));
    [exact Hwf|].
  cbv zeta.
  match goal with
  | |- context [Math_min _ (_ + ?r * dt)] => set (rate := r)
  end.
  destruct Hwf as [Hr Hp]. unfold_wellFormed.
  destruct Hr as (R1 & R2 & R3 & R4 & R5 & R6).
  destruct Hp as (HM & HH & (S1 & S2)).
  assert (Hrate : 0 <= rate).
  { subst rate. destruct st; try exact R5;
      apply Qmult_le_0_compat; try assumption; Lqa.lra. }
  assert (Hgain : 0 <= rate * dt) by (apply Qmult_le_0_compat; assumption).
  assert (Hb := Math_min_bounds (maxStamina s) (stamina s + rate * dt)).
  match goal with
  | |- context [if ?b then _ else _] => destruct b
  end; simpl; (split; [tauto|]); (split; [tauto|]); (split; [tauto|]);
    apply Hb; Lqa.lra.
Qed.

Lemma wellFormed_healthRegen (dt : Q) (st : MovementState) (now : Q)
    (s : t) :
  0 <= dt -> wellFormed s -> wellFormed (updateHealthRegen dt st now s).
Proof.
  intros Hdt Hwf. unfold updateHealthRegen.
  destruct (Qgeb (health s) (maxHealth s)); [exact Hwf|].
  destruct (Qltb (now - lastDamageTime s) (healthRegenDelay (regenRest s)));
    [exact Hwf|].
  cbv zeta.
  match goal with
  | |- context [Math_min _ (_ + ?r * dt)] => set (rate := r)
  end.
  destruct Hwf as [Hr Hp]. unfold_wellFormed.
  destruct Hr as (R1 & R2 & R3 & R4 & R5 & R6).
  destruct Hp as (HM & (H1 & H2) & HS).
  assert (Hrate : 0 <= rate).
  { subst rate. destruct st; try exact R6;
      apply Qmult_le_0_compat; assumption. }
  assert (Hgain : 0 <= rate * dt) by (apply Qmult_le_0_compat; assumption).
  assert (Hb := Math_min_bounds (maxHealth s) (health s + rate * dt)).
  match goal with
  | |- context [if ?b then _ else _] => destruct b
  end; simpl; (split; [tauto|]); (split; [tauto|]); (split; [|tauto]);
    apply Hb; Lqa.lra.
Qed.

Lemma wellFormed_applyOp (op : Op) (s : t) :
  sensible op -> wellFormed s -> wellFormed (applyOp op s).
Proof.
  intros Hop Hwf. destruct op; simpl in Hop; simpl.
  - unfold update. rewrite updateState_same.
    apply wellFormed_healthRegen; [exact Hop|].
    apply wellFormed_staminaRegen; [exact Hop|].
    apply wellFormed_manaRegen; assumption.
  - unfold spendMana, PlayerStats.spendMana.
    destruct (Qltb (PlayerStats.mana (pool s)) amount) eqn:E.
    + destruct s; exact Hwf.
    + apply Qltb_false in E. destruct Hwf as [Hr Hp]. unfold_wellFormed.
      split; [tauto|]. split; [|tauto]. split; Lqa.lra.
  - unfold spendStamina.
    destruct (Qltb (stamina s) amount) eqn:E; [exact Hwf|].
    apply Qltb_false in E. destruct Hwf as [Hr Hp]. unfold_wellFormed.
    split; [tauto|]. split; [tauto|]. split; [tauto|]. split; Lqa.lra.
  - unfold takeDamage. destruct (isAlive s); simpl; [|exact Hwf].
    destruct Hwf as [Hr Hp]. unfold_wellFormed.
    split; [tauto|]. split; [tauto|]. split; [|tauto].
    apply Math_max_zero_bounds; Lqa.lra.
  - unfold heal. destruct Hwf as [Hr Hp].
    assert (Hb := Math_min_bounds (maxHealth s) (health s + amount)).
    unfold_wellFormed.
    match goal with
    | |- context [if ?b then _ else _] => destruct b
    end; simpl; (split; [tauto|]); (split; [tauto|]); (split; [|tauto]);
      apply Hb; Lqa.lra.
  - unfold restoreMana. destruct Hwf as [Hr Hp].
    assert (Hb := Math_min_bounds (PlayerStats.maxMana (pool s))
                    (PlayerStats.mana (pool s) + amount)).
    unfold_wellFormed.
    match goal with
    | |- context [if ?b then _ else _] => destruct b
    end; simpl; (split; [tauto|]); (split; [|tauto]); apply Hb; Lqa.lra.
  - unfold revive. destruct (isAlive s); [exact Hwf|].
    destruct Hwf as [Hr Hp]. destruct Hop as [P0 P1]. unfold_wellFormed.
    destruct Hp as ((M1 & M2) & (H1 & H2) & HS).
    split; [tauto|].
    split; [split; Lqa.lra|].
    split; [|tauto].
    split.
    + apply Qmult_le_0_compat; Lqa.lra.
    + assert (Hrest : 0 <= maxHealth s * (1 - healthPercentage))
        by (apply Qmult_le_0_compat; Lqa.lra).
      Lqa.lra.
  - unfold addExperience.
    match goal with
    | |- context [if ?b then _ else _] => destruct b
    end; [|exact Hwf].
    destruct Hwf as [Hr Hp]. unfold_wellFormed.
    split; [tauto|]. repeat split; Lqa.lra.
  - destruct s; exact Hwf.
  - exact Hwf.
  - destruct Hwf as [Hr Hp]. destruct Hop as (Ha & Hb & Hc).
    unfold setMaxStats.
    destruct newMaxHealth as [mh|], newMaxMana as [mm|],
      newMaxStamina as [ms|]; unfold_wellFormed;
      (split; [tauto|]);
      repeat match goal with
             | |- _ /\ _ => split
             | |- 0 <= Math_min _ _ => apply Math_min_cap; Lqa.lra
             | |- Math_min _ _ <= _ => apply Math_min_cap; Lqa.lra
             | |- _ => Lqa.lra
             end.
  - destruct Hwf as [Hr Hp]. unfold_wellFormed.
    split; [tauto|]. repeat split; Lqa.lra.
  - destruct Hwf as [Hr Hp]. unfold_wellFormed.
    split; [tauto|]. repeat split; Lqa.lra.
Qed.

(** X4. Whatever the game does with the stats, as long as it passes no negative
    amount, time step or maximum and a revive percentage between 0 and 1,
    and the configured rates are not negative: mana, health and stamina
    stay between zero and their maxima. *)
Theorem pools_stay_within_bounds (ops : list Op) (s : t)
    (Hrates : ratesNonNegative s)
    (Hpools : poolsWithinBounds s)
    (Hops : Forall sensible ops) :
  poolsWithinBounds (run ops s).
Proof.
  assert (Hwf : wellFormed s) by (split; assumption).
  clear Hrates Hpools.
  enough (H : wellFormed (run ops s)) by apply H.
  revert s Hwf. unfold run.
  induction Hops as [|op ops Hop Hrest IH]; intros s Hwf; [exact Hwf|].
  simpl. apply IH. apply wellFormed_applyOp; assumption.
Qed.


Lemma pools_stay_within_bounds_witness :
  poolsWithinBounds
    (run [OpTakeDamage 10 250; OpRevive (1 # 2); OpSpendMana 20;
          OpUpdate 20000 (1 # 60) RUNNING; OpAddExperience 120;
          OpSetMaxStats (Some 50) None (Some 0); OpHeal 1000] initial).
Proof.
  apply (pools_stay_within_bounds
           [OpTakeDamage 10 250; OpRevive (1 # 2); OpSpendMana 20;
            OpUpdate 20000 (1 # 60) RUNNING; OpAddExperience 120;
            OpSetMaxStats (Some 50) None (Some 0); OpHeal 1000] initial).
  - unfold ratesNonNegative. simpl. repeat split; Lqa.lra.
  - unfold poolsWithinBounds. simpl. repeat split; Lqa.lra.
  - repeat constructor; simpl; Lqa.lra.
Defined.

(** *** Experience and levels *)

(** X5. [addExperience] always adds the amount and raises the level by one when
    the total reaches [level * 100], never by more, however large the
    amount; the experience is not used up, so what is left over raises the
    level again at the next call even if that call adds nothing.  A level
    gained raises the maxima by 10, 5 and 5 and fills the three pools. *)
Theorem one_level_per_call (amount : Q) (s : t) :
  let s' := addExperience amount s in
  experience s' = experience s + amount
  /\ (level s' = S (level s) <-> getExpToNextLevel s <= experience s + amount)
  /\ (level s' = level s <-> experience s + amount < getExpToNextLevel s)
  /\ (level s' = S (level s) ->
      maxHealth s' = maxHealth s + 10 /\ health s' = maxHealth s'
      /\ PlayerStats.maxMana (pool s') = PlayerStats.maxMana (pool s) + 5
      /\ PlayerStats.mana (pool s') = PlayerStats.maxMana (pool s')
      /\ maxStamina s' = maxStamina s + 5 /\ stamina s' = maxStamina s')
  /\ (level s' = level s ->
      maxHealth s' = maxHealth s /\ health s' = health s /\ pool s' = pool s
      /\ maxStamina s' = maxStamina s /\ stamina s' = stamina s)
  /\ (getExpToNextLevel s' <= experience s' ->
      level (addExperience 0 s') = S (level s')).
Proof.
  cbv zeta.
  assert (Hnext : forall u : t,
             getExpToNextLevel u <= experience u ->
             level (addExperience 0 u) = S (level u)).
  { intros u Hu. unfold addExperience. cbv zeta.
    unfold getExpToNextLevel in *. simpl.
    destruct (Qgeb (experience u + 0) (inject_Z (Z.of_nat (level u)) * 100))
      eqn:E; [reflexivity|].
    apply Qgeb_false in E. exfalso. Lqa.lra. }
  split.
  { unfold addExperience. cbv zeta.
    match goal with
    | |- context [if ?b then _ else _] => destruct b
    end; reflexivity. }
  split; [|split; [|split; [|split]]]; try (apply Hnext);
    unfold addExperience; cbv zeta; unfold getExpToNextLevel; simpl;
    destruct (Qgeb (experience s + amount)
                (inject_Z (Z.of_nat (level s)) * 100)) eqn:E; simpl;
    try (apply Qgeb_true in E); try (apply Qgeb_false in E).
  - split; [intros _; exact E | reflexivity].
  - split; [intros H; exfalso; lia | intros H; exfalso; Lqa.lra].
  - split; [intros H; exfalso; lia | intros H; exfalso; Lqa.lra].
  - split; [intros _; exact E | reflexivity].
  - intros _. repeat split.
  - intros H. exfalso. lia.
  - intros H. exfalso. lia.
  - intros _. destruct s. repeat split.
Qed.


(** *** Regeneration after a hit or an effort *)

Lemma updateStaminaRegen_frame (dt : Q) (st : MovementState) (now : Q)
    (s : t) :
  let s' := updateStaminaRegen dt st now s in
  pool s' = pool s /\ health s' = health s /\ maxHealth s' = maxHealth s
  /\ maxStamina s' = maxStamina s /\ lastDamageTime s' = lastDamageTime s
  /\ lastStaminaUse s' = lastStaminaUse s /\ regenRest s' = regenRest s.
Proof.
  cbv zeta. unfold updateStaminaRegen.
  repeat match goal with
         | |- context [if ?b then _ else _] => destruct b
         end; repeat split.
Qed.

Lemma updateHealthRegen_frame (dt : Q) (st : MovementState) (now : Q)
    (s : t) :
  let s' := updateHealthRegen dt st now s in
  pool s' = pool s /\ stamina s' = stamina s /\ maxHealth s' = maxHealth s
  /\ maxStamina s' = maxStamina s /\ lastDamageTime s' = lastDamageTime s
  /\ lastStaminaUse s' = lastStaminaUse s /\ regenRest s' = regenRest s.
Proof.
  cbv zeta. unfold updateHealthRegen.
  repeat match goal with
         | |- context [if ?b then _ else _] => destruct b
         end; repeat split.
Qed.

Lemma update_frame (now dt : Q) (st : MovementState) (s : t) :
  let s' := update now dt st s in
  maxHealth s' = maxHealth s /\ maxStamina s' = maxStamina s
  /\ lastDamageTime s' = lastDamageTime s
  /\ lastStaminaUse s' = lastStaminaUse s /\ regenRest s' = regenRest s
  /\ isAlive s' = isAlive s
  /\ PlayerStats.regenConfig (pool s') = PlayerStats.regenConfig (pool s).
Proof.
  cbv zeta. unfold update. rewrite updateState_same.
  set (s1 := with_pool _ s).
  set (s2 := updateStaminaRegen dt st now s1).
  destruct (updateHealthRegen_frame dt st now s2)
    as (P3 & _ & A3 & B3 & C3 & D3 & E3).
  destruct (updateStaminaRegen_frame dt st now s1)
    as (P2 & _ & A2 & B2 & C2 & D2 & E2).
  fold s2 in P2, A2, B2, C2, D2, E2.
  rewrite A3, B3, C3, D3, E3, A2, B2, C2, D2, E2, P3, P2,
    updateHealthRegen_isAlive.
  unfold s2. rewrite updateStaminaRegen_isAlive.
  repeat split. unfold s1. simpl.
  unfold PlayerStats.updateManaRegen.
  destruct (Qgeb _ _); reflexivity.
Qed.

Lemma update_health (now dt : Q) (st : MovementState) (s : t) :
  health (update now dt st s)
  = if Qgeb (health s) (maxHealth s) then health s
    else if Qltb (now - lastDamageTime s) (healthRegenDelay (regenRest s))
         then health s
         else Math_min (maxHealth s) (health s + healthRate st s * dt).
Proof.
  unfold update. rewrite updateState_same.
  set (s1 := with_pool _ s).
  set (s2 := updateStaminaRegen dt st now s1).
  destruct (updateStaminaRegen_frame dt st now s1)
    as (P2 & H2 & A2 & B2 & C2 & D2 & E2).
  fold s2 in P2, H2, A2, B2, C2, D2, E2.
  assert (Hcfg : PlayerStats.regenConfig (pool s2)
                 = PlayerStats.regenConfig (pool s)).
  { rewrite P2. unfold s1. simpl. unfold PlayerStats.updateManaRegen.
    destruct (Qgeb _ _); reflexivity. }
  unfold updateHealthRegen, healthRate.
  rewrite H2, A2, C2, E2, Hcfg. simpl.
  destruct (Qgeb (health s) (maxHealth s)); [exact H2|].
  destruct (Qltb (now - lastDamageTime s) (healthRegenDelay (regenRest s)));
    [exact H2|].
  cbv zeta.
  match goal with
  | |- context [if ?b then _ else _] => destruct b
  end; simpl; destruct st; reflexivity.
Qed.

Lemma update_stamina_waits (now dt : Q) (st : MovementState) (s : t) :
  now - lastStaminaUse s < combatStaminaDelay (regenRest s) ->
  stamina (update now dt st s) = stamina s.
Proof.
  intros Hsoon. unfold update. rewrite updateState_same.
  set (s1 := with_pool _ s).
  destruct (updateHealthRegen_frame dt st now
              (updateStaminaRegen dt st now s1)) as (_ & -> & _).
  unfold updateStaminaRegen.
  destruct (Qgeb (stamina s1) (maxStamina s1)); [reflexivity|].
  change (lastStaminaUse s1) with (lastStaminaUse s).
  change (regenRest s1) with (regenRest s).
  apply Qltb_true in Hsoon. rewrite Hsoon. reflexivity.
Qed.

(** X6. After a hit at time [t0], the frames whose clock is less than
    [healthRegenDelay] later regenerate no health at all, whatever their
    length and movement state; after stamina was spent at [t0], the frames
    less than [combatStaminaDelay] later regenerate no stamina. *)
Theorem no_regen_during_delay (t0 amount : Q) (frames : list Frame) (s : t) :
  (isAlive s = true ->
   Forall (fun f => frameTime f - t0 < healthRegenDelay (regenRest s)) frames ->
   health (run (map frameOp frames) (snd (takeDamage t0 amount s)))
   = health (snd (takeDamage t0 amount s)))
  /\ (amount <= stamina s ->
      Forall (fun f => frameTime f - t0 < combatStaminaDelay (regenRest s))
        frames ->
      stamina (run (map frameOp frames) (snd (spendStamina t0 amount s)))
      = stamina (snd (spendStamina t0 amount s))).
Proof.
  split.
  - intros Halive Hsoon.
    assert (Hgen : forall u : t,
               lastDamageTime u = t0 -> regenRest u = regenRest s ->
               health (run (map frameOp frames) u) = health u).
    { unfold run. induction Hsoon as [|f frames Hf Hrest IH];
        intros u Ht Hc; [reflexivity|].
      simpl.
      destruct (update_frame (frameTime f) (snd (fst f)) (snd f) u)
        as (_ & _ & C & _ & E & _).
      unfold frameTime in C, E.
      rewrite IH; [| rewrite C; exact Ht | rewrite E; exact Hc].
      rewrite update_health. rewrite Ht, Hc.
      apply Qltb_true in Hf. unfold frameTime in Hf. rewrite Hf.
      destruct (Qgeb (health u) (maxHealth u)); reflexivity. }
    apply Hgen; unfold takeDamage; rewrite Halive; reflexivity.
  - intros Henough Hsoon.
    assert (Hgen : forall u : t,
               lastStaminaUse u = t0 -> regenRest u = regenRest s ->
               stamina (run (map frameOp frames) u) = stamina u).
    { unfold run. induction Hsoon as [|f frames Hf Hrest IH];
        intros u Ht Hc; [reflexivity|].
      simpl.
      destruct (update_frame (frameTime f) (snd (fst f)) (snd f) u)
        as (_ & _ & _ & D & E & _).
      unfold frameTime in D, E.
      rewrite IH; [| rewrite D; exact Ht | rewrite E; exact Hc].
      apply update_stamina_waits. rewrite Ht, Hc. exact Hf. }
    apply Hgen; unfold spendStamina;
      (destruct (Qltb (stamina s) amount) eqn:E;
       [apply Qltb_true in E; exfalso; Lqa.lra | reflexivity]).
Qed.

(** X7. Once the delay has passed, a frame regenerates health whether or not the
    hit was fatal: [updateHealthRegen] does not look at [isAlive], so a
    player killed by the hit is later dead with health above zero. *)
Theorem health_regenerates_after_delay (t0 amount now dt : Q)
    (st : MovementState) (s : t)
    (Halive : isAlive s = true)
    (Hhit : 0 < amount)
    (Hhealth : 0 < health s)
    (Hfull : health s <= maxHealth s)
    (Hlate : healthRegenDelay (regenRest s) <= now - t0)
    (Hrate : 0 < healthRate st s)
    (Hdt : 0 < dt) :
  let hurt := snd (takeDamage t0 amount s) in
  let later := update now dt st hurt in
  health hurt < health later
  /\ health later <= maxHealth s
  /\ isAlive later = isAlive hurt
  /\ (health s <= amount -> isAlive later = false /\ 0 < health later).
Proof.
  cbv zeta.
  destruct (damage_health_after_hit t0 amount s Halive)
    as (Hh & Hpos & Hlow & Hdead).
  set (hurt := snd (takeDamage t0 amount s)) in *.
  assert (Hm : maxHealth hurt = maxHealth s)
    by (unfold hurt, takeDamage; rewrite Halive; reflexivity).
  assert (Ht : lastDamageTime hurt = t0)
    by (unfold hurt, takeDamage; rewrite Halive; reflexivity).
  assert (Hc : regenRest hurt = regenRest s)
    by (unfold hurt, takeDamage; rewrite Halive; reflexivity).
  assert (Hr : healthRate st hurt = healthRate st s)
    by (unfold hurt, takeDamage; rewrite Halive; reflexivity).
  destruct (update_frame now dt st hurt) as (_ & _ & _ & _ & _ & Ha & _).
  assert (Hlt : health hurt < maxHealth s)
    by (specialize (Hlow Hhit Hhealth); Lqa.lra).
  assert (Hgain : 0 < healthRate st s * dt)
    by (apply Qmult_lt_0_compat; assumption).
  rewrite update_health, Hm, Ht, Hc, Hr.
  destruct (Qgeb (health hurt) (maxHealth s)) eqn:E1;
    [apply Qgeb_true in E1; exfalso; Lqa.lra|].
  destruct (Qltb (now - t0) (healthRegenDelay (regenRest s))) eqn:E2;
    [apply Qltb_true in E2; exfalso; Lqa.lra|].
  assert (Hup : health hurt
                < Math_min (maxHealth s) (health hurt + healthRate st s * dt)).
  { unfold Math_min. apply Q.min_glb_lt; Lqa.lra. }
  split; [exact Hup|].
  split; [apply Math_min_le_l|].
  split; [exact Ha|].
  intros Hfatal. split; [|Lqa.lra].
  rewrite Ha. apply Hdead. exact Hfatal.
Qed.


Lemma health_regenerates_after_delay_witness :
  isAlive (update 7000 (1 # 60) IDLE (snd (takeDamage 1000 150 initial)))
  = false
  /\ 0 < health (update 7000 (1 # 60) IDLE
                   (snd (takeDamage 1000 150 initial))).
Proof.
  refine (proj2 (proj2 (proj2
            (health_regenerates_after_delay 1000 150 7000 (1 # 60) IDLE
               initial _ _ _ _ _ _ _))) _).
  - reflexivity.
  - reflexivity.
  - reflexivity.
  - vm_compute; discriminate.
  - vm_compute; discriminate.
  - reflexivity.
  - reflexivity.
  - vm_compute; discriminate.
Defined.

(** *** The low-mana and exhaustion callbacks *)

Lemma updateStaminaRegen_low (dt : Q) (st : MovementState) (now : Q)
    (s : t) :
  filter isLowResourceNotice (notices (updateStaminaRegen dt st now s))
  = filter isLowResourceNotice (notices s).
Proof.
  unfold updateStaminaRegen.
  repeat match goal with
         | |- context [if ?b then _ else _] => destruct b
         end; reflexivity.
Qed.

Lemma updateHealthRegen_low (dt : Q) (st : MovementState) (now : Q)
    (s : t) :
  filter isLowResourceNotice (notices (updateHealthRegen dt st now s))
  = filter isLowResourceNotice (notices s).
Proof.
  unfold updateHealthRegen.
  repeat match goal with
         | |- context [if ?b then _ else _] => destruct b
         end; reflexivity.
Qed.

Lemma applyOp_low (op : Op) (s : t) :
  filter isLowResourceNotice (notices (applyOp op s))
  = filter isLowResourceNotice (notices s).
Proof.
  destruct op; simpl.
  - unfold update.
    rewrite updateState_same, updateHealthRegen_low, updateStaminaRegen_low.
    reflexivity.
  - unfold spendMana.
    destruct (PlayerStats.spendMana amount (pool s)). reflexivity.
  - unfold spendStamina. destruct (Qltb (stamina s) amount); reflexivity.
  - unfold takeDamage. destruct (isAlive s); simpl; [|reflexivity].
    destruct (Qle_bool _ _); reflexivity.
  - unfold heal.
    match goal with
    | |- context [if ?b then _ else _] => destruct b
    end; reflexivity.
  - reflexivity.
  - unfold revive. destruct (isAlive s); reflexivity.
  - unfold addExperience.
    match goal with
    | |- context [if ?b then _ else _] => destruct b
    end; reflexivity.
  - reflexivity.
  - reflexivity.
  - unfold setMaxStats.
    destruct newMaxHealth, newMaxMana, newMaxStamina; reflexivity.
  - reflexivity.
  - reflexivity.
Qed.

(** X8. [updateState] compares [isLowMana()] and [isExhausted()] with their own
    values read a moment before, so it changes nothing, and no run of
    operations ever calls [onLowMana] or [onExhausted]: not even one that
    spends the mana down to under a quarter of the maximum. *)
Theorem low_resource_callbacks_never_fire (ops : list Op) (s : t) :
  updateState s = s
  /\ filter isLowResourceNotice (notices (run ops s))
     = filter isLowResourceNotice (notices s)
  /\ forall amount : Q,
       0 < PlayerStats.maxMana (pool s) ->
       amount <= PlayerStats.mana (pool s) ->
       PlayerStats.mana (pool s) - amount
       < (25 # 100) * PlayerStats.maxMana (pool s) ->
       fst (spendMana amount s) = true
       /\ isLowMana (snd (spendMana amount s)) = true
       /\ filter isLowResourceNotice
            (notices (run (OpSpendMana amount :: ops) s))
          = filter isLowResourceNotice (notices s).
Proof.
  assert (Hrun : forall (l : list Op) (u : t),
             filter isLowResourceNotice (notices (run l u))
             = filter isLowResourceNotice (notices u)).
  { unfold run. induction l as [|op l IH]; intros u; [reflexivity|].
    simpl. rewrite IH. apply applyOp_low. }
  split; [apply updateState_same|].
  split; [apply Hrun|].
  intros amount Hmax Henough Hlow.
  split; [|split; [|apply Hrun]].
  - unfold spendMana, PlayerStats.spendMana.
    destruct (Qltb (PlayerStats.mana (pool s)) amount) eqn:E;
      [apply Qltb_true in E; exfalso; Lqa.lra | reflexivity].
  - unfold spendMana, PlayerStats.spendMana.
    destruct (Qltb (PlayerStats.mana (pool s)) amount) eqn:E;
      [apply Qltb_true in E; exfalso; Lqa.lra |].
    unfold isLowMana. simpl. apply Qltb_true.
    apply Qlt_shift_div_r; [exact Hmax | exact Hlow].
Qed.

End StatsFacts.

(** ** Casting and projectiles beyond the claims *)

Module MagicFacts.

Import MagicController.

(** *** A release that can be paid for *)

(** X9. Releasing the button while casting, with at least the mana the chosen
    spell costs: the controller pays exactly that cost, counts one spell,
    appends exactly one projectile, with the speed and the damage of the
    spell and a lifetime of 0 out of 8 seconds, 0.3 along the staff from its
    tip, and goes back to idle with the casting bar hidden. *)
Theorem MagicController_release_pays_and_launches (now : Q)
    (staffTip staffDirection : Vector3) (m : t) (spell : SpellData)
    (Hcasting : isCasting m = true)
    (Hspell : spellToCast (spells m) (currentSpell m)
                ((now - castStartTime m) / 1000) = Some spell)
    (Hmana : manaCost spell
             <= PlayerController.currentMana (playerController m)) :
  exists m' : t,
    finishCasting now staffTip staffDirection m = Some m'
    /\ PlayerController.currentMana (playerController m')
       = PlayerController.currentMana (playerController m) - manaCost spell
    /\ PlayerController.maxMana (playerController m')
       = PlayerController.maxMana (playerController m)
    /\ spellsCast m' = S (spellsCast m)
    /\ activeProjectiles m'
       = activeProjectiles m
         ++ [ {| meshPosition :=
                   Vector3_add staffTip (Vector3_scale staffDirection (3 # 10));
                 meshScalingX := 1;
                 direction := staffDirection;
                 speed := projectileSpeed spell;
                 projDamage := damage spell;
                 lifetime := 0;
                 maxLifetime := 8 |} ]
    /\ isCasting m' = false
    /\ currentSpell m' = None
    /\ gameUI m' = hideCastingBar :: gameUI m.
Proof.
  unfold finishCasting. rewrite Hcasting. simpl. rewrite Hspell.
  unfold castSpell, PlayerController.spendMana.
  apply Qgeb_true in Hmana. rewrite Hmana. simpl.
  eexists. split; [reflexivity|]. simpl. repeat split.
Qed.

Lemma MagicController_release_pays_and_launches_witness :
  exists m' : t,
    finishCasting 2500 (mkVector3 0 1 0) (mkVector3 0 0 1)
      (startCasting 0 (create PlayerController.initial [])) = Some m'
    /\ PlayerController.currentMana (playerController m')
       = 100 - manaCost (waterBallCharged defaultSpells)
    /\ List.length (activeProjectiles m') = 1%nat.
Proof.
  destruct (MagicController_release_pays_and_launches 2500
              (mkVector3 0 1 0) (mkVector3 0 0 1)
              (startCasting 0 (create PlayerController.initial []))
              (waterBallCharged defaultSpells))
    as (m' & H1 & H2 & _ & _ & H5 & _).
  - reflexivity.
  - reflexivity.
  - vm_compute; discriminate.
  - exists m'. split; [exact H1|]. split; [exact H2|].
    rewrite H5. reflexivity.
Defined.


(** X10. The same release in [SimpleMagicController]: the player's stats pay the
    cost and count the spell ([Player.spendMana]), one projectile is
    appended 1.5 ahead of and 1.5 above the player with a lifetime of 0 out
    of 5 seconds, and the player is told that casting has finished. *)
Theorem SimpleMagicController_release_pays_and_launches (now : Q)
    (playerPos cameraDir : Vector3) (m : SimpleMagicController.t)
    (Hcasting : SimpleMagicController.isCasting m = true)
    (Hmana :
       manaCost (SimpleMagicController.spellToCast
                   (SimpleMagicController.spells m)
                   ((now - SimpleMagicController.castStartTime m) / 1000))
       <= PlayerStats.mana (SimpleMagicController.playerStats m)) :
  let spell :=
    SimpleMagicController.spellToCast (SimpleMagicController.spells m)
      ((now - SimpleMagicController.castStartTime m) / 1000) in
  let m' := SimpleMagicController.finishCasting now playerPos cameraDir m in
  PlayerStats.mana (SimpleMagicController.playerStats m')
  = PlayerStats.mana (SimpleMagicController.playerStats m) - manaCost spell
  /\ PlayerStats.spellsCast (SimpleMagicController.playerStats m')
     = S (PlayerStats.spellsCast (SimpleMagicController.playerStats m))
  /\ SimpleMagicController.activeProjectiles m'
     = SimpleMagicController.activeProjectiles m
       ++ [ {| meshPosition :=
                 mkVector3 (vx playerPos + vx cameraDir * (15 # 10))
                   (vy playerPos + vy cameraDir * (15 # 10) + (15 # 10))
                   (vz playerPos + vz cameraDir * (15 # 10));
               meshScalingX := 1;
               direction := cameraDir;
               speed := projectileSpeed spell;
               projDamage := damage spell;
               lifetime := 0;
               maxLifetime := 5 |} ]
  /\ SimpleMagicController.isCasting m' = false
  /\ SimpleMagicController.playerCalls m'
     = SimpleMagicController.player_finishCasting
         :: SimpleMagicController.playerCalls m.
Proof.
  cbv zeta. unfold SimpleMagicController.finishCasting.
  rewrite Hcasting. simpl.
  unfold SimpleMagicController.castSpell, PlayerStats.Player_spendMana,
    PlayerStats.spendMana.
  apply Qltb_false in Hmana. rewrite Hmana. simpl. repeat split.
Qed.

Lemma SimpleMagicController_release_pays_and_launches_witness :
  PlayerStats.mana
    (SimpleMagicController.playerStats
       (SimpleMagicController.finishCasting 1000 (mkVector3 0 0 0)
          (mkVector3 0 0 1)
          (SimpleMagicController.startCasting 0
             (SimpleMagicController.create PlayerStats.initial []))))
  = 100 - 25.
Proof.
  refine (proj1 (SimpleMagicController_release_pays_and_launches 1000
                   (mkVector3 0 0 0) (mkVector3 0 0 1)
                   (SimpleMagicController.startCasting 0
                      (SimpleMagicController.create PlayerStats.initial []))
                   _ _)).
  - reflexivity.
  - vm_compute; discriminate.
Defined.

(** *** The power of a partial cast *)

Lemma Math_ceil_le (a b : Q) : a <= b -> Math_ceil a <= Math_ceil b.
Proof.
  intros H. unfold Math_ceil. rewrite <- Zle_Qle.
  apply Qceiling_resp_le. exact H.
Qed.

Lemma Math_ceil_ge (a : Q) : a <= Math_ceil a.
Proof. unfold Math_ceil. apply Qle_ceiling. Qed.

Lemma blend_monotone (lo hi r1 r2 : Q) :
  lo <= hi -> 0 <= r1 -> r1 <= r2 -> r2 <= 1 ->
  lo <= lo + (hi - lo) * r1
  /\ lo + (hi - lo) * r1 <= lo + (hi - lo) * r2
  /\ lo + (hi - lo) * r2 <= hi.
Proof.
  intros Hlh H0 H12 H1.
  assert (A : 0 <= (hi - lo) * r1) by (apply Qmult_le_0_compat; Lqa.lra).
  assert (B : 0 <= (hi - lo) * (r2 - r1))
    by (apply Qmult_le_0_compat; Lqa.lra).
  assert (C : 0 <= (hi - lo) * (1 - r2))
    by (apply Qmult_le_0_compat; Lqa.lra).
  repeat split; Lqa.lra.
Qed.

(** X11. When the charged tier costs, hits and measures at least what the quick
    tier does, the spell of a partial cast lies between the two and grows
    with the power ratio: holding longer never gives a cheaper, weaker or
    smaller spell, the cost and the damage never exceed those of the charged
    tier rounded up; and the ratio [finishCasting] uses for a partial cast
    (0.2 s or more, less than the cast time) is at least 0 and below 1. *)
Theorem partial_cast_between_tiers (sp : Spells) (r1 r2 : Q)
    (Hcost : manaCost (waterBallQuick sp) <= manaCost (waterBallCharged sp))
    (Hdamage : damage (waterBallQuick sp) <= damage (waterBallCharged sp))
    (Hsize : projectileSize (waterBallQuick sp)
             <= projectileSize (waterBallCharged sp))
    (Hr1 : 0 <= r1) (Hr12 : r1 <= r2) (Hr2 : r2 <= 1) :
  (manaCost (waterBallQuick sp) <= manaCost (partialSpell sp r1)
   /\ manaCost (partialSpell sp r1) <= manaCost (partialSpell sp r2)
   /\ manaCost (partialSpell sp r2)
      <= Math_ceil (manaCost (waterBallCharged sp)))
  /\ (damage (waterBallQuick sp) <= damage (partialSpell sp r1)
      /\ damage (partialSpell sp r1) <= damage (partialSpell sp r2)
      /\ damage (partialSpell sp r2)
         <= Math_ceil (damage (waterBallCharged sp)))
  /\ (projectileSize (waterBallQuick sp) <= projectileSize (partialSpell sp r1)
      /\ projectileSize (partialSpell sp r1)
         <= projectileSize (partialSpell sp r2)
      /\ projectileSize (partialSpell sp r2)
         <= projectileSize (waterBallCharged sp))
  /\ forall (cur : SpellData) (heldTime : Q),
       quickThreshold <= heldTime -> heldTime < castTime cur ->
       spellToCast sp (Some cur) heldTime
       = Some (partialSpell sp (heldTime / castTime cur))
       /\ 0 <= heldTime / castTime cur /\ heldTime / castTime cur < 1.
Proof.
  destruct (blend_monotone _ _ r1 r2 Hcost Hr1 Hr12 Hr2) as (C1 & C2 & C3).
  destruct (blend_monotone _ _ r1 r2 Hdamage Hr1 Hr12 Hr2) as (D1 & D2 & D3).
  destruct (blend_monotone _ _ r1 r2 Hsize Hr1 Hr12 Hr2) as (S1 & S2 & S3).
  unfold partialSpell. simpl.
  split; [|split; [|split]].
  - split; [|split].
    + eapply Qle_trans; [exact C1 | apply Math_ceil_ge].
    + apply Math_ceil_le. exact C2.
    + apply Math_ceil_le. exact C3.
  - split; [|split].
    + eapply Qle_trans; [exact D1 | apply Math_ceil_ge].
    + apply Math_ceil_le. exact D2.
    + apply Math_ceil_le. exact D3.
  - split; [exact S1 | split; [exact S2 | exact S3]].
  - intros cur heldTime Hquick Hshort.
    assert (Hct : 0 < castTime cur)
      by (unfold quickThreshold in Hquick; Lqa.lra).
    split; [|split].
    + unfold spellToCast.
      apply Qltb_false in Hquick. rewrite Hquick.
      apply Qgeb_false in Hshort. rewrite Hshort. reflexivity.
    + apply Qle_shift_div_l; [exact Hct|].
      unfold quickThreshold in Hquick. Lqa.lra.
    + apply Qlt_shift_div_r; [exact Hct | Lqa.lra].
Qed.


Lemma partial_cast_between_tiers_witness :
  manaCost (waterBallQuick defaultSpells)
  <= manaCost (partialSpell defaultSpells (1 # 10))
  /\ manaCost (partialSpell defaultSpells (1 # 10))
     <= manaCost (partialSpell defaultSpells (1 # 2))
  /\ manaCost (partialSpell defaultSpells (1 # 2))
     <= Math_ceil (manaCost (waterBallCharged defaultSpells)).
Proof.
  refine (proj1 (partial_cast_between_tiers defaultSpells (1 # 10) (1 # 2)
                   _ _ _ _ _ _)); vm_compute; discriminate.
Defined.

(** *** A whole session *)

Section Session.

Variable Distance : Vector3 -> Vector3 -> Q.

Lemma keepUpdated_length {A : Type} (body : A -> option A) (l : list A) :
  (List.length (keepUpdated body l) <= List.length l)%nat.
Proof.
  induction l as [|a rest IH]; simpl; [lia|].
  destruct (body a); simpl; lia.
Qed.

Lemma step_consistent (e : MagicSession.Event) (m : t) :
  MagicSession.consistent m ->
  exists m' : t,
    MagicSession.step Distance e m = Some m'
    /\ MagicSession.consistent m'
    /\ spells m' = spells m
    /\ targetMeshes m' = targetMeshes m
    /\ match e with
       | MagicSession.PointerUp _ _ _ => isCasting m' = false
       | _ => True
       end.
Proof.
  unfold MagicSession.consistent. intros [Hspell Hcount].
  destruct e as [now | now tip dir | now dt |]; simpl.
  - eexists. split; [reflexivity|]. unfold startCasting.
    destruct (isCasting m) eqn:E.
    + rewrite E. repeat split; assumption.
    + simpl. repeat split; [discriminate | exact Hcount].
  - unfold finishCasting. destruct (isCasting m) eqn:E; simpl.
    + destruct (currentSpell m) as [cur|] eqn:Ec;
        [|exfalso; apply Hspell; reflexivity].
      assert (Hsome : exists spell,
                 spellToCast (spells m) (Some cur)
                   ((now - castStartTime m) / 1000) = Some spell).
      { unfold spellToCast.
        destruct (Qltb _ quickThreshold); [eexists; reflexivity|].
        destruct (Qgeb _ (castTime cur)); eexists; reflexivity. }
      destruct Hsome as [spell ->].
      eexists. split; [reflexivity|].
      unfold castSpell, PlayerController.spendMana.
      destruct (Qgeb _ (manaCost spell)); simpl.
      * repeat split. rewrite length_app. simpl. lia.
      * repeat split. exact Hcount.
    + eexists. split; [reflexivity|]. rewrite E.
      repeat split; assumption.
  - eexists. split; [reflexivity|].
    unfold update. simpl. rewrite forEachFromEnd_keepUpdated.
    repeat split; [exact Hspell|].
    eapply Nat.le_trans; [apply keepUpdated_length | exact Hcount].
  - eexists. split; [reflexivity|]. unfold MagicSession.clearAllProjectiles.
    simpl. repeat split; [exact Hspell | lia].
Qed.

Lemma runEvents_app (events1 events2 : list MagicSession.Event) (m : t) :
  MagicSession.runEvents Distance (events1 ++ events2) m
  = match MagicSession.runEvents Distance events1 m with
    | None => None
    | Some m' => MagicSession.runEvents Distance events2 m'
    end.
Proof.
  revert m. induction events1 as [|e rest IH]; intros m; [reflexivity|].
  simpl. destruct (MagicSession.step Distance e m); [apply IH | reflexivity].
Qed.

(** X12. From the controller as constructed, and from any state that has a
    current spell exactly while casting and no more projectiles in flight
    than spells counted, no sequence of presses, releases, frames and
    restarts makes a handler throw (the unguarded [currentSpell!.castTime]
    is never read on [null]); the state afterwards is of the same kind, the
    spell table and the targets are the ones it started with, and a release
    at the end always leaves the controller idle. *)
Theorem session_never_throws (events : list MagicSession.Event) (m : t)
    (Hm : MagicSession.consistent m) :
  exists m' : t,
    MagicSession.runEvents Distance events m = Some m'
    /\ MagicSession.consistent m'
    /\ spells m' = spells m
    /\ targetMeshes m' = targetMeshes m
    /\ forall (now : Q) (staffTip staffDirection : Vector3),
       exists m'' : t,
         MagicSession.runEvents Distance
           (events ++ [MagicSession.PointerUp now staffTip staffDirection]) m
         = Some m''
         /\ isCasting m'' = false /\ currentSpell m'' = None.
Proof.
  assert (Hrun : forall (l : list MagicSession.Event) (u : t),
             MagicSession.consistent u ->
             exists u' : t,
               MagicSession.runEvents Distance l u = Some u'
               /\ MagicSession.consistent u'
               /\ spells u' = spells u /\ targetMeshes u' = targetMeshes u).
  { induction l as [|e rest IH]; intros u Hu.
    - exists u. repeat split; apply Hu.
    - destruct (step_consistent e u Hu) as (u1 & Hstep & Hu1 & Hs1 & Ht1 & _).
      destruct (IH u1 Hu1) as (u' & Hrest & Hu' & Hs & Ht).
      exists u'. simpl. rewrite Hstep.
      repeat split; try apply Hu'; congruence. }
  destruct (Hrun events m Hm) as (m' & Hm'run & Hm' & Hs & Ht).
  exists m'. split; [exact Hm'run|]. split; [exact Hm'|].
  split; [exact Hs|]. split; [exact Ht|].
  intros now tip dir.
  destruct (step_consistent (MagicSession.PointerUp now tip dir) m' Hm')
    as (m'' & Hstep & [Hc'' _] & _ & _ & Hidle).
  exists m''. rewrite runEvents_app, Hm'run. simpl. simpl in Hstep.
  rewrite Hstep. split; [reflexivity|]. split; [exact Hidle|].
  rewrite Hidle in Hc''. exact Hc''.
Qed.

End Session.


Lemma session_never_throws_witness :
  exists m' : t,
    MagicSession.runEvents (fun _ _ => 10)
      [MagicSession.PointerDown 0; MagicSession.Frame 16 (16 # 1000);
       MagicSession.PointerUp 1000 (mkVector3 0 1 0) (mkVector3 0 0 1);
       MagicSession.PointerUp 1100 (mkVector3 0 1 0) (mkVector3 0 0 1);
       MagicSession.Frame 1116 (16 # 1000); MagicSession.Restart]
      (create PlayerController.initial [Some (mkVector3 0 1 20)]) = Some m'
    /\ MagicSession.consistent m'.
Proof.
  destruct (session_never_throws (fun _ _ => 10)
              [MagicSession.PointerDown 0; MagicSession.Frame 16 (16 # 1000);
               MagicSession.PointerUp 1000 (mkVector3 0 1 0) (mkVector3 0 0 1);
               MagicSession.PointerUp 1100 (mkVector3 0 1 0) (mkVector3 0 0 1);
               MagicSession.Frame 1116 (16 # 1000); MagicSession.Restart]
              (create PlayerController.initial [Some (mkVector3 0 1 20)]))
    as (m' & Hrun & Hm' & _).
  - split; [reflexivity | simpl; lia].
  - exists m'. split; assumption.
Defined.


(** *** The projectiles a frame keeps *)

Section Flight.

Variable Distance : Vector3 -> Vector3 -> Q.

Lemma keepUpdated_filter_map {A : Type} (body : A -> option A)
    (keep : A -> bool) (f : A -> A) (l : list A) :
  (forall a, body a = if keep a then Some (f a) else None) ->
  keepUpdated body l = map f (filter keep l).
Proof.
  intros Hbody. induction l as [|a rest IH]; [reflexivity|].
  simpl. rewrite Hbody. destruct (keep a); simpl; rewrite IH; reflexivity.
Qed.

Lemma filter_length_le {A : Type} (keep : A -> bool) (l : list A) :
  (List.length (filter keep l) <= List.length l)%nat.
Proof.
  induction l as [|a rest IH]; simpl; [lia|].
  destruct (keep a); simpl; lia.
Qed.

Lemma Forall_map_filter {A : Type} (keep : A -> bool) (f : A -> A)
    (P : A -> Prop) (l : list A) :
  (forall a, keep a = true -> P (f a)) -> Forall P (map f (filter keep l)).
Proof.
  intros H. induction l as [|a rest IH]; simpl; [constructor|].
  destruct (keep a) eqn:E; simpl; [constructor; auto | exact IH].
Qed.

(** X13. The loop of [update], which walks the array from its end and splices
    while it walks, keeps the projectiles in their order, each moved by one
    step, and leaves out exactly those that collide or have outlived their
    maximum after the step.  So after any frame every projectile of
    [MagicController] is clear of the targets, above the ground and at most
    [maxLifetime] old, and every projectile of [SimpleMagicController] is
    clear of the targets, at height 0.5 or more and less than [maxLifetime]
    old; neither list has grown. *)
Theorem frame_keeps_projectiles_in_flight (now deltaTime : Q)
    (m : MagicController.t) (s : SimpleMagicController.t) :
  let keptM p :=
    negb (checkProjectileCollisions Distance (targetMeshes m)
            (moveProjectile deltaTime p)
          || Qgtb (lifetime p + deltaTime) (maxLifetime p)) in
  let keptS p :=
    negb (SimpleMagicController.checkProjectileCollisions Distance
            (SimpleMagicController.targetMeshes s)
            (moveProjectile deltaTime p)
          || Qgeb (lifetime p + deltaTime) (maxLifetime p)) in
  let afterM := activeProjectiles (update Distance now deltaTime m) in
  let afterS :=
    SimpleMagicController.activeProjectiles
      (SimpleMagicController.update Distance now deltaTime s) in
  (afterM = map (moveProjectile deltaTime) (filter keptM (activeProjectiles m))
   /\ (List.length afterM <= List.length (activeProjectiles m))%nat
   /\ Forall (fun p =>
                checkProjectileCollisions Distance (targetMeshes m) p = false
                /\ lifetime p <= maxLifetime p
                /\ 0 < vy (meshPosition p)) afterM)
  /\ (afterS = map (moveProjectile deltaTime)
                 (filter keptS (SimpleMagicController.activeProjectiles s))
      /\ (List.length afterS
          <= List.length (SimpleMagicController.activeProjectiles s))%nat
      /\ Forall (fun p =>
                   SimpleMagicController.checkProjectileCollisions Distance
                     (SimpleMagicController.targetMeshes s) p = false
                   /\ lifetime p < maxLifetime p
                   /\ 5 # 10 <= vy (meshPosition p)) afterS).
Proof.
  cbv zeta.
  assert (EM : activeProjectiles (update Distance now deltaTime m)
               = map (moveProjectile deltaTime)
                   (filter
                      (fun p =>
                         negb (checkProjectileCollisions Distance
                                 (targetMeshes m) (moveProjectile deltaTime p)
                               || Qgtb (lifetime p + deltaTime)
                                    (maxLifetime p)))
                      (activeProjectiles m))).
  { unfold update. simpl. rewrite forEachFromEnd_keepUpdated.
    apply keepUpdated_filter_map. intros a. unfold updateProjectile.
    cbv zeta. simpl.
    destruct (checkProjectileCollisions _ _ _); simpl; [reflexivity|].
    destruct (Qgtb _ _); reflexivity. }
  assert (ES : SimpleMagicController.activeProjectiles
                 (SimpleMagicController.update Distance now deltaTime s)
               = map (moveProjectile deltaTime)
                   (filter
                      (fun p =>
                         negb (SimpleMagicController.checkProjectileCollisions
                                 Distance
                                 (SimpleMagicController.targetMeshes s)
                                 (moveProjectile deltaTime p)
                               || Qgeb (lifetime p + deltaTime)
                                    (maxLifetime p)))
                      (SimpleMagicController.activeProjectiles s))).
  { unfold SimpleMagicController.update, SimpleMagicController.updateCasting.
    assert (E : SimpleMagicController.activeProjectiles
                  (SimpleMagicController.updateProjectiles Distance deltaTime s)
                = keepUpdated
                    (SimpleMagicController.updateProjectile Distance
                       (SimpleMagicController.targetMeshes s) deltaTime)
                    (SimpleMagicController.activeProjectiles s)).
    { unfold SimpleMagicController.updateProjectiles. simpl.
      apply forEachFromEnd_keepUpdated. }
    match goal with
    | |- context [if ?b then _ else _] => destruct b
    end; simpl; rewrite ?E; simpl;
      (rewrite forEachFromEnd_keepUpdated || idtac);
      apply keepUpdated_filter_map; intros a;
      unfold SimpleMagicController.updateProjectile; cbv zeta; simpl;
      (destruct (SimpleMagicController.checkProjectileCollisions _ _ _);
       simpl; [reflexivity|]);
      destruct (Qgeb _ _); reflexivity. }
  split.
  - split; [exact EM|]. rewrite EM. split.
    + rewrite length_map. apply filter_length_le.
    + apply Forall_map_filter. intros a Hkeep.
      apply negb_true_iff, orb_false_iff in Hkeep.
      destruct Hkeep as [Hfree Hyoung].
      split; [exact Hfree|]. split.
      * apply Qgtb_false in Hyoung. exact Hyoung.
      * unfold checkProjectileCollisions in Hfree.
        apply orb_false_iff in Hfree. destruct Hfree as [_ Hground].
        apply Qltb_true. unfold Qltb. rewrite Hground. reflexivity.
  - split; [exact ES|]. rewrite ES. split.
    + rewrite length_map. apply filter_length_le.
    + apply Forall_map_filter. intros a Hkeep.
      apply negb_true_iff, orb_false_iff in Hkeep.
      destruct Hkeep as [Hfree Hyoung].
      split; [exact Hfree|]. split.
      * apply Qgeb_false in Hyoung. exact Hyoung.
      * unfold SimpleMagicController.checkProjectileCollisions in Hfree.
        apply orb_false_iff in Hfree. destruct Hfree as [_ Hground].
        apply Qltb_false in Hground. exact Hground.
Qed.

End Flight.

(** *** A projectile through several frames, in doubles *)

Section DoubleFlight.

Variable Distance : Doubles.Vector3 -> Doubles.Vector3 -> float.

Lemma flyTicks_elapsed (deltaTimes : list float) (p : Doubles.Projectile) :
  Doubles.lifetime (Doubles.flyTicks deltaTimes p)
  = Doubles.elapsedAfter (Doubles.lifetime p) deltaTimes
      (List.length deltaTimes)
  /\ Doubles.direction (Doubles.flyTicks deltaTimes p) = Doubles.direction p
  /\ Doubles.speed (Doubles.flyTicks deltaTimes p) = Doubles.speed p
  /\ Doubles.projDamage (Doubles.flyTicks deltaTimes p)
     = Doubles.projDamage p
  /\ Doubles.maxLifetime (Doubles.flyTicks deltaTimes p)
     = Doubles.maxLifetime p
  /\ Doubles.meshScalingX (Doubles.flyTicks deltaTimes p)
     = Doubles.meshScalingX p.
Proof.
  revert p. unfold Doubles.flyTicks.
  induction deltaTimes as [|dt rest IH]; intros p; [repeat split|].
  simpl. destruct (IH (Doubles.moveProjectile dt p))
    as (H1 & H2 & H3 & H4 & H5 & H6).
  rewrite H1, H2, H3, H4, H5, H6. repeat split.
Qed.

(** X14. As long as the loop of [MagicController.update] keeps it, nothing
    happens to a projectile but the move of each frame, in doubles as the
    code computes: after any number of frames it is the projectile it was,
    moved frame by frame, its lifetime is the running sum of the frames, its
    direction, speed, damage and maximum lifetime are the ones it had, and
    no tick has removed it; after at least one frame the loop's own tests
    say that it is no older than its maximum, above the ground and clear of
    every target. *)
Theorem kept_projectile_only_moves
    (targets : list (option Doubles.Vector3)) (deltaTimes : list float)
    (p p' : Doubles.Projectile)
    (Hkept : Doubles.afterTicks
               (Doubles.MagicController.updateProjectile Distance targets)
               deltaTimes p = Some p') :
  p' = Doubles.flyTicks deltaTimes p
  /\ Doubles.lifetime p'
     = Doubles.elapsedAfter (Doubles.lifetime p) deltaTimes
         (List.length deltaTimes)
  /\ Doubles.direction p' = Doubles.direction p
  /\ Doubles.speed p' = Doubles.speed p
  /\ Doubles.projDamage p' = Doubles.projDamage p
  /\ Doubles.maxLifetime p' = Doubles.maxLifetime p
  /\ Doubles.removalTick
       (Doubles.MagicController.updateProjectile Distance targets)
       deltaTimes p = None
  /\ (deltaTimes <> [] ->
      Fgtb (Doubles.lifetime p') (Doubles.maxLifetime p) = false
      /\ Fleb (Doubles.vy (Doubles.meshPosition p')) 0 = false
      /\ Doubles.MagicController.checkProjectileCollisions Distance targets
           p' = false).
Proof.
  assert (Hfly : p' = Doubles.flyTicks deltaTimes p
                 /\ Doubles.removalTick
                      (Doubles.MagicController.updateProjectile Distance
                         targets) deltaTimes p = None
                 /\ (deltaTimes <> [] ->
                     Fgtb (Doubles.lifetime p') (Doubles.maxLifetime p')
                     = false
                     /\ Doubles.MagicController.checkProjectileCollisions
                          Distance targets p' = false)).
  { revert p Hkept. induction deltaTimes as [|dt rest IH]; intros p Hkept.
    - simpl in Hkept. injection Hkept as <-.
      split; [reflexivity|]. split; [reflexivity|].
      intros Hne. exfalso. apply Hne. reflexivity.
    - simpl in Hkept. simpl Doubles.removalTick.
      destruct (Doubles.MagicController.updateProjectile Distance targets dt
                  p) as [p1|] eqn:E1; [|discriminate].
      unfold Doubles.MagicController.updateProjectile in E1.
      cbv zeta in E1.
      destruct (Doubles.MagicController.checkProjectileCollisions Distance
                  targets (Doubles.moveProjectile dt p)) eqn:Efree;
        [discriminate|].
      destruct (Fgtb (Doubles.lifetime (Doubles.moveProjectile dt p))
                  (Doubles.maxLifetime (Doubles.moveProjectile dt p)))
        eqn:Eyoung; [discriminate|].
      injection E1 as <-.
      destruct (IH _ Hkept) as (Hfly & Hnone & Hlast).
      split; [exact Hfly|]. split; [rewrite Hnone; reflexivity|].
      intros _. destruct rest as [|dt2 rest2].
      + simpl in Hkept. injection Hkept as <-.
        split; [exact Eyoung | exact Efree].
      + apply Hlast. discriminate. }
  destruct Hfly as (Hfly & Hnone & Hlast).
  destruct (flyTicks_elapsed deltaTimes p) as (H1 & H2 & H3 & H4 & H5 & _).
  rewrite <- Hfly in H1, H2, H3, H4, H5.
  split; [exact Hfly|]. split; [exact H1|]. split; [exact H2|].
  split; [exact H3|]. split; [exact H4|]. split; [exact H5|].
  split; [exact Hnone|].
  intros Hne. destruct (Hlast Hne) as [Hyoung Hfree].
  split; [rewrite <- H5; exact Hyoung|]. split; [|exact Hfree].
  unfold Doubles.MagicController.checkProjectileCollisions in Hfree.
  apply orb_false_iff in Hfree. exact (proj2 Hfree).
Qed.

End DoubleFlight.

(** Eighty frames of 0.1 s: the lifetime is 7.999999999999988, within the
    maximum 8 of [MagicController], and the projectile is still in flight,
    120 further on. *)
Lemma kept_projectile_only_moves_witness :
  let p' := Doubles.flyTicks (repeat 0.1%float 80) (Doubles.spawned 8) in
  Doubles.lifetime p' = 7.999999999999988%float
  /\ Doubles.meshPosition p'
     = Doubles.mkVector3 120 2.5 0
  /\ Doubles.removalTick
       (Doubles.MagicController.updateProjectile Doubles.outOfReach [])
       (repeat 0.1%float 80) (Doubles.spawned 8) = None.
Proof.
  cbv zeta.
  destruct (kept_projectile_only_moves Doubles.outOfReach []
              (repeat 0.1%float 80) (Doubles.spawned 8)
              (Doubles.flyTicks (repeat 0.1%float 80) (Doubles.spawned 8)))
    as (_ & _ & _ & _ & _ & _ & Hnone & _).
  - vm_compute. reflexivity.
  - split; [vm_compute; reflexivity|]. split; [|exact Hnone].
    vm_compute. reflexivity.
Defined.

End MagicFacts.

(** ** The casting bar of GameUI *)

Module CastingBar.

Import GameUI.

Ltac time_cases :=
  repeat match goal with
         | |- context [Qle_bool ?a ?b] =>
             let E := fresh "E" in
             destruct (Qle_bool a b) eqn:E;
             [apply Qle_bool_iff in E | apply Qle_bool_false in E];
             try (exfalso; Lqa.lra); simpl
         end.

(** X16. A press at [t0], a release at [t1] and a second press at [t2], on a bar
    that was hidden with no callback waiting.  When the second press comes
    less than 200 ms after the release, [showCastingBar] returns at once
    (the bar still counts as visible), the callback of the release then
    hides the bar, and the progress of the second cast is never shown: after
    [t1 + 200] the bar is hidden and [updateCastingProgress] changes
    nothing.  When the second press comes more than 200 ms after the
    release the bar is shown again, with a width between 0% and 100%. *)
Theorem casting_bar_lost_on_quick_recast (t0 t1 t2 t3 progress : Q) (ui : t)
    (Hhidden : isCastingBarVisible ui = false)
    (Hsettled : timers ui = [])
    (H01 : t0 <= t1) (H12 : t1 <= t2) (H23 : t2 <= t3) :
  let recast := showCastingBar t2 (hideCastingBar t1 (showCastingBar t0 ui)) in
  let shown := updateCastingProgress t3 progress recast in
  (t2 < t1 + 200 -> t1 + 200 < t3 ->
   isCastingBarVisible shown = false
   /\ castingBarDisplay shown = display_none
   /\ shown = advance t3 recast
   /\ timers shown = [])
  /\ (t1 + 200 < t2 ->
      isCastingBarVisible shown = true
      /\ castingBarDisplay shown = display_block
      /\ (0 <= castingProgressWidth shown <= 100)%Z).
Proof.
  cbv zeta. split.
  - intros Hquick Hlate.
    unfold updateCastingProgress, showCastingBar, hideCastingBar, advance,
      setTimeout.
    rewrite Hsettled. simpl. rewrite Hhidden. simpl.
    time_cases; repeat split.
  - intros Hslow.
    assert (Hwidth : (0 <= Qfloor (Math_max 0 (Math_min 1 progress) * 100)
                      <= 100)%Z).
    { assert (H0 : 0 <= Math_max 0 (Math_min 1 progress))
        by (unfold Math_max; apply Q.le_max_l).
      assert (H1 : Math_max 0 (Math_min 1 progress) <= 1).
      { unfold Math_max, Math_min. apply Q.max_lub; [Lqa.lra|].
        apply Q.le_min_l. }
      set (c := Math_max 0 (Math_min 1 progress)) in *.
      assert (Hlo : (Qfloor 0 <= Qfloor (c * 100))%Z)
        by (apply Qfloor_resp_le; Lqa.lra).
      assert (Hhi : (Qfloor (c * 100) <= Qfloor 100)%Z)
        by (apply Qfloor_resp_le; Lqa.lra).
      split; [exact Hlo | exact Hhi]. }
    unfold updateCastingProgress, showCastingBar, hideCastingBar, advance,
      setTimeout.
    rewrite Hsettled. simpl. rewrite Hhidden. simpl.
    time_cases; (split; [reflexivity|]); (split; [reflexivity|]);
      exact Hwidth.
Qed.

Lemma casting_bar_lost_on_quick_recast_witness :
  castingBarDisplay
    (updateCastingProgress 1000 (1 # 2)
       (showCastingBar 400 (hideCastingBar 300 (showCastingBar 0 initial))))
  = display_none.
Proof.
  refine (proj1 (proj2 (proj1
            (casting_bar_lost_on_quick_recast 0 300 400 1000 (1 # 2) initial
               _ _ _ _ _) _ _))); try reflexivity; vm_compute; discriminate.
Defined.


Lemma clamp_unit (p : Q) :
  let c := Math_max 0 (Math_min 1 p) in
  0 <= c /\ c <= 1 /\ (1 <= c <-> 1 <= p).
Proof.
  cbv zeta. unfold Math_max, Math_min. split; [apply Q.le_max_l|]. split.
  - apply Q.max_lub; [Lqa.lra | apply Q.le_min_l].
  - rewrite Q.max_le_iff, Q.min_glb_iff. split.
    + intros [H | [_ H]]; [exfalso; Lqa.lra | exact H].
    + intros H. right. split; [Lqa.lra | exact H].
Qed.

Lemma percentage_bounds (c : Q) :
  0 <= c -> c <= 1 ->
  (0 <= Qfloor (c * 100) <= 100)%Z /\ (Qfloor (c * 100) = 100%Z <-> 1 <= c).
Proof.
  intros H0 H1.
  assert (Hlo : (Qfloor 0 <= Qfloor (c * 100))%Z)
    by (apply Qfloor_resp_le; Lqa.lra).
  assert (Hhi : (Qfloor (c * 100) <= Qfloor 100)%Z)
    by (apply Qfloor_resp_le; Lqa.lra).
  change (Qfloor 0) with 0%Z in Hlo. change (Qfloor 100) with 100%Z in Hhi.
  split; [lia|]. split.
  - intros E. assert (Hf := Qfloor_le (c * 100)). rewrite E in Hf.
    change (inject_Z 100) with 100 in Hf. Lqa.lra.
  - intros Hc. assert (E : c * 100 == 100) by Lqa.lra.
    rewrite E. reflexivity.
Qed.

Lemma ratio_ge_one (a b : Q) : 0 < b -> (1 <= a / b <-> b <= a).
Proof.
  intros Hb. split.
  - intros H.
    assert (E : b * (a / b) == a) by (apply Qmult_div_r; Lqa.lra).
    assert (Hm : 0 <= b * (a / b - 1))
      by (apply Qmult_le_0_compat; Lqa.lra).
    Lqa.lra.
  - intros H. apply Qle_shift_div_l; [exact Hb | Lqa.lra].
Qed.

(** X17. While [MagicController] is casting, each frame reports a progress of at
    most 1 to the bar; on a visible bar the width shown is between 0% and
    100%, and the bar reads "Pronto!" at 100% exactly when the button has
    been held for the cast time of the current spell, which is when a
    release (0.2 s or more after the press) casts the charged spell. *)
Theorem casting_bar_ready_means_charged
    (Distance : Vector3 -> Vector3 -> Q) (now deltaTime : Q)
    (m : MagicController.t) (cur : SpellData) (ui : t)
    (Hcasting : MagicController.isCasting m = true)
    (Hcur : MagicController.currentSpell m = Some cur)
    (Hct : 0 < castTime cur)
    (Hvisible : isCastingBarVisible (advance now ui) = true) :
  let heldTime := (now - MagicController.castStartTime m) / 1000 in
  exists progress : Q,
    MagicController.gameUI (MagicController.update Distance now deltaTime m)
    = MagicController.updateCastingProgress progress
        :: MagicController.gameUI m
    /\ progress <= 1
    /\ (0 <= castingProgressWidth (updateCastingProgress now progress ui)
        <= 100)%Z
    /\ (castingText (updateCastingProgress now progress ui) = "Pronto!"%string
        <-> castTime cur <= heldTime)
    /\ (castingProgressWidth (updateCastingProgress now progress ui) = 100%Z
        <-> castTime cur <= heldTime)
    /\ (castTime cur <= heldTime ->
        MagicController.quickThreshold <= heldTime ->
        MagicController.spellToCast (MagicController.spells m)
          (MagicController.currentSpell m) heldTime
        = Some (waterBallCharged (MagicController.spells m))).
Proof.
  cbv zeta.
  set (heldTime := (now - MagicController.castStartTime m) / 1000).
  exists (Math_min (heldTime / castTime cur) 1).
  assert (Hone : 1 <= Math_min (heldTime / castTime cur) 1
                 <-> castTime cur <= heldTime).
  { unfold Math_min. rewrite Q.min_glb_iff, (ratio_ge_one _ _ Hct).
    split; [intros [H _]; exact H | intros H; split; [exact H | Lqa.lra]]. }
  destruct (clamp_unit (Math_min (heldTime / castTime cur) 1))
    as (C0 & C1 & Cone).
  destruct (percentage_bounds _ C0 C1) as (Hbounds & Hfull).
  split.
  { unfold MagicController.update. simpl. rewrite Hcasting, Hcur.
    reflexivity. }
  split; [unfold Math_min; apply Q.le_min_r|].
  unfold updateCastingProgress. rewrite Hvisible. simpl.
  split; [exact Hbounds|].
  split.
  { rewrite <- Hone, <- Cone. unfold progressText.
    destruct (Qltb _ (2 # 10)) eqn:E1;
      [apply Qltb_true in E1;
       split; [discriminate | intros H; exfalso; Lqa.lra]|].
    destruct (Qltb _ (8 # 10)) eqn:E2;
      [apply Qltb_true in E2;
       split; [discriminate | intros H; exfalso; Lqa.lra]|].
    destruct (Qltb _ 1) eqn:E3;
      [apply Qltb_true in E3;
       split; [discriminate | intros H; exfalso; Lqa.lra]|].
    apply Qltb_false in E3. split; [intros _; exact E3 | reflexivity]. }
  split.
  { rewrite Hfull, Cone, Hone. reflexivity. }
  intros Hfullcast Hquick. rewrite Hcur.
  unfold MagicController.spellToCast.
  apply Qltb_false in Hquick. rewrite Hquick.
  apply Qgeb_true in Hfullcast. rewrite Hfullcast. reflexivity.
Qed.

Lemma casting_bar_ready_means_charged_witness :
  exists progress : Q,
    MagicController.gameUI
      (MagicController.update (fun _ _ => 10) 2500 (16 # 1000)
         (MagicController.startCasting 0
            (MagicController.create PlayerController.initial [])))
    = [MagicController.updateCastingProgress progress;
       MagicController.showCastingBar]
    /\ castingText
         (updateCastingProgress 2500 progress (showCastingBar 0 initial))
       = "Pronto!"%string.
Proof.
  destruct (casting_bar_ready_means_charged (fun _ _ => 10) 2500 (16 # 1000)
              (MagicController.startCasting 0
                 (MagicController.create PlayerController.initial []))
              (waterBallCharged MagicController.defaultSpells)
              (showCastingBar 0 initial))
    as (progress & Hlog & _ & _ & Htext & _).
  - reflexivity.
  - reflexivity.
  - reflexivity.
  - reflexivity.
  - exists progress. split; [exact Hlog|].
    apply Htext. vm_compute; discriminate.
Defined.

End CastingBar.

(** ** The camera between its limits *)

Module CameraFacts.

Import ThirdPersonCamera CameraMotion.

Lemma clamp_between (lo hi v : Q) :
  lo <= hi ->
  lo <= Math_max lo (Math_min hi v) /\ Math_max lo (Math_min hi v) <= hi.
Proof.
  intros H. unfold Math_max, Math_min. split.
  - apply Q.le_max_l.
  - apply Q.max_lub; [exact H | apply Q.le_min_l].
Qed.

Lemma applyOp_targetsWithinLimits (round : Q -> Q) (op : Op) (c : t) :
  targetsWithinLimits c ->
  targetsWithinLimits (applyOp round op c)
  /\ config (applyOp round op c) = config c.
Proof.
  intros (HT & HDef & HTP).
  assert (Hlim : minDistance (config c) <= maxDistance (config c))
    by Lqa.lra.
  destruct op as [md dt | delta | d | h | i | |]; simpl.
  - unfold update, smoothTransitions, processMouseInput. simpl.
    destruct (negb (Qeq_bool (fst md) 0) || negb (Qeq_bool (snd md) 0));
      (split; [|reflexivity]); unfold targetsWithinLimits; simpl.
    + split; [tauto|]. split; [tauto|]. apply clamp_between. Lqa.lra.
    + tauto.
  - split; [|reflexivity]. unfold targetsWithinLimits. simpl.
    split; [apply clamp_between; exact Hlim | tauto].
  - split; [|reflexivity]. unfold targetsWithinLimits. simpl.
    split; [apply clamp_between; exact Hlim | tauto].
  - split; [|reflexivity]. unfold targetsWithinLimits. simpl. tauto.
  - split; [|reflexivity]. unfold targetsWithinLimits. simpl. tauto.
  - split; [|reflexivity]. unfold targetsWithinLimits. simpl. tauto.
  - split; [|reflexivity]. unfold targetsWithinLimits. simpl.
    split; [tauto|]. split; [tauto|]. split; Lqa.lra.
Qed.

(** X18. A camera whose target distance and default distance are within the
    zoom limits and whose target pitch is within 1.2 of level keeps them
    so through every sequence of frames (whatever the mouse does and
    however long the frames are), scrolls, [setZoom], [setHeight], bobs and
    resets, and however the frame update rounds its sums and products:
    what the camera moves towards is clamped.  The configuration is
    unchanged.  Nothing is said of the smoothed distance and pitch, which
    follow their targets by [lerp]. *)
Theorem camera_targets_stay_within_limits (round : Q -> Q) (ops : list Op)
    (c : t) (Hstart : targetsWithinLimits c) :
  targetsWithinLimits (run round ops c)
  /\ config (run round ops c) = config c.
Proof.
  revert c Hstart. unfold run.
  induction ops as [|op ops IH]; intros c Hc.
  - split; [exact Hc | reflexivity].
  - simpl. destruct (applyOp_targetsWithinLimits round op c Hc) as [Hc1 Hcfg].
    destruct (IH (applyOp round op c) Hc1) as [Hfinal Hcfg'].
    split; [exact Hfinal | congruence].
Qed.

Lemma camera_targets_stay_within_limits_witness :
  targetsWithinLimits
    (run (fun q => inject_Z (Qfloor (q * 1024)) / 1024)
       [Scroll 100; Frame (40, -900) (16 # 1000); SetZoom 1;
        Frame (0, 0) (1 # 2); ApplyBob 50; Reset; Frame (3, 3) 0]
       (create None)).
Proof.
  refine (proj1 (camera_targets_stay_within_limits
                   (fun q => inject_Z (Qfloor (q * 1024)) / 1024)
                   [Scroll 100; Frame (40, -900) (16 # 1000); SetZoom 1;
                    Frame (0, 0) (1 # 2); ApplyBob 50; Reset; Frame (3, 3) 0]
                   (create None) _)).
  unfold targetsWithinLimits. simpl. repeat split; vm_compute; discriminate.
Defined.

(** X19. In doubles the smoothing does not end on its target.  With the
    target distance at 3.1 and the distance at 8, a frame of 0.25 s (factor
    [min(1.25, 1)]) leaves the distance at 3.0999999999999996, below the
    target.  With the pitch at -0.13888 (a mouse move of -217 and a frame of
    0.016 s from level) and its target at the limit 1.2, a frame of 0.125 s
    (factor 1) leaves the pitch at 1.2000000000000002, above the limit its
    target respects. *)
Theorem smoothing_misses_and_passes_its_target :
  let distance := Doubles.lerp 8 3.1 (5 * 0.25)%float in
  let pitch0 :=
    Doubles.lerp 0 (-217 * 0.005)%float (8 * 0.016)%float in
  let pitch := Doubles.lerp pitch0 1.2 (8 * 0.125)%float in
  distance = 3.0999999999999996%float
  /\ Fltb distance 3.1 = true
  /\ pitch0 = (-0.13888)%float
  /\ pitch = 1.2000000000000002%float
  /\ Fgtb pitch 1.2 = true.
Proof.
  vm_compute. repeat split.
Qed.

End CameraFacts.

(** ** The listeners of InputManager *)

Module InputFacts.

Import InputManager InputEvents.

Lemma deliver_no_release (e : DomEvent) (m : t) :
  releasesJump e = false ->
  let m' := deliver e m in
  isActive m' = isActive m
  /\ jump (inputState m')
     = (jump (inputState m) || (isActive m && pressesJump e))
  /\ jumpPresses m'
     = (jumpPresses m
        + (if isActive m && negb (jump (inputState m)) && pressesJump e
           then 1 else 0))%nat.
Proof.
  intros Hrel. cbv zeta.
  destruct e as [code | code | locked mx my | button | button | dy];
    simpl in *.
  - unfold keydown, isJumpCode.
    destruct (isActive m) eqn:Ea, (keyOf code) as [[]|],
      (jump (inputState m)) eqn:Ej, (pause (inputState m)) eqn:Ep;
      simpl; rewrite ?Ea, ?Ej; unfold jumpPresses; simpl;
      repeat split; lia.
  - unfold keyup, isJumpCode in *.
    destruct (isActive m) eqn:Ea, (keyOf code) as [[]|],
      (jump (inputState m)) eqn:Ej; try discriminate;
      simpl; rewrite ?Ea, ?Ej; unfold jumpPresses; simpl;
      repeat split; lia.
  - unfold mousemove.
    destruct (isActive m) eqn:Ea, locked, (jump (inputState m)) eqn:Ej;
      simpl; rewrite ?Ea, ?Ej; unfold jumpPresses; simpl;
      repeat split; lia.
  - unfold mousedown.
    destruct (isActive m) eqn:Ea, (button =? 0)%Z,
      (jump (inputState m)) eqn:Ej;
      simpl; rewrite ?Ea, ?Ej; unfold jumpPresses; simpl;
      repeat split; lia.
  - unfold mouseup.
    destruct (isActive m) eqn:Ea, (button =? 0)%Z,
      (jump (inputState m)) eqn:Ej;
      simpl; rewrite ?Ea, ?Ej; unfold jumpPresses; simpl;
      repeat split; lia.
  - unfold wheel.
    destruct (isActive m) eqn:Ea, (jump (inputState m)) eqn:Ej;
      simpl; rewrite ?Ea, ?Ej; unfold jumpPresses; simpl;
      repeat split; lia.
Qed.

(** X20. However many key-down events the browser sends while the space bar is
    held (the auto-repeat), and whatever other keys, mouse buttons, mouse
    moves and wheel turns come in between: as long as no key-up of the
    space bar arrives, [onJumpPress] is called once if the manager is active,
    the jump flag was down and the space bar went down at all, and not
    called otherwise. *)
Theorem held_space_presses_jump_once (events : list DomEvent) (m : t)
    (Hheld : existsb releasesJump events = false) :
  jumpPresses (deliverAll events m)
  = (jumpPresses m
     + (if isActive m && negb (jump (inputState m))
           && existsb pressesJump events
        then 1 else 0))%nat.
Proof.
  revert m. unfold deliverAll.
  induction events as [|e rest IH]; intros m.
  - simpl. rewrite andb_false_r. lia.
  - simpl in Hheld. apply orb_false_iff in Hheld.
    destruct Hheld as [He Hrest].
    simpl. rewrite (IH Hrest).
    destruct (deliver_no_release e m He) as (Ha & Hj & Hn).
    rewrite Ha, Hj, Hn.
    destruct (isActive m), (jump (inputState m)), (pressesJump e),
      (existsb pressesJump rest); simpl; lia.
Qed.

Lemma held_space_presses_jump_once_witness :
  jumpPresses
    (deliverAll [Keydown "KeyW"; Keydown "Space"; Keydown "Space";
                 Mousedown 0; Keydown "Space"; Keyup "KeyW"; Keydown "Space"]
       create) = 1%nat.
Proof.
  apply (held_space_presses_jump_once
           [Keydown "KeyW"; Keydown "Space"; Keydown "Space";
            Mousedown 0; Keydown "Space"; Keyup "KeyW"; Keydown "Space"]
           create).
  reflexivity.
Defined.

Lemma deliver_inactive (e : DomEvent) (m : t) :
  isActive m = false -> deliver e m = m.
Proof.
  intros H. destruct e; simpl;
    unfold keydown, keyup, mousemove, mousedown, mouseup, wheel;
    rewrite H; reflexivity.
Qed.

(** X21. Once [setActive(false)] has been called (the game is paused), the
    manager reports no movement, no sprint and no jump, and stays exactly as
    it is whatever the keyboard and the mouse do, calling nobody: keys held
    down at that moment are forgotten, and keys pressed afterwards are not
    seen. *)
Theorem inactive_manager_reports_nothing (events : list DomEvent) (m : t) :
  let m' := deliverAll events (setActive false m) in
  m' = setActive false m
  /\ called m' = called m
  /\ isMoving (inputState m') = false
  /\ getMovementVector (inputState m') = (0%float, 0%float)
  /\ sprint (inputState m') = false
  /\ jump (inputState m') = false
  /\ primaryHold (inputState m') = false.
Proof.
  cbv zeta.
  assert (Hsame : deliverAll events (setActive false m) = setActive false m).
  { unfold deliverAll.
    induction events as [|e rest IH]; [reflexivity|].
    simpl. rewrite deliver_inactive; [exact IH | reflexivity]. }
  rewrite Hsame. split; [reflexivity|]. simpl.
  split; [reflexivity|]. split; [reflexivity|].
  repeat split.
Qed.

End InputFacts.

(** ** Jump requests before the next physics step *)

Module JumpFacts.

Section Requests.

Variable applyImpulse :
  Vector3 -> Vector3 -> PlayerMovement.Body -> PlayerMovement.Body.

(** The impulse of one jump of the first variant on a body. *)
Let impulse1 (force : Q) (b : PlayerMovement.Body) : PlayerMovement.Body :=
  applyImpulse (mkVector3 0 force 0) (PlayerMovement.absolutePosition b) b.

Lemma jump1_grounded_iter (n : nat) (m : PlayerMovement.t) :
  PlayerMovement.isGrounded m = true ->
  let m' := Nat.iter n (PlayerMovement.jump applyImpulse) m in
  PlayerMovement.isGrounded m' = true
  /\ PlayerMovement.config m' = PlayerMovement.config m
  /\ PlayerMovement.currentState m' = PlayerMovement.currentState m
  /\ PlayerMovement.physicsAggregate m'
     = Nat.iter n
         (impulse1 (PlayerMovement.jumpForce (PlayerMovement.config m)))
         (PlayerMovement.physicsAggregate m)
  /\ PlayerMovement.notifications m'
     = repeat PlayerMovement.Jumped n ++ PlayerMovement.notifications m.
Proof.
  intros Hg. induction n as [|n IH]; cbv zeta.
  - repeat split. exact Hg.
  - cbv zeta in IH. destruct IH as (Ig & Ic & Is & Ib & In).
    simpl Nat.iter. unfold PlayerMovement.jump at 1 3 5 7 9.
    rewrite Ig. simpl. rewrite Ic, Ib, In.
    repeat split. exact Is.
Qed.

(** X22. Several [jump()] calls that arrive before the physics has moved the
    body.  In the second variant of [PlayerMovement], which clears
    [isGrounded] itself, only the first counts: any number of calls is one
    call.  In the first variant, which leaves [isGrounded] to the next
    [update], each call of a grounded player applies the impulse again and
    notifies [onJump] again, so [n] calls give [n] impulses. *)
Theorem repeated_jump_requests (n : nat) (m1 : PlayerMovement.t)
    (m2 : PlayerMovement2.t) :
  Nat.iter (S n) (PlayerMovement2.jump applyImpulse) m2
  = PlayerMovement2.jump applyImpulse m2
  /\ (PlayerMovement.isGrounded m1 = true ->
      let m' := Nat.iter n (PlayerMovement.jump applyImpulse) m1 in
      PlayerMovement.isGrounded m' = true
      /\ PlayerMovement.physicsAggregate m'
         = Nat.iter n
             (fun b =>
                applyImpulse
                  (mkVector3 0
                     (PlayerMovement.jumpForce (PlayerMovement.config m1)) 0)
                  (PlayerMovement.absolutePosition b) b)
             (PlayerMovement.physicsAggregate m1)
      /\ PlayerMovement.notifications m'
         = repeat PlayerMovement.Jumped n ++ PlayerMovement.notifications m1).
Proof.
  split.
  - induction n as [|n IH]; [reflexivity|].
    change (Nat.iter (S (S n)) (PlayerMovement2.jump applyImpulse) m2)
      with (PlayerMovement2.jump applyImpulse
              (Nat.iter (S n) (PlayerMovement2.jump applyImpulse) m2)).
    rewrite IH. unfold PlayerMovement2.jump at 1.
    destruct (PlayerMovement2.isGrounded m2) eqn:E.
    + unfold PlayerMovement2.jump. rewrite E. reflexivity.
    + unfold PlayerMovement2.jump. rewrite E. simpl. rewrite E. reflexivity.
  - intros Hg.
    destruct (jump1_grounded_iter n m1 Hg) as (Ig & _ & _ & Ib & In).
    cbv zeta. split; [exact Ig|]. split; [exact Ib | exact In].
Qed.

End Requests.

End JumpFacts.

(** ** The first player controller on the map *)

Module MotionFacts.

Import PlayerControllerMotion.

Section Engine.

Variable Math_sqrt : Q -> Q.
Variable Vector3_length : Vector3 -> Q.
Variable Vector3_normalize : Vector3 -> Vector3.
Variable Vector3_Cross : Vector3 -> Vector3 -> Vector3.

Local Abbreviation processPhysics := (processPhysics Math_sqrt).
Local Abbreviation processMovement :=
  (processMovement Math_sqrt Vector3_length Vector3_normalize Vector3_Cross).
Local Abbreviation update :=
  (update Math_sqrt Vector3_length Vector3_normalize Vector3_Cross).
Local Abbreviation run :=
  (run Math_sqrt Vector3_length Vector3_normalize Vector3_Cross).

Lemma applyMapBounds_facts (m : t) :
  let a := applyMapBounds m in
  (keys a = keys m /\ core a = core m /\ isGrounded a = isGrounded m
   /\ groundLevel a = groundLevel m /\ movementConfig a = movementConfig m
   /\ mapBounds a = mapBounds m)
  /\ vy (position a) = vy (position m)
  /\ vy (velocity a) = vy (velocity m)
  /\ (boundsOrdered (mapBounds m) ->
      (minX (mapBounds m) <= vx (position a)
       /\ vx (position a) <= maxX (mapBounds m))
      /\ (minZ (mapBounds m) <= vz (position a)
          /\ vz (position a) <= maxZ (mapBounds m))).
Proof.
  cbv zeta. unfold applyMapBounds.
  destruct (Qltb (vx (position m)) (minX (mapBounds m))) eqn:X1;
    [|destruct (Qgtb (vx (position m)) (maxX (mapBounds m))) eqn:X2];
    (destruct (Qltb (vz (position m)) (minZ (mapBounds m))) eqn:Z1;
     [|destruct (Qgtb (vz (position m)) (maxZ (mapBounds m))) eqn:Z2]);
    simpl; (split; [repeat split|]); (split; [reflexivity|]);
    (split; [reflexivity|]); intros [Bx Bz];
    try (apply Qltb_false in X1); try (apply Qgtb_false in X2);
    try (apply Qltb_false in Z1); try (apply Qgtb_false in Z2);
    repeat split; Lqa.lra.
Qed.

Lemma set_currentState_facts (s : MovementState) (m : t) :
  keys (set_currentState s m) = keys m
  /\ isGrounded (set_currentState s m) = isGrounded m
  /\ groundLevel (set_currentState s m) = groundLevel m
  /\ movementConfig (set_currentState s m) = movementConfig m
  /\ mapBounds (set_currentState s m) = mapBounds m
  /\ position (set_currentState s m) = position m
  /\ velocity (set_currentState s m) = velocity m
  /\ currentState (set_currentState s m) = s.
Proof. repeat split. Qed.

Lemma processPhysics_facts (deltaTime : Q) (m : t) :
  let p := processPhysics deltaTime m in
  (keys p = keys m /\ groundLevel p = groundLevel m
   /\ movementConfig p = movementConfig m /\ mapBounds p = mapBounds m)
  /\ (isGrounded p = true -> vy (position p) = groundLevel m)
  /\ (isGrounded p = false -> groundLevel m < vy (position p))
  /\ (boundsOrdered (mapBounds m) ->
      (minX (mapBounds m) <= vx (position p)
       /\ vx (position p) <= maxX (mapBounds m))
      /\ (minZ (mapBounds m) <= vz (position p)
          /\ vz (position p) <= maxZ (mapBounds m))).
Proof.
  cbv zeta. unfold PlayerControllerMotion.processPhysics. cbv zeta.
  match goal with
  | |- context [applyMapBounds ?x] => set (m1 := x)
  end.
  destruct (applyMapBounds_facts m1)
    as ((K & _ & G & L & C & B) & Y & _ & Hb).
  rewrite K, G, L, C, B, Y.
  assert (H1 : (keys m1 = keys m /\ groundLevel m1 = groundLevel m
                /\ movementConfig m1 = movementConfig m
                /\ mapBounds m1 = mapBounds m)
               /\ (isGrounded m1 = true -> vy (position m1) = groundLevel m)
               /\ (isGrounded m1 = false ->
                   groundLevel m < vy (position m1))).
  { unfold m1.
    match goal with
    | |- context [Qle_bool ?a ?b] => destruct (Qle_bool a b) eqn:E
    end.
    - match goal with
      | |- context [Qltb ?a ?b] => destruct (Qltb a b)
      end.
      + destruct (currentState m); simpl;
          (split; [repeat split|]);
          (split; [reflexivity | discriminate]).
      + simpl. split; [repeat split|]. split; [reflexivity | discriminate].
    - simpl. split; [repeat split|]. split; [discriminate|].
      intros _. apply Qle_bool_false in E. exact E. }
  destruct H1 as ((K1 & L1 & C1 & B1) & Hg & Ha).
  split; [repeat split; congruence|].
  split; [exact Hg|]. split; [exact Ha|].
  rewrite B1 in Hb. exact Hb.
Qed.

Lemma processMovement_facts (cameraDirection : Vector3) (deltaTime : Q)
    (m : t) :
  let q := processMovement cameraDirection deltaTime m in
  (keys q = keys m /\ groundLevel q = groundLevel m
   /\ movementConfig q = movementConfig m /\ mapBounds q = mapBounds m
   /\ position q = position m)
  /\ isGrounded q = isGrounded m && negb (key "space" m)
  /\ (key "space" m && isGrounded m = true ->
      vy (velocity q) = jumpForce (movementConfig m)
      /\ currentState q
         = if Qgtb (jumpForce (movementConfig m)) 0 then JUMPING
           else FALLING)
  /\ (key "space" m = false -> vy (velocity q) = vy (velocity m)).
Proof.
  cbv zeta. unfold PlayerControllerMotion.processMovement. cbv zeta.
  destruct (key "space" m) eqn:Ks, (isGrounded m) eqn:Eg; simpl.
  - match goal with
    | |- context [if ?b then (_, _) else (_, _)] => destruct b
    end; simpl; (split; [repeat split|]); (split; [reflexivity|]);
      (split; [intros _; split; reflexivity | discriminate]).
  - match goal with
    | |- context [if ?b then (_, _) else (_, _)] => destruct b
    end; simpl; rewrite ?Eg; simpl; (split; [repeat split|]);
      (split; [reflexivity|]); (split; discriminate).
  - match goal with
    | |- context [if ?b then (_, _) else (_, _)] => destruct b
    end; simpl; rewrite ?Eg; simpl; (split; [repeat split|]);
      (split; [reflexivity|]); (split; [discriminate | reflexivity]).
  - match goal with
    | |- context [if ?b then (_, _) else (_, _)] => destruct b
    end; simpl; rewrite ?Eg; simpl; (split; [repeat split|]);
      (split; [reflexivity|]); (split; [discriminate | reflexivity]).
Qed.


Lemma update_facts (cameraDirection : Vector3) (deltaTime : Q) (m : t) :
  let u := update cameraDirection deltaTime m in
  let p := processPhysics deltaTime m in
  (keys u = keys m /\ groundLevel u = groundLevel m
   /\ movementConfig u = movementConfig m /\ mapBounds u = mapBounds m)
  /\ position u = position p
  /\ isGrounded u = isGrounded p && negb (key "space" m)
  /\ (key "space" m && isGrounded p = true ->
      vy (velocity u) = jumpForce (movementConfig m)
      /\ currentState u
         = if Qgtb (jumpForce (movementConfig m)) 0 then JUMPING
           else FALLING).
Proof.
  cbv zeta. unfold PlayerControllerMotion.update.
  set (p := processPhysics deltaTime m).
  destruct (processPhysics_facts deltaTime m) as ((K & L & C & B) & _).
  fold p in K, L, C, B.
  destruct (processMovement_facts cameraDirection deltaTime p)
    as ((K' & L' & C' & B' & P') & G' & J' & _).
  simpl. unfold key in *. rewrite K in G', J'. rewrite C in J'.
  split; [repeat split; congruence|].
  split; [exact P'|]. split; [exact G'|].
  intros Hj. destruct (J' Hj) as [Jv Js]. split; [exact Jv|].
  unfold currentState in *. simpl.
  unfold PlayerController.regenerateMana.
  destruct (Qltb _ _); simpl; exact Js.
Qed.

Lemma step_onTheMap (e : Event) (m : t) :
  boundsOrdered (mapBounds m) -> onTheMap m ->
  onTheMap (step Math_sqrt Vector3_length Vector3_normalize Vector3_Cross e m)
  /\ mapBounds
       (step Math_sqrt Vector3_length Vector3_normalize Vector3_Cross e m)
     = mapBounds m
  /\ groundLevel
       (step Math_sqrt Vector3_length Vector3_normalize Vector3_Cross e m)
     = groundLevel m.
Proof.
  intros Hb Hm. destruct e as [code | code | cam dt]; simpl.
  - split; [exact Hm | split; reflexivity].
  - split; [exact Hm | split; reflexivity].
  - destruct (update_facts cam dt m) as ((K & L & C & B) & P & G & _).
    destruct (processPhysics_facts dt m) as (_ & Hg & Ha & Hin).
    split; [|split; assumption].
    unfold onTheMap. rewrite B, L, P, G.
    destruct (Hin Hb) as [Hx Hz].
    split; [exact Hx|]. split; [exact Hz|].
    destruct (isGrounded (processPhysics dt m)) eqn:Eg.
    + rewrite (Hg eq_refl). split; [Lqa.lra|]. intros _. reflexivity.
    + specialize (Ha eq_refl). split; [Lqa.lra | discriminate].
Qed.

(** X23. With a rectangular map, a player who is inside the map, not below the
    ground and at ground level whenever [isGrounded] holds stays so through
    every sequence of key events and frames, whatever the time steps, the
    velocity, the camera and the engine's vector functions; and one frame is
    enough to bring a player from anywhere into that state. *)
Theorem player_stays_on_the_map (events : list Event) (m : t)
    (Hbounds : boundsOrdered (mapBounds m))
    (Hstart : onTheMap m) :
  onTheMap (run events m)
  /\ mapBounds (run events m) = mapBounds m
  /\ groundLevel (run events m) = groundLevel m
  /\ forall (stray : t) (cameraDirection : Vector3) (deltaTime : Q),
       boundsOrdered (mapBounds stray) ->
       onTheMap (update cameraDirection deltaTime stray).
Proof.
  split; [|split; [|split]].
  - revert m Hbounds Hstart. unfold PlayerControllerMotion.run.
    induction events as [|e rest IH]; intros m Hb Hm; [exact Hm|].
    simpl. destruct (step_onTheMap e m Hb Hm) as (H1 & B1 & _).
    apply IH; [rewrite B1; exact Hb | exact H1].
  - revert m Hbounds Hstart. unfold PlayerControllerMotion.run.
    induction events as [|e rest IH]; intros m Hb Hm; [reflexivity|].
    simpl. destruct (step_onTheMap e m Hb Hm) as (H1 & B1 & _).
    rewrite IH; [exact B1 | rewrite B1; exact Hb | exact H1].
  - revert m Hbounds Hstart. unfold PlayerControllerMotion.run.
    induction events as [|e rest IH]; intros m Hb Hm; [reflexivity|].
    simpl. destruct (step_onTheMap e m Hb Hm) as (H1 & B1 & L1).
    rewrite IH; [exact L1 | rewrite B1; exact Hb | exact H1].
  - intros stray cam dt Hb.
    destruct (update_facts cam dt stray) as ((K & L & C & B) & P & G & _).
    destruct (processPhysics_facts dt stray) as (_ & Hg & Ha & Hin).
    unfold onTheMap. rewrite B, L, P, G.
    destruct (Hin Hb) as [Hx Hz].
    split; [exact Hx|]. split; [exact Hz|].
    destruct (isGrounded (processPhysics dt stray)) eqn:Eg.
    + rewrite (Hg eq_refl). split; [Lqa.lra|]. intros _. reflexivity.
    + specialize (Ha eq_refl). split; [Lqa.lra | discriminate].
Qed.

(** X24. While the space bar is held ([keys['space']] true), no frame ends with
    the player grounded: a frame whose physics step puts the player on the
    ground (the position at the end of the frame is at ground level) jumps
    again in the same frame, with [velocity.y = jumpForce] and, for a
    positive jump force, the state Jumping.  With the space bar up, the
    player is grounded at the end of a frame exactly when at ground
    level. *)
Theorem held_space_jumps_on_every_landing (cameraDirection : Vector3)
    (deltaTime : Q) (m : t) :
  let m' := update cameraDirection deltaTime m in
  (key "space" m = true ->
   isGrounded m' = false
   /\ (vy (position m') = groundLevel m ->
       vy (velocity m') = jumpForce (movementConfig m)
       /\ (0 < jumpForce (movementConfig m) -> currentState m' = JUMPING)))
  /\ (key "space" m = false ->
      (isGrounded m' = true <-> vy (position m') = groundLevel m)).
Proof.
  cbv zeta.
  destruct (update_facts cameraDirection deltaTime m)
    as (_ & P & G & J).
  destruct (processPhysics_facts deltaTime m) as (_ & Hg & Ha & _).
  split.
  - intros Ks. rewrite Ks in G, J. rewrite G. simpl negb.
    rewrite andb_false_r. split; [reflexivity|].
    intros Hy. rewrite P in Hy.
    destruct (isGrounded (processPhysics deltaTime m)) eqn:Eg.
    + destruct (J eq_refl) as [Jv Js]. split; [exact Jv|].
      intros Hpos. rewrite Js. apply Qgtb_true in Hpos. rewrite Hpos.
      reflexivity.
    + specialize (Ha eq_refl). rewrite Hy in Ha. exfalso.
      apply (Qlt_irrefl _ Ha).
  - intros Ks. rewrite Ks in G. rewrite G. simpl negb.
    rewrite andb_true_r, P. split; [exact Hg|].
    intros Hy. destruct (isGrounded (processPhysics deltaTime m)) eqn:Eg;
      [reflexivity|].
    specialize (Ha eq_refl). rewrite Hy in Ha. exfalso.
    apply (Qlt_irrefl _ Ha).
Qed.

(** *** Every jump ends *)

Lemma natQ_succ (n : nat) :
  inject_Z (Z.of_nat (S n)) == inject_Z (Z.of_nat n) + 1.
Proof.
  rewrite Nat2Z.inj_succ. unfold Z.succ. rewrite inject_Z_plus.
  reflexivity.
Qed.

Lemma natQ_bound (q a : Q) :
  0 < a -> exists n : nat, q <= inject_Z (Z.of_nat n) * a.
Proof.
  intros Ha. destruct (Qarchimedean (q / a)) as [p Hp].
  exists (Pos.to_nat p). rewrite positive_nat_Z.
  assert (E : q == (q / a) * a) by (field; Lqa.lra).
  assert (H : 0 <= (inject_Z (Z.pos p) - q / a) * a)
    by (apply Qmult_le_0_compat;
        [change (inject_Z (Z.pos p)) with (Z.pos p # 1) | ]; Lqa.lra).
  Lqa.lra.
Qed.

Lemma fallStep_facts (g maxFall dt : Q) (s : Q * Q) :
  0 < dt -> g < 0 ->
  maxFall <= snd (fallStep g maxFall dt s)
  /\ (snd (fallStep g maxFall dt s) <= maxFall
      \/ snd (fallStep g maxFall dt s) <= snd s + g * dt)
  /\ fst (fallStep g maxFall dt s)
     = fst s + snd (fallStep g maxFall dt s) * dt
  /\ (snd s <= maxFall -> snd (fallStep g maxFall dt s) <= maxFall).
Proof.
  intros Hdt Hg. unfold fallStep, Math_max. simpl.
  assert (Hgd : g * dt < 0).
  { assert (H : 0 < (- g) * dt) by (apply Qmult_lt_0_compat; Lqa.lra).
    Lqa.lra. }
  split; [apply Q.le_max_r|]. split; [|split; [reflexivity|]].
  - destruct (Q.max_spec (snd s + g * dt) maxFall) as [[_ E] | [_ E]];
      rewrite E; [left | right]; Lqa.lra.
  - intros H. apply Q.max_lub; Lqa.lra.
Qed.

Lemma fall_reaches_terminal_velocity (g maxFall dt : Q) :
  0 < dt -> g < 0 ->
  forall (budget : nat) (s : Q * Q),
    snd s - maxFall <= inject_Z (Z.of_nat budget) * (- (g * dt)) ->
    exists k : nat,
      snd (Nat.iter k (fallStep g maxFall dt) s) <= maxFall.
Proof.
  intros Hdt Hg. induction budget as [|budget IH]; intros s Hs.
  - exists 0%nat. change (inject_Z (Z.of_nat 0)) with 0 in Hs.
    simpl Nat.iter. Lqa.lra.
  - destruct (Qlt_le_dec maxFall (snd s)) as [Hfast | Hslow];
      [|exists 0%nat; exact Hslow].
    destruct (fallStep_facts g maxFall dt s Hdt Hg) as (_ & Hv & _ & _).
    destruct Hv as [Hv | Hv].
    + exists 1%nat. exact Hv.
    + destruct (IH (fallStep g maxFall dt s)) as [k Hk].
      * rewrite natQ_succ in Hs. Lqa.lra.
      * exists (S k). rewrite Nat.iter_succ_r. exact Hk.
Qed.

Lemma fall_reaches_ground (g maxFall dt ground : Q) :
  0 < dt -> g < 0 -> maxFall < 0 ->
  forall (budget : nat) (s : Q * Q),
    snd s <= maxFall ->
    fst s - ground <= inject_Z (Z.of_nat budget) * (- (maxFall * dt)) ->
    exists j : nat,
      fst (Nat.iter j (fallStep g maxFall dt) s) <= ground.
Proof.
  intros Hdt Hg HF. induction budget as [|budget IH]; intros s Hv Hs.
  - exists 0%nat. change (inject_Z (Z.of_nat 0)) with 0 in Hs.
    simpl Nat.iter. Lqa.lra.
  - destruct (Qlt_le_dec ground (fst s)) as [Hhigh | Hlow];
      [|exists 0%nat; exact Hlow].
    destruct (fallStep_facts g maxFall dt s Hdt Hg) as (_ & _ & Hy & Hkeep).
    specialize (Hkeep Hv).
    destruct (IH (fallStep g maxFall dt s) Hkeep) as [j Hj].
    + rewrite Hy. rewrite natQ_succ in Hs.
      assert (H : 0 <= (maxFall - snd (fallStep g maxFall dt s)) * dt)
        by (apply Qmult_le_0_compat; Lqa.lra).
      Lqa.lra.
    + exists (S j). rewrite Nat.iter_succ_r. exact Hj.
Qed.

Lemma fall_comes_down (g maxFall dt ground : Q) (s : Q * Q) :
  0 < dt -> g < 0 -> maxFall < 0 ->
  exists n : nat,
    fst (Nat.iter (S n) (fallStep g maxFall dt) s) <= ground.
Proof.
  intros Hdt Hg HF.
  assert (Ha : 0 < - (g * dt)).
  { assert (H : 0 < (- g) * dt) by (apply Qmult_lt_0_compat; Lqa.lra).
    Lqa.lra. }
  assert (Hb : 0 < - (maxFall * dt)).
  { assert (H : 0 < (- maxFall) * dt) by (apply Qmult_lt_0_compat; Lqa.lra).
    Lqa.lra. }
  set (s1 := fallStep g maxFall dt s).
  destruct (natQ_bound (snd s1 - maxFall) _ Ha) as [b1 Hb1].
  destruct (fall_reaches_terminal_velocity g maxFall dt Hdt Hg b1 s1 Hb1)
    as [k Hk].
  set (s2 := Nat.iter k (fallStep g maxFall dt) s1) in *.
  destruct (natQ_bound (fst s2 - ground) _ Hb) as [b2 Hb2].
  destruct (fall_reaches_ground g maxFall dt ground Hdt Hg HF b2 s2 Hk Hb2)
    as [j Hj].
  exists (j + k)%nat. rewrite Nat.iter_succ_r, Nat.iter_add. exact Hj.
Qed.

Lemma processPhysics_in_the_air (deltaTime : Q) (m : t) :
  isGrounded m = false ->
  let s := fallStep (gravity (movementConfig m))
             (maxFallSpeed (movementConfig m)) deltaTime
             (vy (position m), vy (velocity m)) in
  let p := processPhysics deltaTime m in
  (fst s <= groundLevel m -> isGrounded p = true)
  /\ (groundLevel m < fst s ->
      isGrounded p = false
      /\ vy (position p) = fst s /\ vy (velocity p) = snd s).
Proof.
  intros Eg. cbv zeta. unfold PlayerControllerMotion.processPhysics.
  cbv zeta. rewrite Eg. simpl negb. cbv iota.
  unfold fallStep. simpl fst. simpl snd.
  set (v1 := Math_max (vy (velocity m)
                       + gravity (movementConfig m) * deltaTime)
               (maxFallSpeed (movementConfig m))).
  match goal with
  | |- context [applyMapBounds ?x] => set (m1 := x)
  end.
  destruct (applyMapBounds_facts m1) as ((_ & _ & G & _) & Y & V & _).
  rewrite G, Y, V.
  subst m1. cbn [vy Vector3_add Vector3_scale].
  destruct (Qle_bool (vy (position m) + v1 * deltaTime) (groundLevel m))
    eqn:E.
  - split.
    + intros _. destruct (Qltb v1 0); [|reflexivity].
      destruct (currentState m); reflexivity.
    + intros Hhigh. apply Qle_bool_iff in E. exfalso. Lqa.lra.
  - split.
    + intros Hlow. apply Qle_bool_false in E. exfalso. Lqa.lra.
    + intros _. simpl. repeat split.
Qed.

Lemma update_in_the_air (cameraDirection : Vector3) (deltaTime : Q) (m : t) :
  key "space" m = false -> isGrounded m = false ->
  let s := fallStep (gravity (movementConfig m))
             (maxFallSpeed (movementConfig m)) deltaTime
             (vy (position m), vy (velocity m)) in
  let u := update cameraDirection deltaTime m in
  (key "space" u = false /\ movementConfig u = movementConfig m
   /\ groundLevel u = groundLevel m)
  /\ (fst s <= groundLevel m -> isGrounded u = true)
  /\ (groundLevel m < fst s ->
      isGrounded u = false
      /\ (vy (position u), vy (velocity u)) = s).
Proof.
  intros Ks Eg. cbv zeta.
  destruct (update_facts cameraDirection deltaTime m)
    as ((K & L & C & _) & P & G & _).
  destruct (processPhysics_in_the_air deltaTime m Eg) as [Hland Hfly].
  destruct (processPhysics_facts deltaTime m) as ((Kp & _) & _).
  destruct (processMovement_facts cameraDirection deltaTime
              (processPhysics deltaTime m)) as (_ & _ & _ & Vq).
  assert (Ksp : key "space" (processPhysics deltaTime m) = false)
    by (unfold key in *; rewrite Kp; exact Ks).
  specialize (Vq Ksp).
  assert (Vu : vy (velocity (update cameraDirection deltaTime m))
               = vy (velocity (processPhysics deltaTime m)))
    by exact Vq.
  rewrite Ks in G. simpl negb in G. rewrite andb_true_r in G.
  split; [unfold key in *; rewrite K; repeat split; assumption|].
  split.
  - intros Hlow. rewrite G. apply Hland. exact Hlow.
  - intros Hhigh. destruct (Hfly Hhigh) as (Ga & Ya & Va).
    split; [rewrite G; exact Ga|].
    rewrite P, Vu, Ya, Va. symmetry. apply surjective_pairing.
Qed.



Lemma lands_when_the_fall_does (cameraDirection : Vector3) (deltaTime : Q)
    (frames : nat) :
  forall m : t,
    key "space" m = false -> isGrounded m = false ->
    fst (Nat.iter (S frames)
           (fallStep (gravity (movementConfig m))
              (maxFallSpeed (movementConfig m)) deltaTime)
           (vy (position m), vy (velocity m)))
    <= groundLevel m ->
    exists n : nat,
      isGrounded (Nat.iter n (update cameraDirection deltaTime) m) = true.
Proof.
  induction frames as [|frames IH]; intros m Ks Eg Hfall.
  - exists 1%nat. simpl.
    destruct (update_in_the_air cameraDirection deltaTime m Ks Eg)
      as (_ & Hland & _).
    apply Hland. exact Hfall.
  - destruct (update_in_the_air cameraDirection deltaTime m Ks Eg)
      as ((Ku & Cu & Lu) & Hland & Hfly).
    set (s1 := fallStep (gravity (movementConfig m))
                 (maxFallSpeed (movementConfig m)) deltaTime
                 (vy (position m), vy (velocity m))) in *.
    destruct (Qlt_le_dec (groundLevel m) (fst s1)) as [Hhigh | Hlow].
    + destruct (Hfly Hhigh) as [Gu Su].
      destruct (IH (update cameraDirection deltaTime m) Ku Gu) as [n Hn].
      * rewrite Cu, Lu, Su. unfold s1.
        rewrite <- Nat.iter_succ_r. exact Hfall.
      * exists (S n). rewrite Nat.iter_succ_r. exact Hn.
    + exists 1%nat. simpl. apply Hland. exact Hlow.
Qed.

(** X25. Every jump ends.  With gravity pulling down, a terminal fall speed below
    zero and frames of some fixed positive length, a player with the space
    bar up is on the ground after finitely many frames, from any height and
    with any velocity. *)
Theorem every_jump_lands (cameraDirection : Vector3) (deltaTime : Q) (m : t)
    (Hdt : 0 < deltaTime)
    (Hgravity : gravity (movementConfig m) < 0)
    (HmaxFall : maxFallSpeed (movementConfig m) < 0)
    (Hspace : key "space" m = false) :
  exists frames : nat,
    isGrounded (Nat.iter frames (update cameraDirection deltaTime) m) = true.
Proof.
  destruct (isGrounded m) eqn:Eg; [exists 0%nat; exact Eg|].
  destruct (fall_comes_down (gravity (movementConfig m))
              (maxFallSpeed (movementConfig m)) deltaTime (groundLevel m)
              (vy (position m), vy (velocity m)) Hdt Hgravity HmaxFall)
    as [n Hn].
  exact (lands_when_the_fall_does cameraDirection deltaTime n m Hspace Eg Hn).
Qed.

End Engine.

Lemma player_stays_on_the_map_witness :
  onTheMap
    (run (fun a => a) (fun _ => 1) (fun v => v) (fun a _ => a)
       [Keydown "KeyW"; Keydown "Space";
        Frame (mkVector3 0 0 1) (16 # 1000);
        Frame (mkVector3 0 0 1) 100; Keyup "Space";
        Frame (mkVector3 1 0 0) 100]
       initial).
Proof.
  refine (proj1 (player_stays_on_the_map (fun a => a) (fun _ => 1)
                   (fun v => v) (fun a _ => a)
                   [Keydown "KeyW"; Keydown "Space";
                    Frame (mkVector3 0 0 1) (16 # 1000);
                    Frame (mkVector3 0 0 1) 100; Keyup "Space";
                    Frame (mkVector3 1 0 0) 100]
                   initial _ _)).
  - split; vm_compute; discriminate.
  - unfold onTheMap. simpl.
    repeat split; try reflexivity; vm_compute; discriminate.
Defined.

Lemma every_jump_lands_witness :
  exists frames : nat,
    isGrounded
      (Nat.iter frames
         (update (fun a => a) (fun _ => 1) (fun v => v) (fun a _ => a)
            (mkVector3 0 0 1) (1 # 60))
         (jump initial)) = true.
Proof.
  apply (every_jump_lands (fun a => a) (fun _ => 1) (fun v => v)
           (fun a _ => a) (mkVector3 0 0 1) (1 # 60) (jump initial));
    reflexivity.
Defined.

End MotionFacts.

(** ** The pause menu and the render loop *)

Module PauseFacts.

Import PauseMenu.

Lemma pause_coherent (pointerLocked : bool) (m : t) :
  coherent m -> coherent (pause pointerLocked m).
Proof.
  intros [Hd Ha]. unfold pause. destruct (isPaused m) eqn:E.
  - split; [rewrite E; exact Hd | rewrite E; exact Ha].
  - split; [reflexivity|]. destruct pointerLocked; simpl; exact Ha.
Qed.

Lemma resume_coherent (m : t) : coherent m -> coherent (resume m).
Proof.
  intros [Hd Ha]. unfold resume. destruct (isPaused m) eqn:E; simpl.
  - split; [reflexivity|]. destruct (hasResumeCallback m); simpl; exact Ha.
  - split; [rewrite E; exact Hd | rewrite E; exact Ha].
Qed.

Lemma step_coherent (e : Event) (m : t) :
  coherent m ->
  coherent (step e m)
  /\ hasRestartCallback (step e m) = hasRestartCallback m
  /\ restartCalls (calls (step e m))
     = (restartCalls (calls m)
        + match e with
          | RestartButton => if hasRestartCallback m then 1 else 0
          | _ => 0
          end)%nat.
Proof.
  intros Hm. destruct e as [locked | | | | locked |]; simpl.
  - unfold togglePause. destruct (isPaused m) eqn:E.
    + split; [apply resume_coherent; exact Hm|]. unfold resume. rewrite E.
      simpl. destruct (hasResumeCallback m); simpl; 
        (split; [reflexivity | unfold restartCalls; simpl; lia]).
    + split; [apply pause_coherent; exact Hm|]. unfold pause. rewrite E.
      destruct locked; simpl;
        (split; [reflexivity | unfold restartCalls; simpl; lia]).
  - split; [apply resume_coherent; exact Hm|]. unfold resume.
    destruct (isPaused m), (hasResumeCallback m); simpl; 
      (split; [reflexivity | unfold restartCalls; simpl; lia]).
  - split.
    + unfold restartClick. apply resume_coherent.
      destruct (hasRestartCallback m); [|exact Hm].
      destruct Hm as [Hd Ha]. split; simpl; assumption.
    + unfold restartClick, resume.
      destruct (hasRestartCallback m) eqn:R, (isPaused m) eqn:E,
        (hasResumeCallback m) eqn:C; simpl; rewrite ?E, ?C; simpl;
        rewrite ?R;
        (split; [reflexivity | unfold restartCalls; simpl; lia]).
  - split; [apply resume_coherent; exact Hm|]. unfold resume.
    destruct (isPaused m), (hasResumeCallback m); simpl; 
      (split; [reflexivity | unfold restartCalls; simpl; lia]).
  - split; [apply pause_coherent; exact Hm|]. unfold pause.
    destruct (isPaused m), locked; simpl; 
      (split; [reflexivity | unfold restartCalls; simpl; lia]).
  - split; [apply resume_coherent; exact Hm|]. unfold resume.
    destruct (isPaused m), (hasResumeCallback m); simpl; 
      (split; [reflexivity | unfold restartCalls; simpl; lia]).
Qed.

(** X26. Whatever sequence of Escape presses, button clicks, overlay clicks and
    direct [pause()] and [resume()] calls the menu receives after its
    construction: the overlay is displayed exactly while the menu is
    paused, and the render loop is never stopped twice in a row nor started
    twice in a row (the calls to the engine alternate, beginning with a
    stop, the last one being a stop exactly while paused).  The restart
    callback, when one is set, is called once for every click on the
    restart button, paused or not. *)
Theorem pause_menu_calls_alternate (events : list Event)
    (resumeCallback restartCallback : bool) :
  let m := run events (create resumeCallback restartCallback) in
  pauseOverlayDisplay m = (if isPaused m then display_block else display_none)
  /\ alternates (isPaused m) (engineCalls (calls m)) = true
  /\ restartCalls (calls m)
     = (if restartCallback then restartClicks events else 0%nat).
Proof.
  cbv zeta.
  assert (Hgen : forall (l : list Event) (u : t),
             coherent u ->
             coherent (run l u)
             /\ restartCalls (calls (run l u))
                = (restartCalls (calls u)
                   + (if hasRestartCallback u then restartClicks l
                      else 0))%nat).
  { unfold run. induction l as [|e rest IH]; intros u Hu.
    - simpl. split; [exact Hu|].
      destruct (hasRestartCallback u); unfold restartClicks; simpl; lia.
    - simpl. destruct (step_coherent e u Hu) as (H1 & R1 & N1).
      destruct (IH _ H1) as [H2 N2]. split; [exact H2|].
      rewrite N2, N1, R1.
      destruct (hasRestartCallback u), e; unfold restartClicks; simpl; lia. }
  destruct (Hgen events (create resumeCallback restartCallback))
    as [[Hd Ha] Hn].
  - split; reflexivity.
  - split; [exact Hd|]. split; [exact Ha|].
    rewrite Hn. simpl. destruct restartCallback; lia.
Qed.

End PauseFacts.

(** ** The mouse between two frames, and the frame that does not finish *)

Module PlayerFrameFacts.

Import PlayerFrame.

Lemma mouseMoves_last (moves : list (Q * Q)) (last : Q * Q) (p : t) :
  InputEvents.isActive (inputManager p) = true ->
  let p' := deliverAll (mouseMoves (moves ++ [last])) p in
  camera p' = camera p
  /\ movement p' = movement p
  /\ InputEvents.isActive (inputManager p') = true
  /\ InputManager.mouseMovement (InputEvents.inputState (inputManager p'))
     = last.
Proof.
  revert p. unfold deliverAll, mouseMoves.
  induction moves as [|d rest IH]; intros p Ha; cbv zeta.
  - simpl. unfold InputEvents.mousemove. rewrite Ha. simpl.
    destruct last. repeat split.
  - simpl.
    set (p1 := deliver (InputEvents.Mousemove true (fst d) (snd d)) p).
    assert (H1 : InputEvents.isActive (inputManager p1) = true).
    { unfold p1. simpl. unfold InputEvents.mousemove. rewrite Ha.
      reflexivity. }
    destruct (IH p1 H1) as (Hc & Hmv & Hact & Hm).
    split; [rewrite Hc; unfold p1; simpl; reflexivity|].
    split; [rewrite Hmv; unfold p1; simpl; reflexivity|].
    split; [exact Hact | exact Hm].
Qed.

(** X27. Mouse moves are not added up: of all the moves that reach an active
    manager with the pointer locked between two frames, the next
    [Player.update] turns the camera by the last one only, as if the others
    had not happened.  That update does not finish: right after the camera,
    [movement.update] throws ([this.applyGravity] is not a function), so
    nothing after it runs and the input manager does not clear the
    movement.  A further [update] therefore turns the camera by the same
    mouse move once more, and throws again. *)
Theorem last_mouse_move_turns_camera_at_every_update (round : Q -> Q)
    (Math_sqrt : Q -> Q) (moves : list (Q * Q)) (last : Q * Q)
    (deltaTime nextDeltaTime : Q) (p : t)
    (Hactive : InputEvents.isActive (inputManager p) = true) :
  let q := deliverAll (mouseMoves (moves ++ [last])) p in
  let first := update round Math_sqrt deltaTime q in
  let second := update round Math_sqrt nextDeltaTime (stateOf first) in
  errorOf first = Some "TypeError: this.applyGravity is not a function"%string
  /\ camera (stateOf first)
     = CameraMotion.update round true last deltaTime (camera p)
  /\ inputManager (stateOf first) = inputManager q
  /\ movement (stateOf first) = movement p
  /\ InputManager.mouseMovement
       (InputEvents.inputState (inputManager (stateOf first))) = last
  /\ errorOf second
     = Some "TypeError: this.applyGravity is not a function"%string
  /\ camera (stateOf second)
     = CameraMotion.update round true last nextDeltaTime
         (camera (stateOf first)).
Proof.
  cbv zeta.
  destruct (mouseMoves_last moves last p Hactive) as (Hc & Hmv & _ & Hm).
  set (q := deliverAll (mouseMoves (moves ++ [last])) p) in *.
  assert (E : forall (dt : Q) (r : t),
             update round Math_sqrt dt r
             = Threw "TypeError: this.applyGravity is not a function"
                 (mk (inputManager r)
                    (CameraMotion.update round true
                       (InputManager.mouseMovement
                          (InputEvents.inputState (inputManager r)))
                       dt (camera r))
                    (movement r))).
  { intros dt r. unfold update. rewrite Movement.update_throws.
    reflexivity. }
  rewrite (E deltaTime q). simpl stateOf. rewrite E. simpl.
  rewrite Hm, Hc, Hmv. repeat split.
Qed.

Lemma last_mouse_move_turns_camera_at_every_update_witness :
  let p :=
    mk InputEvents.create (ThirdPersonCamera.create None)
      (PlayerMovement.create InputManager.initial
         (PlayerMovement.mkBody (mkVector3 0 0 0) (mkVector3 0 1 0))) in
  let q := deliverAll (mouseMoves [(100, 0); (-40, 0); (10, 0)]) p in
  let first := update (fun x => x) sqrtOfSquare (16 # 1000) q in
  let second := update (fun x => x) sqrtOfSquare (16 # 1000) (stateOf first) in
  ThirdPersonCamera.targetMouseX (camera (stateOf first))
  = 0 + 10 * (5 # 1000)
  /\ ThirdPersonCamera.targetMouseX (camera (stateOf second))
     = 0 + 10 * (5 # 1000) + 10 * (5 # 1000).
Proof.
  cbv zeta.
  destruct (last_mouse_move_turns_camera_at_every_update (fun x => x)
              sqrtOfSquare [(100, 0); (-40, 0)] (10, 0) (16 # 1000)
              (16 # 1000)
              (mk InputEvents.create (ThirdPersonCamera.create None)
                 (PlayerMovement.create InputManager.initial
                    (PlayerMovement.mkBody (mkVector3 0 0 0)
                       (mkVector3 0 1 0))))
              eq_refl) as (_ & Hfirst & _ & _ & _ & _ & Hsecond).
  split.
  - exact (f_equal ThirdPersonCamera.targetMouseX Hfirst).
  - exact (f_equal ThirdPersonCamera.targetMouseX Hsecond).
Defined.

End PlayerFrameFacts.
